(** * BaselineFlow: the feature-compatibility engine, embedded and verified

    The development follows the TypeScript sources:
    - [src/core/BaselineChecker.ts]   the feature registry and matcher,
    - [src/analyzers/CSSAnalyzer.ts]  the stylesheet extractor,
    - [src/analyzers/SimpleJavaScriptAnalyzer]  the line-based script extractor,
    - [src/core/Analyzer.ts]          the aggregator,
    - [src/reporters/JSONReporter.ts] the risk score of the JSON report.

    A JavaScript string is a sequence of UTF-16 code units; the model keeps
    the code units below 256 (type [ascii]).  A JavaScript [Map] iterates in
    insertion order, so the registry is an association list. *)

From Stdlib Require Import String Ascii List Bool Arith ZArith Lia.
From Stdlib Require Import FinFun QArith Qround Qpower Qabs Lqa.
From Stdlib Require PrimFloat SpecFloat FloatOps.
From Stdlib Require Import Sorted Permutation.
Import ListNotations.
Close Scope Q_scope.
Set Warnings "-register-all".
Open Scope string_scope.

(* ================================================================== *)
(** * JavaScript string primitives *)

Module JS.

(** The double-quote character (code 34). *)
Definition dquote : string := String "034"%char EmptyString.

Definition code (c : ascii) : nat := nat_of_ascii c.

Definition in_range (lo hi : nat) (c : ascii) : bool :=
  (lo <=? code c)%nat && (code c <=? hi)%nat.

Definition is_upper (c : ascii) : bool := in_range 65 90 c.
Definition is_lower (c : ascii) : bool := in_range 97 122 c.
Definition is_alpha (c : ascii) : bool := is_upper c || is_lower c.
Definition is_digit (c : ascii) : bool := in_range 48 57 c.

(** [\s] and the characters [trim] strips, among the code units below
    256: TAB, LF, VT, FF, CR, SPACE and NBSP. *)
Definition is_space (c : ascii) : bool :=
  in_range 9 13 c || (code c =? 32)%nat || (code c =? 160)%nat.

(** [String.prototype.toLowerCase] on one code unit: A-Z and the
    Latin-1 capitals (all of 192..222 but the multiplication sign). *)
Definition lower_char (c : ascii) : ascii :=
  if is_upper c then ascii_of_nat (code c + 32)
  else if in_range 192 222 c && negb (code c =? 215)%nat
       then ascii_of_nat (code c + 32)
       else c.

Fixpoint toLowerCase (s : string) : string :=
  match s with
  | EmptyString => EmptyString
  | String c s' => String (lower_char c) (toLowerCase s')
  end.

(** [s.startsWith(p)] *)
Definition startsWith (s p : string) : bool := String.prefix p s.

(** [s.slice(n)] for [0 <= n] *)
Fixpoint drop (n : nat) (s : string) : string :=
  match n, s with
  | O, _ => s
  | S _, EmptyString => EmptyString
  | S n', String _ s' => drop n' s'
  end.

(** [s.endsWith(p)] *)
Definition endsWith (s p : string) : bool :=
  (String.length p <=? String.length s)%nat
  && String.eqb (drop (String.length s - String.length p) s) p.

(** [s.slice(0, n)] *)
Fixpoint take (n : nat) (s : string) : string :=
  match n, s with
  | O, _ => EmptyString
  | S _, EmptyString => EmptyString
  | S n', String c s' => String c (take n' s')
  end.

(** [s.includes(sub)] *)
Fixpoint includes (s sub : string) : bool :=
  if String.prefix sub s then true
  else match s with
       | EmptyString => false
       | String _ s' => includes s' sub
       end.

(** [s.replace(pat, rep)] with a string pattern: the first occurrence. *)
Fixpoint replaceFirst (pat rep s : string) : string :=
  if String.prefix pat s then rep ++ drop (String.length pat) s
  else match s with
       | EmptyString => EmptyString
       | String c s' => String c (replaceFirst pat rep s')
       end.

Fixpoint trimStart (s : string) : string :=
  match s with
  | EmptyString => EmptyString
  | String c s' => if is_space c then trimStart s' else s
  end.

Fixpoint trimEnd (s : string) : string :=
  match s with
  | EmptyString => EmptyString
  | String c s' =>
      match trimEnd s' with
      | EmptyString => if is_space c then EmptyString
                       else String c EmptyString
      | t => String c t
      end
  end.

Definition trim (s : string) : string := trimEnd (trimStart s).

(** [s.split(sep)] for a one-character separator: never empty, the
    empty string splits into one empty piece. *)
Fixpoint split (sep : ascii) (s : string) : list string :=
  match s with
  | EmptyString => [EmptyString]
  | String c s' =>
      if Ascii.eqb c sep then EmptyString :: split sep s'
      else match split sep s' with
           | [] => [String c EmptyString]
           | l :: ls => String c l :: ls
           end
  end.

(** The line feed, code 10. *)
Definition LF : ascii := "010"%char.

(** [arr.pop()] as an expression: the last element, if any. *)
Definition pop (xs : list string) : option string :=
  match rev xs with
  | [] => None
  | x :: _ => Some x
  end.

(** Truthiness of a possibly missing string: [undefined] and the empty
    string are falsy. *)
Definition truthy (s : option string) : bool :=
  match s with
  | Some EmptyString | None => false
  | Some _ => true
  end.

(** [arr.includes(x)] on an array of strings. *)
Definition arrayIncludes (xs : list string) (x : string) : bool :=
  existsb (String.eqb x) xs.

End JS.

(* ================================================================== *)
(** * Data model ([src/types/index.ts]) *)

(** The three tiers; the nullable [baseline] field is [option BaselineTier]. *)
Inductive BaselineTier : Type :=
| WidelyAvailable
| NewlyAvailable
| Limited.

Definition tier_name (t : BaselineTier) : string :=
  match t with
  | WidelyAvailable => "widely-available"
  | NewlyAvailable => "newly-available"
  | Limited => "limited"
  end.

Definition tier_eqb (a b : BaselineTier) : bool :=
  match a, b with
  | WidelyAvailable, WidelyAvailable
  | NewlyAvailable, NewlyAvailable
  | Limited, Limited => true
  | _, _ => false
  end.

Inductive Severity : Type := SevError | SevWarning | SevInfo.

(** A [BrowserSupport] object: its own keys in insertion order, each with
    a possibly [undefined] value.  [{}] is [[]]. *)
Definition BrowserSupport : Type := list (string * option string).

Module BaselineConfig.
Record t : Type := mk {
  target : string;
  browsers : list string;
  exceptions : list string;
  ignoreFiles : list string;
  generateFixes : bool;
  reportFormat : string
}.
End BaselineConfig.

(** Lookup of an own property in an object literal. *)
Fixpoint assoc {A : Type} (k : string) (kvs : list (string * A)) : option A :=
  match kvs with
  | [] => None
  | (k', v) :: rest => if String.eqb k' k then Some v else assoc k rest
  end.

(* ================================================================== *)
(** * Lookups in object literals

    An object literal inherits the members of [Object.prototype]: for a
    key that is none of its own properties, [object[key]] is [undefined]
    unless the key names one of these members, and then it is a function,
    or the prototype itself for [__proto__]: a truthy value without
    enumerable properties of its own. *)

Module JSObject.

Definition inheritedMembers : list string :=
  [ "constructor"; "__defineGetter__"; "__defineSetter__"; "hasOwnProperty";
    "__lookupGetter__"; "__lookupSetter__"; "isPrototypeOf";
    "propertyIsEnumerable"; "toString"; "valueOf"; "__proto__";
    "toLocaleString" ].

Definition inherits (key : string) : bool :=
  JS.arrayIncludes inheritedMembers key.

Inductive Member (A : Type) : Type :=
| Own (a : A)
| Inherited
| Undefined.

Arguments Own {A} a.
Arguments Inherited {A}.
Arguments Undefined {A}.

(** [object[key]] for the object literal with the properties [own]. *)
Definition lookup {A : Type} (own : list (string * A)) (key : string)
  : Member A :=
  match assoc key own with
  | Some a => Own a
  | None => if inherits key then Inherited else Undefined
  end.

End JSObject.

(* ================================================================== *)
(** * The records of the analysis *)

Module FeatureUsage.
Record t : Type := mk {
  feature : string;
  featureId : string;
  file : string;
  line : nat;
  column : nat;
  context : string;
  baseline : option BaselineTier;
  browsers : BrowserSupport;
  severity : Severity;
  suggestion : option string;
  polyfill : JSObject.Member string;
  alternative : JSObject.Member string
}.
End FeatureUsage.

Inductive FileType : Type :=
| FtCss | FtJavascript | FtHtml | FtTypescript | FtJsx | FtTsx.

Module FileAnalysis.
Record t : Type := mk {
  file : string;
  type : FileType;
  features : list FeatureUsage.t
}.
End FileAnalysis.

(* ================================================================== *)
(** * The feature dataset (package [web-features], an external input) *)

Module Dataset.

(** [feature.status]: the raw baseline level (["high"], ["low"], or
    [false], which is [None]) and the per-browser minimum versions. *)
Record Status : Type := mkStatus {
  baseline : option string;
  support : option (list (string * string))
}.

Record Feature : Type := mkFeature {
  name : option string;
  compat_features : option (list string);
  status : option Status
}.

(** [Object.entries(features)] *)
Definition t : Type := list (string * Feature).

End Dataset.

(* ================================================================== *)
(** * [BaselineChecker] ([src/core/BaselineChecker.ts]) *)

Module BaselineChecker.
Import Dataset.

(** ** The [Map<string, any>] of the checker *)

Definition FeatureMap : Type := list (string * Feature).

Definition has (m : FeatureMap) (k : string) : bool :=
  match assoc k m with Some _ => true | None => false end.

Definition get (m : FeatureMap) (k : string) : option Feature := assoc k m.

(** [Map.prototype.set]: an existing key keeps its place. *)
Fixpoint set (m : FeatureMap) (k : string) (v : Feature) : FeatureMap :=
  match m with
  | [] => [(k, v)]
  | (k', v') :: rest =>
      if String.eqb k' k then (k', v) :: rest else (k', v') :: set rest k v
  end.

Record t : Type := mk {
  config : BaselineConfig.t;
  featureMap : FeatureMap
}.

Definition mappings : list (string * list string) :=
  [ ("flexbox", ["flex"; "flexbox"; "css-flexbox"]);
    ("css-grid", ["grid"; "css-grid"; "grid-template-columns"]);
    ("container-queries", ["container-queries"; "@container"]);
    ("custom-properties", ["css-variables"; "css-custom-properties"; "--"]);
    ("fetch", ["fetch"; "fetch-api"]);
    ("promises", ["promise"; "promises"]);
    ("async-functions", ["async"; "async-await"]);
    ("arrow-functions", ["arrow-functions"; "=>"]);
    ("template-literals", ["template-literals"; "template-strings"]);
    ("destructuring-assignment", ["destructuring"]);
    ("spread-syntax", ["spread-operator"; "..."]);
    ("optional-chaining", ["?."]);
    ("nullish-coalescing", ["??"]) ].

(** [mappings[id]] is read here as the own property of that name.  The
    ids of the dataset are feature ids, lowercase words joined by hyphens:
    none names a member that objects inherit, for which [mappings[id]]
    would be no array and the construction of the index would throw.
    Statements about this construction say so. *)
Definition addCommonMappings (m : FeatureMap) (id : string) (f : Feature)
  : FeatureMap :=
  match assoc id mappings with
  | Some aliases => fold_left (fun m alias => set m alias f) aliases m
  | None => m
  end.

(** The body of the [forEach] over [Object.entries(features)]. *)
Definition indexFeature (m : FeatureMap) (entry : string * Feature)
  : FeatureMap :=
  let (id, f) := entry in
  let m := set m id f in
  let m := match name f with
           | Some n => if JS.truthy (Some n)
                       then set m (JS.toLowerCase n) f else m
           | None => m
           end in
  let m := match compat_features f with
           | Some compats =>
               fold_left
                 (fun m compat =>
                    let m := set m compat f in
                    if JS.startsWith compat "css.properties."
                    then set m (JS.replaceFirst "css.properties." EmptyString compat) f
                    else m)
                 compats m
           | None => m
           end in
  addCommonMappings m id f.

Definition initializeFeatureMap (features : Dataset.t) : FeatureMap :=
  fold_left indexFeature features [].

(** [new BaselineChecker(config)] over the dataset [features]. *)
Definition new (features : Dataset.t) (config : BaselineConfig.t) : t :=
  mk config (initializeFeatureMap features).

(** ** Lookup *)

(** [property.replace(/^-(?:webkit-|moz-|ms-|o-)/, '')] *)
Definition stripVendorPrefix (property : string) : string :=
  if JS.startsWith property "-webkit-" then JS.drop 8 property
  else if JS.startsWith property "-moz-" then JS.drop 5 property
  else if JS.startsWith property "-ms-" then JS.drop 4 property
  else if JS.startsWith property "-o-" then JS.drop 3 property
  else property.

(** [property.replace(/([A-Z])/g, '-$1')] *)
Fixpoint dashCapitals (s : string) : string :=
  match s with
  | EmptyString => EmptyString
  | String c s' =>
      if JS.is_upper c then String "-"%char (String c (dashCapitals s'))
      else String c (dashCapitals s')
  end.

Definition generateCssVariations (property : string) : list string :=
  let withoutPrefix := stripVendorPrefix property in
  [property]
    ++ (if String.eqb withoutPrefix property then [] else [withoutPrefix])
    ++ [JS.toLowerCase (dashCapitals property)]
    ++ ["css-" ++ withoutPrefix]
    ++ ["css.properties." ++ withoutPrefix].

(** The test of the loop body of [fuzzySearch]. *)
Definition fuzzyMatches (queryLower : string) (entry : string * Feature)
  : bool :=
  JS.includes (fst entry) queryLower
  || match name (snd entry) with
     | Some n => JS.truthy (Some n)
                 && JS.includes (JS.toLowerCase n) queryLower
     | None => false
     end.

Definition fuzzySearch (m : FeatureMap) (query : string) : option Feature :=
  let queryLower := JS.toLowerCase query in
  option_map snd (find (fuzzyMatches queryLower) m).

(** The [for ... of cssVariations] loop: the first variation in the map. *)
Definition firstVariation (m : FeatureMap) (variations : list string)
  : option string :=
  find (has m) variations.

Definition findFeature (m : FeatureMap) (query : string) : option Feature :=
  if has m query then get m query
  else
    let lowerQuery := JS.toLowerCase query in
    if has m lowerQuery then get m lowerQuery
    else
      match firstVariation m (generateCssVariations query) with
      | Some variation => get m variation
      | None => fuzzySearch m query
      end.

(** ** Classification *)

Definition getBaselineStatus (status : Status) : BaselineTier :=
  match baseline status with
  | Some b =>
      if String.eqb b "high" then WidelyAvailable
      else if String.eqb b "low" then NewlyAvailable
      else Limited
  | None => Limited
  end.

(** [status.support?.browser] *)
Definition supportOf (status : Status) (browser : string) : option string :=
  match support status with
  | Some s => assoc browser s
  | None => None
  end.

Definition getBrowserSupport (status : Status) : BrowserSupport :=
  map (fun b => (b, supportOf status b))
      ["chrome"; "firefox"; "safari"; "edge";
       "chrome_android"; "firefox_android"; "safari_ios"].

Definition evaluateCriteria (config : BaselineConfig.t)
           (baseline : BaselineTier) : bool :=
  (* Check if feature is allowed based on exceptions *)
  let isException := (0 <? List.length (BaselineConfig.exceptions config))%nat in
  let target := BaselineConfig.target config in
  if String.eqb target "widely-available" then
    tier_eqb baseline WidelyAvailable
  else if String.eqb target "newly-available" then
    tier_eqb baseline WidelyAvailable || tier_eqb baseline NewlyAvailable
  else if String.eqb target "limited" then
    true
  else false.

Definition generateSuggestion (config : BaselineConfig.t) (feature : Feature)
           (baseline : BaselineTier) : option string :=
  if tier_eqb baseline Limited then
    Some "Consider using a polyfill or waiting for broader browser support. Check caniuse.com for alternatives."
  else if tier_eqb baseline NewlyAvailable
          && String.eqb (BaselineConfig.target config) "widely-available" then
    Some "Feature is newly available in Baseline. Consider progressive enhancement or polyfills for older browsers."
  else None.

(** The value [checkFeature] returns. *)
Record Result : Type := mkResult {
  baseline : option BaselineTier;
  browsers : BrowserSupport;
  meetsCriteria : bool;
  suggestion : option string
}.

Definition notFound (featureId : string) : Result :=
  mkResult None [] false
    (Some ("Feature " ++ JS.dquote ++ featureId ++ JS.dquote
           ++ " not found in web-features database")).

Definition checkFeature (self : t) (featureId : string) : Result :=
  match findFeature (featureMap self) featureId with
  | None => notFound featureId
  | Some feature =>
      match status feature with
      | None => notFound featureId
      | Some st =>
          let baseline := getBaselineStatus st in
          let browsers := getBrowserSupport st in
          let meetsCriteria := evaluateCriteria (config self) baseline in
          let suggestion := generateSuggestion (config self) feature baseline in
          mkResult (Some baseline) browsers meetsCriteria suggestion
      end
  end.

End BaselineChecker.

(* ================================================================== *)
(** * Effects: a mutable [features] array and exceptions

    Both extractors push onto one local array [features] and the
    stylesheet extractor wraps its work in [try]/[catch].  A computation
    takes the array and returns an outcome together with the array as it
    stands: what was pushed before a [throw] stays pushed. *)

Module Eff.

Inductive Outcome (A : Type) : Type :=
| Ok (a : A)
| Throw (error : string).
Arguments Ok {A} a.
Arguments Throw {A} error.

Section Array.

(** The type of the elements of the array. *)
Context {E : Type}.

Definition M (A : Type) : Type := list E -> Outcome A * list E.

Definition ret {A : Type} (a : A) : M A := fun s => (Ok a, s).

Definition bind {A B : Type} (m : M A) (k : A -> M B) : M B :=
  fun s => match m s with
           | (Ok a, s') => k a s'
           | (Throw e, s') => (Throw e, s')
           end.

(** A call that returns or throws and leaves the array alone. *)
Definition lift {A : Type} (o : Outcome A) : M A := fun s => (o, s).

(** [try { body } catch (error) { handler }] *)
Definition try_catch {A : Type} (body : M A) (handler : string -> M A)
  : M A :=
  fun s => match body s with
           | (Ok a, s') => (Ok a, s')
           | (Throw e, s') => handler e s'
           end.

(** [array.push(x)] *)
Definition push (x : E) : M unit :=
  fun s => (Ok tt, (s ++ [x])%list).

(** Reading the array, for the returned object. *)
Definition get : M (list E) := fun s => (Ok s, s).

(** [xs.forEach(body)], [for (const x of xs)], and the [while] loops
    over successive matches. *)
Fixpoint forEach {A : Type} (xs : list A) (body : A -> M unit) : M unit :=
  match xs with
  | [] => ret tt
  | x :: rest => bind (body x) (fun _ => forEach rest body)
  end.

(** [if (c) { body }] *)
Definition when (c : bool) (body : M unit) : M unit :=
  if c then body else ret tt.

(** [console.warn(...)], [console.log(...)]: no effect on the model. *)
Definition console_warn (message : string) : M unit := ret tt.

(** The computation only appends to the array, and each element it
    appends satisfies [Q]. *)
Definition emits {A : Type} (Q : E -> Prop) (m : M A) : Prop :=
  forall s, exists xs, snd (m s) = (s ++ xs)%list /\ Forall Q xs.

End Array.

Arguments M E A : clear implicits.

End Eff.

Notation "x <- c1 ;; c2" := (Eff.bind c1 (fun x => c2))
  (at level 61, c1 at next level, right associativity).
Notation "c1 ;; c2" := (Eff.bind c1 (fun _ => c2))
  (at level 61, right associativity).

(* ================================================================== *)
(** * Regular expressions

    [pattern.test(line)] asks whether some substring of the line is in the
    language of the pattern; none of the patterns of the script extractor
    has an anchor, a look-around or a back-reference, so derivatives
    decide it. *)

Module Regex.

Inductive re : Type :=
| Void                          (* matches nothing *)
| Eps                           (* the empty string *)
| Cls (p : ascii -> bool)       (* one code unit of a class *)
| Seq (r1 r2 : re)
| Alt (r1 r2 : re)
| Star (r : re).

Definition chr (c : ascii) : re := Cls (Ascii.eqb c).
Definition plus (r : re) : re := Seq r (Star r).

(** A literal run of characters. *)
Fixpoint lit (s : string) : re :=
  match s with
  | EmptyString => Eps
  | String c s' => Seq (chr c) (lit s')
  end.

Fixpoint seqs (rs : list re) : re :=
  match rs with
  | [] => Eps
  | [r] => r
  | r :: rest => Seq r (seqs rest)
  end.

Fixpoint nullable (r : re) : bool :=
  match r with
  | Void => false
  | Eps => true
  | Cls _ => false
  | Seq r1 r2 => nullable r1 && nullable r2
  | Alt r1 r2 => nullable r1 || nullable r2
  | Star _ => true
  end.

Definition is_void (r : re) : bool :=
  match r with Void => true | _ => false end.

Definition mkSeq (r1 r2 : re) : re :=
  if is_void r1 || is_void r2 then Void else Seq r1 r2.

Definition mkAlt (r1 r2 : re) : re :=
  if is_void r1 then r2 else if is_void r2 then r1 else Alt r1 r2.

Fixpoint deriv (c : ascii) (r : re) : re :=
  match r with
  | Void => Void
  | Eps => Void
  | Cls p => if p c then Eps else Void
  | Seq r1 r2 =>
      if nullable r1
      then mkAlt (mkSeq (deriv c r1) r2) (deriv c r2)
      else mkSeq (deriv c r1) r2
  | Alt r1 r2 => mkAlt (deriv c r1) (deriv c r2)
  | Star r1 => mkSeq (deriv c r1) (Star r1)
  end.

(** Some prefix of [s] matches [r]. *)
Fixpoint matchesPrefix (r : re) (s : string) : bool :=
  nullable r
  || match s with
     | EmptyString => false
     | String c s' => matchesPrefix (deriv c r) s'
     end.

(** [r.test(s)]: a match starting at some position of [s]. *)
Fixpoint test (r : re) (s : string) : bool :=
  matchesPrefix r s
  || match s with
     | EmptyString => false
     | String _ s' => test r s'
     end.

(** ** Character classes of the patterns *)

Definition space : re := Cls JS.is_space.                    (* \s *)
Definition identStart : re :=                                (* [a-zA-Z_$] *)
  Cls (fun c => JS.is_alpha c || Ascii.eqb c "_" || Ascii.eqb c "$")%char.
Definition identPart : re :=                                 (* [a-zA-Z0-9_$] *)
  Cls (fun c => JS.is_alpha c || JS.is_digit c
                || Ascii.eqb c "_" || Ascii.eqb c "$")%char.
Definition notChr (c : ascii) : re := Cls (fun x => negb (Ascii.eqb c x)).

(** ** Successive matches of a global regular expression

    [while ((match = regex.exec(value)) !== null)]: [matchAt] tells
    whether the expression matches at the head of the string, and gives
    the capture group and the length of the match; the next search
    starts at the end of the match.  [skip] counts the characters still
    inside the last match. *)
Fixpoint execAll (matchAt : string -> option (string * nat))
         (skip : nat) (s : string) : list string :=
  match skip with
  | S k => match s with
           | EmptyString => []
           | String _ s' => execAll matchAt k s'
           end
  | O =>
      match matchAt s with
      | Some (capture, len) =>
          capture :: match s with
                     | EmptyString => []
                     | String _ s' => execAll matchAt (len - 1) s'
                     end
      | None => match s with
                | EmptyString => []
                | String _ s' => execAll matchAt 0 s'
                end
      end
  end.

(** The longest prefix of [s] in the class [p], and the rest. *)
Fixpoint span (p : ascii -> bool) (s : string) : string * string :=
  match s with
  | EmptyString => (EmptyString, EmptyString)
  | String c s' =>
      if p c then let (a, b) := span p s' in (String c a, b)
      else (EmptyString, s)
  end.

End Regex.

(* ================================================================== *)
(** * The parsed stylesheet (packages [postcss] and
      [postcss-selector-parser], external collaborators) *)

Module Postcss.

(** [node.source?.start]: line and column, when the node has them. *)
Definition Position : Type := option (nat * nat).

Inductive Node : Type :=
| Declaration (prop value : string) (start : Position)
| Rule (selector : string) (nodes : list Node) (start : Position)
| AtRule (name params : string) (nodes : list Node) (start : Position)
| Comment (text : string) (start : Position).

Definition Root : Type := list Node.

Definition start (n : Node) : Position :=
  match n with
  | Declaration _ _ p | Rule _ _ p | AtRule _ _ _ p | Comment _ p => p
  end.

(** [node.source?.start?.line || 0] *)
Definition line (n : Node) : nat :=
  match start n with Some (l, _) => l | None => 0 end.

(** [node.source?.start?.column || 0] *)
Definition column (n : Node) : nat :=
  match start n with Some (_, c) => c | None => 0 end.

(** [container.walk]: every descendant, a node before its children. *)
Fixpoint descendants (n : Node) : list Node :=
  n :: match n with
       | Rule _ nodes _ | AtRule _ _ nodes _ => flat_map descendants nodes
       | Declaration _ _ _ | Comment _ _ => []
       end.

Definition walk (root : Root) : list Node := flat_map descendants root.

Definition isDeclaration (n : Node) : bool :=
  match n with Declaration _ _ _ => true | _ => false end.
Definition isRule (n : Node) : bool :=
  match n with Rule _ _ _ => true | _ => false end.
Definition isAtRule (n : Node) : bool :=
  match n with AtRule _ _ _ _ => true | _ => false end.

(** [root.walkDecls], [root.walkRules], [root.walkAtRules]: the nodes
    handed to the callback, in order. *)
Definition walkDecls (root : Root) : list Node := filter isDeclaration (walk root).
Definition walkRules (root : Root) : list Node := filter isRule (walk root).
Definition walkAtRules (root : Root) : list Node := filter isAtRule (walk root).

(** Fields read through a cast; a field the node lacks reads as
    [undefined] and prints as such in a template literal. *)
Definition prop (n : Node) : string :=
  match n with Declaration p _ _ => p | _ => "undefined" end.
Definition value (n : Node) : string :=
  match n with Declaration _ v _ => v | _ => "undefined" end.
Definition name (n : Node) : string :=
  match n with AtRule a _ _ _ => a | _ => "undefined" end.
Definition params (n : Node) : string :=
  match n with AtRule _ p _ _ => p | _ => "undefined" end.
Definition selector (n : Node) : string :=
  match n with Rule s _ _ => s | _ => "undefined" end.

(** ** The selector tree of [postcss-selector-parser] *)

Inductive SelNode : Type :=
| Pseudo (value : string) (nodes : list SelNode)   (* :hover, :not(...) *)
| Attribute (attribute : string)                   (* [attr], [attr=v] *)
| Combinator (value : string)
| Selector (nodes : list SelNode)
| Other (value : string).                 (* tag, class, id, universal *)

Fixpoint selDescendants (n : SelNode) : list SelNode :=
  n :: match n with
       | Pseudo _ nodes | Selector nodes => flat_map selDescendants nodes
       | Attribute _ | Combinator _ | Other _ => []
       end.

Definition selWalk (selectors : list SelNode) : list SelNode :=
  flat_map selDescendants selectors.

(** [selectors.walkPseudos]: the [value] of each pseudo, in order. *)
Definition walkPseudos (selectors : list SelNode) : list string :=
  flat_map (fun n => match n with Pseudo v _ => [v] | _ => [] end)
           (selWalk selectors).

(** [selectors.walkAttributes]: the [attribute] of each attribute node. *)
Definition walkAttributes (selectors : list SelNode) : list string :=
  flat_map (fun n => match n with Attribute a => [a] | _ => [] end)
           (selWalk selectors).

(** [selectors.walkCombinators]: the [value] of each combinator. *)
Definition walkCombinators (selectors : list SelNode) : list string :=
  flat_map (fun n => match n with Combinator v => [v] | _ => [] end)
           (selWalk selectors).

End Postcss.

(* ================================================================== *)
(** * [CSSAnalyzer] ([src/analyzers/CSSAnalyzer.ts]) *)

Module CSSAnalyzer.
Import Eff Postcss.

Section WithCollaborators.

(** [postcss.parse(content, { from: filePath })]: a tree or a
    [CssSyntaxError]. *)
Variable parse : string -> string -> Outcome Root.
(** The parser run by [processSync(rule.selector)], before the callback. *)
Variable parseSelector : string -> Outcome (list SelNode).
(** [node.toString()] *)
Variable toString : Node -> string.
(** [this.baselineChecker] *)
Variable baselineChecker : BaselineChecker.t.

Definition polyfills : list (string * string) :=
  [ ("css-grid", "CSS Grid polyfill or Flexbox fallback");
    ("custom-properties", "PostCSS custom properties plugin");
    ("gap", "Use margin/padding for older browsers");
    ("object-fit", "object-fit-images polyfill");
    ("sticky", "position: -webkit-sticky; position: sticky;") ].

Definition getPolyfillSuggestion (featureId : string)
  : JSObject.Member string :=
  JSObject.lookup polyfills featureId.

Definition alternatives : list (string * string) :=
  [ ("css-grid", "Use Flexbox for simpler layouts");
    ("gap", "Use margin or padding properties");
    ("aspect-ratio", "Use padding-bottom percentage technique");
    ("clamp", "Use calc() with min/max functions");
    ("container-queries", "Use media queries as fallback") ].

Definition getAlternativeSuggestion (featureId : string)
  : JSObject.Member string :=
  JSObject.lookup alternatives featureId.

Definition getContext (node : Node) (type : string) : string :=
  if String.eqb type "property" then
    prop node ++ ": " ++ value node
  else if String.eqb type "at-rule" then
    "@" ++ name node ++ " " ++ params node
  else if String.eqb type "pseudo-selector" then
    "selector: " ++ selector node
  else
    JS.take 100 (toString node)
    ++ (if (100 <? String.length (toString node))%nat then "..."
        else EmptyString).

Definition determineSeverity (baseline : BaselineTier)
           (meetsCriteria : bool) : Severity :=
  if negb meetsCriteria then
    if tier_eqb baseline Limited then SevError else SevWarning
  else SevInfo.

Definition checkFeature (featureId : string) (node : Node)
           (filePath : string) (type : string) : M FeatureUsage.t unit :=
  let result := BaselineChecker.checkFeature baselineChecker featureId in
  match BaselineChecker.baseline result with
  | Some baseline =>
      let severity :=
        determineSeverity baseline (BaselineChecker.meetsCriteria result) in
      push (FeatureUsage.mk
              featureId
              featureId
              filePath
              (line node)
              (column node)
              (getContext node type)
              (Some baseline)
              (BaselineChecker.browsers result)
              severity
              (BaselineChecker.suggestion result)
              (getPolyfillSuggestion featureId)
              (getAlternativeSuggestion featureId))
  | None => ret tt
  end.

(** [/([a-zA-Z-]+)\s*\(/] at the head of the string.  The name is the
    longest run of the class: a shorter one would be followed by a
    letter, which is neither a space nor the parenthesis. *)
Definition isNameChar (c : ascii) : bool :=
  JS.is_alpha c || Ascii.eqb c "-"%char.

Definition matchFunction (s : string) : option (string * nat) :=
  let (fname, r1) := Regex.span isNameChar s in
  match fname with
  | EmptyString => None
  | _ =>
      let (ws, r2) := Regex.span JS.is_space r1 in
      match r2 with
      | String "("%char _ =>
          Some (fname, String.length fname + String.length ws + 1)
      | _ => None
      end
  end.

(** [/\d+(\.\d+)?\s*([a-zA-Z%]+)/] at the head of the string; the
    capture is group 2.  Each greedy part is the longest run for the
    same reason as above. *)
Definition isUnitChar (c : ascii) : bool :=
  JS.is_alpha c || Ascii.eqb c "%"%char.

Definition matchUnit (s : string) : option (string * nat) :=
  let (int, r1) := Regex.span JS.is_digit s in
  match int with
  | EmptyString => None
  | _ =>
      let (frac, r2) :=
        match r1 with
        | String "."%char r =>
            let (ds, r') := Regex.span JS.is_digit r in
            match ds with
            | EmptyString => (EmptyString, r1)
            | _ => (String "."%char ds, r')
            end
        | _ => (EmptyString, r1)
        end in
      let (ws, r3) := Regex.span JS.is_space r2 in
      let (unit, _) := Regex.span isUnitChar r3 in
      match unit with
      | EmptyString => None
      | _ => Some (unit, String.length int + String.length frac
                         + String.length ws + String.length unit)
      end
  end.

(** [/\(\s*([a-zA-Z-]+)\s*:/] at the head of the string. *)
Definition matchSupportsProperty (s : string) : option (string * nat) :=
  match s with
  | String "("%char r0 =>
      let (ws1, r1) := Regex.span JS.is_space r0 in
      let (pname, r2) := Regex.span isNameChar r1 in
      match pname with
      | EmptyString => None
      | _ =>
          let (ws2, r3) := Regex.span JS.is_space r2 in
          match r3 with
          | String ":"%char _ =>
              Some (pname, 1 + String.length ws1 + String.length pname
                           + String.length ws2 + 1)
          | _ => None
          end
      end
  | _ => None
  end.

Definition keywords : list string :=
  [ "initial"; "inherit"; "unset"; "revert"; "revert-layer";
    "fit-content"; "max-content"; "min-content";
    "stretch"; "start"; "end"; "flex-start"; "flex-end";
    "space-between"; "space-around"; "space-evenly" ].

Definition units : list string :=
  [ "vh"; "vw"; "vmin"; "vmax"; "ch"; "rem"; "fr" ].

Definition analyzeValue (value : string) (node : Node)
           (filePath : string) : M FeatureUsage.t unit :=
  (* CSS Functions *)
  forEach (Regex.execAll matchFunction 0 value)
          (fun functionName =>
             checkFeature functionName node filePath "function") ;;
  (* CSS Keywords and special values *)
  forEach keywords
          (fun keyword =>
             when (JS.includes value keyword)
                  (checkFeature keyword node filePath "keyword")) ;;
  (* CSS Units *)
  forEach (Regex.execAll matchUnit 0 value)
          (fun unit =>
             when (JS.arrayIncludes units unit)
                  (checkFeature (unit ++ "-unit") node filePath "unit")).

Definition analyzeDeclaration (decl : Node) (filePath : string) : M FeatureUsage.t unit :=
  (* Analyze CSS property *)
  checkFeature (prop decl) decl filePath "property" ;;
  (* Analyze CSS values *)
  analyzeValue (value decl) decl filePath ;;
  (* Check for vendor prefixes *)
  when (JS.startsWith (prop decl) "-")
       (let unprefixed := BaselineChecker.stripVendorPrefix (prop decl) in
        checkFeature unprefixed decl filePath "prefixed-property").

Definition analyzeSelector (rule : Node) (filePath : string) : M FeatureUsage.t unit :=
  try_catch
    (selectors <- lift (parseSelector (selector rule)) ;;
     forEach (walkPseudos selectors)
             (fun pseudo =>
                checkFeature pseudo rule filePath "pseudo-selector") ;;
     forEach (walkAttributes selectors)
             (fun attribute =>
                when (JS.truthy (Some attribute))
                     (checkFeature ("[" ++ attribute ++ "]") rule filePath
                                   "attribute-selector")) ;;
     forEach (walkCombinators selectors)
             (fun combinator =>
                when (String.eqb combinator ">>>"
                      || String.eqb combinator "/deep/")
                     (checkFeature "deep-combinator" rule filePath
                                   "combinator")))
    (fun error => (* Continue on selector parsing errors *) ret tt).

Definition mediaFeatures : list string :=
  [ "prefers-color-scheme"; "prefers-reduced-motion"; "prefers-contrast";
    "hover"; "pointer"; "any-hover"; "any-pointer";
    "display-mode"; "orientation"; "aspect-ratio" ].

Definition analyzeMediaQuery (query : string) (node : Node)
           (filePath : string) : M FeatureUsage.t unit :=
  forEach mediaFeatures
          (fun feature =>
             when (JS.includes query feature)
                  (checkFeature feature node filePath "media-feature")).

Definition analyzeSupportsQuery (query : string) (node : Node)
           (filePath : string) : M FeatureUsage.t unit :=
  forEach (Regex.execAll matchSupportsProperty 0 query)
          (fun property =>
             checkFeature property node filePath "supports-property").

Definition analyzeAtRule (atRule : Node) (filePath : string) : M FeatureUsage.t unit :=
  let atRuleName := "@" ++ name atRule in
  checkFeature atRuleName atRule filePath "at-rule" ;;
  (* Specific at-rule analysis *)
  if String.eqb (name atRule) "media" then
    analyzeMediaQuery (params atRule) atRule filePath
  else if String.eqb (name atRule) "supports" then
    analyzeSupportsQuery (params atRule) atRule filePath
  else if String.eqb (name atRule) "container" then
    checkFeature "container-queries" atRule filePath "at-rule"
  else if String.eqb (name atRule) "layer" then
    checkFeature "cascade-layers" atRule filePath "at-rule"
  else ret tt.

(** The three walks over a parsed stylesheet. *)
Definition analyzeRoot (root : Root) (filePath : string) : M FeatureUsage.t unit :=
  forEach (walkDecls root) (fun decl => analyzeDeclaration decl filePath) ;;
  forEach (walkRules root) (fun rule => analyzeSelector rule filePath) ;;
  forEach (walkAtRules root) (fun atRule => analyzeAtRule atRule filePath).

(** The body of [analyze], run on the fresh array [features]. *)
Definition analyzeBody (content filePath : string) : M FeatureUsage.t FileAnalysis.t :=
  try_catch
    (root <- lift (parse content filePath) ;;
     analyzeRoot root filePath)
    (fun error =>
       console_warn ("Failed to parse CSS file " ++ filePath ++ ":")) ;;
  features <- get ;;
  ret (FileAnalysis.mk filePath FtCss features).

(** [analyze(content, filePath)]: what the returned promise settles to. *)
Definition analyze (content filePath : string) : Outcome FileAnalysis.t :=
  fst (analyzeBody content filePath []).

End WithCollaborators.

End CSSAnalyzer.

(* ================================================================== *)
(** * [SimpleJavaScriptAnalyzer] (the line-based script extractor) *)

Module SimpleJavaScriptAnalyzer.
Import Eff Regex.

(** An entry of the pattern tables (the [description] is not used by
    [addFeature] beyond being passed). *)
Record Pattern : Type := mkPattern {
  pattern : re;
  feature : string;
  description : string
}.

Definition identifier : re := Seq identStart (Star identPart).

(** [/new\s+Name/] *)
Definition newOf (name : string) : re :=
  seqs [lit "new"; plus space; lit name].

(** [/new\s+Name\s*\(/] *)
Definition newCall (name : string) : re :=
  seqs [lit "new"; plus space; lit name; Star space; chr "("].

(** [/name\s*\(/] *)
Definition call (name : string) : re :=
  seqs [lit name; Star space; chr "("].

Definition syntaxPatterns : list Pattern :=
  [ mkPattern (seqs [lit "=>"; Star space])
              "arrow-functions" "Arrow function syntax";
    mkPattern (seqs [chr "`"; Star (notChr "`"); lit "${";
                     Star (notChr "}"); chr "}"; Star (notChr "`"); chr "`"])
              "template-literals" "Template literal with interpolation";
    mkPattern (seqs [lit "..."; identifier])
              "spread-syntax" "Spread operator";
    mkPattern (seqs [lit "async"; plus space; lit "function"])
              "async-functions" "Async function declaration";
    mkPattern (seqs [lit "await"; plus space])
              "async-await" "Await expression";
    mkPattern (lit "??")
              "nullish-coalescing" "Nullish coalescing operator";
    mkPattern (lit "?.")
              "optional-chaining" "Optional chaining operator";
    mkPattern (seqs [lit "class"; plus space; identifier])
              "es6-class" "ES6 class declaration";
    mkPattern (lit "**")
              "exponentiation-operator" "Exponentiation operator" ].

Definition apiPatterns : list Pattern :=
  [ mkPattern (call "fetch") "fetch" "Fetch API";
    mkPattern (newCall "Promise") "promises" "Promise constructor";
    mkPattern (lit "navigator.serviceWorker") "serviceworker" "Service Worker API";
    mkPattern (lit "navigator.geolocation") "geolocation" "Geolocation API";
    mkPattern (lit "navigator.share") "web-share" "Web Share API";
    mkPattern (lit "navigator.clipboard") "clipboard-api" "Clipboard API";
    mkPattern (Alt (lit "localStorage.") (lit "sessionStorage."))
              "webstorage" "Web Storage API";
    mkPattern (newOf "IntersectionObserver") "intersectionobserver"
              "Intersection Observer API";
    mkPattern (newOf "ResizeObserver") "resizeobserver" "Resize Observer API";
    mkPattern (newOf "MutationObserver") "mutationobserver"
              "Mutation Observer API";
    mkPattern (newOf "AbortController") "abortcontroller" "AbortController API";
    mkPattern (newCall "Map") "map" "Map constructor";
    mkPattern (newCall "Set") "set" "Set constructor";
    mkPattern (newOf "WeakMap") "weakmap" "WeakMap constructor";
    mkPattern (newOf "WeakSet") "weakset" "WeakSet constructor";
    mkPattern (call "Symbol") "symbol" "Symbol constructor";
    mkPattern (newOf "Proxy") "proxy" "Proxy constructor";
    mkPattern (call "requestAnimationFrame") "requestanimationframe"
              "Request Animation Frame";
    mkPattern (newCall "URL") "url" "URL constructor";
    mkPattern (newOf "URLSearchParams") "url-api" "URL Search Params";
    mkPattern (newOf "FormData") "formdata" "FormData constructor";
    mkPattern (newOf "Blob") "blob" "Blob constructor";
    mkPattern (newOf "FileReader") "filereader" "FileReader constructor";
    mkPattern (newOf "Worker") "web-workers" "Web Workers";
    mkPattern (newOf "WebSocket") "websockets" "WebSocket constructor";
    mkPattern (newOf "EventSource") "eventsource" "EventSource constructor";
    mkPattern (newOf "XMLHttpRequest") "xhr" "XMLHttpRequest constructor" ].

Definition arrayMethods : list string :=
  [ "find"; "findIndex"; "includes"; "entries"; "keys"; "values";
    "map"; "filter"; "reduce"; "forEach"; "some"; "every";
    "flat"; "flatMap"; "from"; "of" ].

Definition stringMethods : list string :=
  [ "startsWith"; "endsWith"; "includes"; "repeat"; "padStart"; "padEnd";
    "trim"; "trimStart"; "trimEnd"; "replaceAll" ].

Definition objectMethods : list string :=
  [ "assign"; "keys"; "values"; "entries"; "fromEntries";
    "getOwnPropertyDescriptors"; "hasOwn" ].

Definition polyfills : list (string * string) :=
  [ ("fetch", "whatwg-fetch polyfill");
    ("promises", "es6-promise polyfill");
    ("array-includes", "core-js polyfill");
    ("object-assign", "object-assign polyfill");
    ("symbol", "es6-symbol polyfill");
    ("map", "es6-map polyfill");
    ("set", "es6-set polyfill");
    ("intersectionobserver", "intersection-observer polyfill");
    ("resizeobserver", "resize-observer-polyfill");
    ("web-audio-api", "web-audio-api polyfill") ].

Definition alternatives : list (string * string) :=
  [ ("fetch", "Use XMLHttpRequest or axios library");
    ("promises", "Use callback patterns or async libraries");
    ("arrow-functions", "Use regular function expressions");
    ("template-literals", "Use string concatenation");
    ("optional-chaining", "Use manual null checking");
    ("nullish-coalescing", "Use || operator with careful null checks") ].

Definition getPolyfillSuggestion (featureId : string)
  : JSObject.Member string :=
  JSObject.lookup polyfills featureId.

Definition getAlternativeSuggestion (featureId : string)
  : JSObject.Member string :=
  JSObject.lookup alternatives featureId.

Definition determineSeverity (baseline : BaselineTier)
           (meetsCriteria : bool) : Severity :=
  if negb meetsCriteria then
    if tier_eqb baseline Limited then SevError else SevWarning
  else SevInfo.

Section WithChecker.

(** [this.baselineChecker] *)
Variable baselineChecker : BaselineChecker.t.

Definition addFeature (featureId context : string) (lineNumber : nat)
           (filePath : string) (description : string) : M FeatureUsage.t unit :=
  let result := BaselineChecker.checkFeature baselineChecker featureId in
  match BaselineChecker.baseline result with
  | Some baseline =>
      let severity :=
        determineSeverity baseline (BaselineChecker.meetsCriteria result) in
      push (FeatureUsage.mk
              featureId
              featureId
              filePath
              lineNumber
              0
              (JS.take 100 (JS.trim context))
              (Some baseline)
              (BaselineChecker.browsers result)
              severity
              (BaselineChecker.suggestion result)
              (getPolyfillSuggestion featureId)
              (getAlternativeSuggestion featureId))
  | None => ret tt
  end.

(** One of the three [methods.forEach] loops: the pattern is
    [prefix + method + \s*\(] and the token [kind + "-" + method]. *)
Definition checkMethods (receiver : string) (kind : string)
           (label : string) (methods : list string)
           (line : string) (lineNumber : nat) (filePath : string)
  : M FeatureUsage.t unit :=
  forEach methods
          (fun method =>
             let pattern := call (receiver ++ "." ++ method) in
             when (test pattern line)
                  (addFeature (kind ++ "-" ++ method) line lineNumber filePath
                              (label ++ "." ++ method ++ " method"))).

Definition checkPatterns (patterns : list Pattern)
           (line : string) (lineNumber : nat) (filePath : string)
  : M FeatureUsage.t unit :=
  forEach patterns
          (fun p =>
             when (test (pattern p) line)
                  (addFeature (feature p) line lineNumber filePath
                              (description p))).

Definition analyzeLineForFeatures (line : string) (lineNumber : nat)
           (filePath : string) : M FeatureUsage.t unit :=
  (* Array methods *)
  checkMethods EmptyString "array" "Array" arrayMethods
               line lineNumber filePath ;;
  (* String methods *)
  checkMethods EmptyString "string" "String" stringMethods
               line lineNumber filePath ;;
  (* Object methods *)
  checkMethods "Object" "object" "Object" objectMethods
               line lineNumber filePath ;;
  (* Check syntax patterns *)
  checkPatterns syntaxPatterns line lineNumber filePath ;;
  (* Check API patterns *)
  checkPatterns apiPatterns line lineNumber filePath.

Definition getFileType (filePath : string) : FileType :=
  match option_map JS.toLowerCase (JS.pop (JS.split "."%char filePath)) with
  | Some ext =>
      if String.eqb ext "ts" then FtTypescript
      else if String.eqb ext "tsx" then FtTsx
      else if String.eqb ext "jsx" then FtJsx
      else FtJavascript
  | None => FtJavascript
  end.

(** The [for] loop over the lines, from [lineIndex] on. *)
Fixpoint analyzeLines (lines : list string) (lineIndex : nat)
         (filePath : string) : M FeatureUsage.t unit :=
  match lines with
  | [] => ret tt
  | line :: rest =>
      let lineNumber := lineIndex + 1 in
      analyzeLineForFeatures line lineNumber filePath ;;
      analyzeLines rest (lineIndex + 1) filePath
  end.

Definition analyzeBody (content filePath : string) : M FeatureUsage.t FileAnalysis.t :=
  let lines := JS.split JS.LF content in
  analyzeLines lines 0 filePath ;;
  features <- get ;;
  ret (FileAnalysis.mk filePath (getFileType filePath) features).

(** [analyze(content, filePath)]: what the returned promise settles to. *)
Definition analyze (content filePath : string) : Outcome FileAnalysis.t :=
  fst (analyzeBody content filePath []).

End WithChecker.

End SimpleJavaScriptAnalyzer.

(* ================================================================== *)
(** * What the script extractor leaves in the array, as a function

    The loops of [analyzeLineForFeatures] run through one table of
    patterns; the lemmas on the script extractor below show that
    [analyze] returns exactly [linesUsages]. *)

Module ScriptUsages.
Import Eff Regex SimpleJavaScriptAnalyzer.

Section WithChecker.

Variable checker : BaselineChecker.t.

(** The usages [addFeature] pushes: none for a token without a tier,
    one otherwise. *)
Definition added (featureId context : string) (lineNumber : nat)
           (filePath : string) : list FeatureUsage.t :=
  snd (addFeature checker featureId context lineNumber filePath
                  EmptyString []).

(** ** The five loops of [analyzeLineForFeatures] as one table *)

Definition methodPatterns (receiver kind label : string)
           (methods : list string) : list Pattern :=
  map (fun method =>
         mkPattern (call (receiver ++ "." ++ method))
                   (kind ++ "-" ++ method)
                   (label ++ "." ++ method ++ " method"))
      methods.

Definition lineTable : list Pattern :=
  (methodPatterns EmptyString "array" "Array" arrayMethods
   ++ methodPatterns EmptyString "string" "String" stringMethods
   ++ methodPatterns "Object" "object" "Object" objectMethods
   ++ syntaxPatterns
   ++ apiPatterns)%list.

(** The usages one table entry adds for a line. *)
Definition entryUsages (line : string) (lineNumber : nat)
           (filePath : string) (p : Pattern) : list FeatureUsage.t :=
  if test (pattern p) line
  then added (feature p) line lineNumber filePath
  else [].

Definition lineUsages (line : string) (lineNumber : nat)
           (filePath : string) : list FeatureUsage.t :=
  flat_map (entryUsages line lineNumber filePath) lineTable.

(** The usages of the lines from index [lineIndex] on. *)
Fixpoint linesUsages (lines : list string) (lineIndex : nat)
         (filePath : string) : list FeatureUsage.t :=
  match lines with
  | [] => []
  | line :: rest =>
      (lineUsages line (lineIndex + 1) filePath
       ++ linesUsages rest (lineIndex + 1) filePath)%list
  end.

End WithChecker.

(** No string occurs twice in the list. *)
Fixpoint distinct (xs : list string) : bool :=
  match xs with
  | [] => true
  | x :: rest => negb (existsb (String.eqb x) rest) && distinct rest
  end.

End ScriptUsages.

(* ================================================================== *)
(** * JavaScript numbers

    A Number is an IEEE 754 binary64 value.  The finite ones are rationals;
    each arithmetic operation returns the exact result rounded to the
    nearest representable value, ties to the even significand.  Every
    quantity computed below is far smaller than 2^1024, so no operation
    overflows. *)

Module JSNumber.
Open Scope Q_scope.

Definition pow2 (k : Z) : Q := 2 ^ k.

(** The integer [e] with [2^e <= x < 2^(e+1)], for [0 < x]. *)
Definition ilog2 (x : Q) : Z :=
  let d := (Z.log2 (Qnum x) - Z.log2 (Zpos (Qden x)))%Z in
  if Qle_bool (pow2 d) x then d else (d - 1)%Z.

(** The nearest integer, ties to even. *)
Definition nearestEven (y : Q) : Z :=
  let f := Qfloor y in
  match Qcompare (y - inject_Z f) (1 # 2) with
  | Lt => f
  | Gt => (f + 1)%Z
  | Eq => if Z.even f then f else (f + 1)%Z
  end.

(** The spacing of the binary64 values around [x], for [0 < x]: 53
    significant bits, and the fixed spacing [2^-1074] of the subnormals. *)
Definition ulp (x : Q) : Q := pow2 (Z.max (ilog2 x - 52) (-1074)).

(** Rounding to binary64. *)
Definition round (x : Q) : Q :=
  match Qcompare x 0 with
  | Eq => 0
  | Gt => inject_Z (nearestEven (x / ulp x)) * ulp x
  | Lt => - (inject_Z (nearestEven (- x / ulp (- x))) * ulp (- x))
  end.

Definition add (x y : Q) : Q := round (x + y).
Definition mul (x y : Q) : Q := round (x * y).
(** [x / y] for [y] other than zero. *)
Definition div (x y : Q) : Q := round (x / y).

(** The Number of an array length or a counter. *)
Definition ofNat (n : nat) : Q := inject_Z (Z.of_nat n).

(** [Math.round]: the nearest integer, ties towards +Infinity. *)
Definition Math_round (x : Q) : Z := Qfloor (x + (1 # 2)).

(** The rational a binary64 value of the kernel stands for, when it is
    finite. *)
Definition ofFloat (f : PrimFloat.float) : option Q :=
  match FloatOps.Prim2SF f with
  | SpecFloat.S754_zero _ => Some 0
  | SpecFloat.S754_finite s m e =>
      Some ((if s then -1 else 1) * inject_Z (Zpos m) * pow2 e)
  | _ => None
  end.

(** The kernel's binary64 value [f] is the number [x]. *)
Definition agrees (f : PrimFloat.float) (x : Q) : bool :=
  match ofFloat f with
  | Some y => Qeq_bool x y
  | None => false
  end.

End JSNumber.

(* ================================================================== *)
(** * [Analyzer] ([src/core/Analyzer.ts]) *)

Module ModernizationSuggestion.
Record t : Type := mk {
  category : string;
  oldFeature : string;
  newFeature : string;
  baselineStatus : string;
  impact : string;
  effort : string;
  description : string;
  example : option string
}.
End ModernizationSuggestion.

Module Summary.
Record t : Type := mk {
  errors : nat;
  warnings : nat;
  suggestions : nat;
  compatibilityScore : Z
}.
End Summary.

Module AnalysisResult.
Record t : Type := mk {
  totalFiles : nat;
  totalFeatures : nat;
  violations : list FeatureUsage.t;
  warnings : list FeatureUsage.t;
  suggestions : list FeatureUsage.t;
  summary : Summary.t;
  modernizationOpportunities : list ModernizationSuggestion.t
}.
End AnalysisResult.

Module Analyzer.
Import Eff.

Definition severity_eqb (a b : Severity) : bool :=
  match a, b with
  | SevError, SevError | SevWarning, SevWarning | SevInfo, SevInfo => true
  | _, _ => false
  end.

(** The [switch] on [feature.baseline] inside [features.map]. *)
Definition score (feature : FeatureUsage.t) : Q :=
  match FeatureUsage.baseline feature with
  | Some WidelyAvailable => 100
  | Some NewlyAvailable => 75
  | Some Limited => 25
  | None => 50
  end.

Definition calculateCompatibilityScore (features : list FeatureUsage.t) : Z :=
  if (List.length features =? 0)%nat then 100%Z
  else
    let scores := map score features in
    JSNumber.Math_round
      (JSNumber.div
         (fold_left (fun sum score => JSNumber.add sum score) scores 0%Q)
         (JSNumber.ofNat (List.length scores))).

(** [s.match(/\.(a|b|...)$/)] as a condition. *)
Definition hasExtension (exts : list string) (file : string) : bool :=
  existsb (fun ext => JS.endsWith file ("." ++ ext)) exts.

Definition groupFeaturesByType (features : list FeatureUsage.t)
  : list FeatureUsage.t * list FeatureUsage.t * list FeatureUsage.t :=
  ( filter (fun f => hasExtension ["css"; "scss"; "sass"; "less"]
                                  (FeatureUsage.file f)) features,
    filter (fun f => hasExtension ["js"; "jsx"; "ts"; "tsx"]
                                  (FeatureUsage.file f)) features,
    filter (fun f => hasExtension ["html"; "htm"]
                                  (FeatureUsage.file f)) features ).

Definition generateModernizationSuggestions (features : list FeatureUsage.t)
  : list ModernizationSuggestion.t :=
  let '(css, javascript, html) := groupFeaturesByType features in
  (* CSS Modernization *)
  (if existsb (fun f => JS.includes (FeatureUsage.feature f) "float") css
   then [ ModernizationSuggestion.mk
            "css" "Float-based layouts" "CSS Grid/Flexbox"
            "widely-available" "high" "medium"
            "Replace float-based layouts with modern CSS Grid or Flexbox for better responsive design"
            (Some "display: grid; grid-template-columns: repeat(auto-fit, minmax(300px, 1fr));") ]
   else [])
  (* JavaScript Modernization *)
  ++ (if existsb (fun f => String.eqb (FeatureUsage.feature f) "xhr") javascript
      then [ ModernizationSuggestion.mk
               "javascript" "XMLHttpRequest" "Fetch API"
               "widely-available" "medium" "low"
               "Replace XMLHttpRequest with modern Fetch API for cleaner async code"
               (Some ("fetch(" ++ JS.dquote ++ "/api/data" ++ JS.dquote
                      ++ ").then(response => response.json())")) ]
      else [])
  (* Modern CSS features *)
  ++ (let modernCssFeatures :=
        filter (fun f =>
                  match FeatureUsage.baseline f with
                  | Some NewlyAvailable =>
                      JS.arrayIncludes
                        ["container-queries"; "cascade-layers"; "css-grid";
                         "flexbox"]
                        (FeatureUsage.feature f)
                  | _ => false
                  end) features in
      if (0 <? List.length modernCssFeatures)%nat
      then [ ModernizationSuggestion.mk
               "css" "Legacy layout techniques" "Modern CSS features"
               "newly-available" "high" "medium"
               "Adopt newly available CSS features for better layouts and maintainability"
               None ]
      else []).

Definition generateReport (fileAnalyses : list FileAnalysis.t)
  : AnalysisResult.t :=
  let allFeatures := flat_map FileAnalysis.features fileAnalyses in
  let violations :=
    filter (fun f => severity_eqb (FeatureUsage.severity f) SevError)
           allFeatures in
  let warnings :=
    filter (fun f => severity_eqb (FeatureUsage.severity f) SevWarning)
           allFeatures in
  let suggestions :=
    filter (fun f => severity_eqb (FeatureUsage.severity f) SevInfo)
           allFeatures in
  let compatibilityScore := calculateCompatibilityScore allFeatures in
  let modernizationOpportunities :=
    generateModernizationSuggestions allFeatures in
  AnalysisResult.mk
    (List.length fileAnalyses)
    (List.length allFeatures)
    violations
    warnings
    suggestions
    (Summary.mk (List.length violations) (List.length warnings)
                (List.length suggestions) compatibilityScore)
    modernizationOpportunities.

Section WithCollaborators.

(** [fs.readFile(filePath, 'utf8')] and [path.extname] *)
Variable readFile : string -> Outcome string.
Variable extname : string -> string.
(** [glob(patterns, { cwd: projectPath, ... })] *)
Variable glob : list string -> string -> Outcome (list string).
(** The collaborators of the stylesheet extractor. *)
Variable parse : string -> string -> Outcome Postcss.Root.
Variable parseSelector : string -> Outcome (list Postcss.SelNode).
Variable toString : Postcss.Node -> string.
(** The dataset, and the argument of the constructor. *)
Variable features : Dataset.t.
Variable config : BaselineConfig.t.

Definition baselineChecker : BaselineChecker.t :=
  BaselineChecker.new features config.

Definition findFiles (projectPath : string) : Outcome (list string) :=
  let patterns : list string :=
    ([ "**/*.{js,jsx,ts,tsx,css,scss,sass,less}";
       "!node_modules/**"; "!dist/**"; "!build/**"; "!coverage/**";
       "!.git/**" ]
       ++ map (fun pattern => String.append "!" pattern)
              (BaselineConfig.ignoreFiles config))%list in
  match glob patterns projectPath with
  | Ok files =>
      Ok (filter
            (fun file =>
               (* Additional filtering *)
               let ext := JS.toLowerCase (extname file) in
               JS.arrayIncludes
                 [".js"; ".jsx"; ".ts"; ".tsx";
                  ".css"; ".scss"; ".sass"; ".less"] ext)
            files)
  | Throw e => Throw e
  end.

Definition analyzeFile (filePath : string) : Outcome FileAnalysis.t :=
  match readFile filePath with
  | Throw e => Throw e
  | Ok content =>
      let ext := JS.toLowerCase (extname filePath) in
      (* Determine analyzer based on file extension *)
      if JS.arrayIncludes [".css"; ".scss"; ".sass"; ".less"] ext then
        CSSAnalyzer.analyze parse parseSelector toString baselineChecker
                            content filePath
      else if JS.arrayIncludes [".js"; ".jsx"; ".ts"; ".tsx"] ext then
        SimpleJavaScriptAnalyzer.analyze baselineChecker content filePath
      else
        (* Return empty analysis for unsupported files *)
        Ok (FileAnalysis.mk filePath FtJavascript [])
  end.

(** The body of the [for (const file of files)] loop, on the array
    [fileAnalyses]. *)
Definition analyzeInto (file : string) : M FileAnalysis.t unit :=
  try_catch
    (analysis <- lift (analyzeFile file) ;;
     when (0 <? List.length (FileAnalysis.features analysis))%nat
          (push analysis))
    (fun error => console_warn ("Failed to analyze " ++ file ++ ":")).

Definition analyzeFiles (files : list string) : M FileAnalysis.t unit :=
  forEach files analyzeInto.

Definition analyzeProject (projectPath : string) : Outcome AnalysisResult.t :=
  fst ((files <- lift (findFiles projectPath) ;;
        console_warn "Analyzing files..." ;;
        analyzeFiles files ;;
        fileAnalyses <- get ;;
        ret (generateReport fileAnalyses)) []).

End WithCollaborators.

End Analyzer.

(* ================================================================== *)
(** * [JSONReporter]: the risk score of the JSON report *)

Module JSONReporter.

Definition calculateRiskScore (result : AnalysisResult.t) : Z :=
  (* Calculate a risk score based on violations and warnings *)
  let errorWeight := 3%Q in
  let warningWeight := 1%Q in
  let summary := AnalysisResult.summary result in
  let totalRisk :=
    JSNumber.add
      (JSNumber.mul (JSNumber.ofNat (Summary.errors summary)) errorWeight)
      (JSNumber.mul (JSNumber.ofNat (Summary.warnings summary)) warningWeight) in
  let maxPossibleRisk :=
    JSNumber.mul (JSNumber.ofNat (AnalysisResult.totalFeatures result))
                 errorWeight in
  if Qeq_bool maxPossibleRisk 0 then 0%Z
  else
    JSNumber.Math_round
      (JSNumber.mul (JSNumber.div totalRisk maxPossibleRisk) 100%Q).

End JSONReporter.

(* ================================================================== *)
(** * A small dataset and configuration, for running the definitions *)

Module Sample.
Import Dataset.

Definition support (chrome firefox safari : string)
  : option (list (string * string)) :=
  Some [ ("chrome", chrome); ("chrome_android", chrome); ("edge", chrome);
         ("firefox", firefox); ("firefox_android", firefox);
         ("safari", safari); ("safari_ios", safari) ].

Definition flexbox : Feature :=
  mkFeature (Some "Flexbox")
            (Some ["css.properties.flex"; "css.properties.flex-direction";
                   "css.properties.display.flex"])
            (Some (mkStatus (Some "high") (support "29" "28" "9"))).

Definition grid : Feature :=
  mkFeature (Some "Grid")
            (Some ["css.properties.grid-template-columns";
                   "css.properties.display.grid"])
            (Some (mkStatus (Some "high") (support "57" "52" "10.1"))).

Definition containerQueries : Feature :=
  mkFeature (Some "Container queries")
            (Some ["css.at-rules.container"; "css.properties.container-type"])
            (Some (mkStatus (Some "low") (support "105" "110" "16"))).

Definition anchorPositioning : Feature :=
  mkFeature (Some "Anchor positioning")
            (Some ["css.properties.anchor-name"])
            (Some (mkStatus None (support "125" "147" "26"))).

Definition arrowFunctions : Feature :=
  mkFeature (Some "Arrow functions")
            (Some ["javascript.functions.arrow_functions"])
            (Some (mkStatus (Some "high") (support "45" "22" "10"))).

Definition nullishCoalescing : Feature :=
  mkFeature (Some "Nullish coalescing")
            (Some ["javascript.operators.nullish_coalescing"])
            (Some (mkStatus (Some "high") (support "80" "72" "13.1"))).

(** An entry that carries no [status]. *)
Definition draft : Feature :=
  mkFeature (Some "Draft feature") None None.

Definition features : Dataset.t :=
  [ ("flexbox", flexbox);
    ("grid", grid);
    ("container-queries", containerQueries);
    ("anchor-positioning", anchorPositioning);
    ("arrow-functions", arrowFunctions);
    ("nullish-coalescing", nullishCoalescing);
    ("draft", draft) ].

(** The configuration of [tests/BaselineChecker.test.ts]. *)
Definition config (target : string) (exceptions : list string)
  : BaselineConfig.t :=
  BaselineConfig.mk target ["chrome"; "firefox"; "safari"; "edge"]
                    exceptions [] false "console".

Definition checker (target : string) : BaselineChecker.t :=
  BaselineChecker.new features (config target []).

(** A stylesheet of one rule with one long declaration, and the tree
    and selector that the parsers return for it. *)
Definition wideValue : string :=
  "repeat(auto-fill, minmax(120px, 1fr)) repeat(auto-fill, minmax(160px, 2fr)) minmax(200px, 3fr)".

Definition wideStylesheet : string :=
  ".a{grid-template-columns:" ++ wideValue ++ "}".

Definition wideRoot : Postcss.Root :=
  [ Postcss.Rule ".a"
      [ Postcss.Declaration "grid-template-columns" wideValue (Some (1, 4)) ]
      (Some (1, 1)) ].

Definition wideSelector : list Postcss.SelNode :=
  [ Postcss.Selector [ Postcss.Other ".a" ] ].

(** A stringifier for the trees above: declarations and rules without
    the raw spacing. *)
Fixpoint stringify (n : Postcss.Node) : string :=
  match n with
  | Postcss.Declaration prop value _ => prop ++ ":" ++ value
  | Postcss.Rule selector nodes _ =>
      selector ++ "{" ++ String.concat ";" (map stringify nodes) ++ "}"
  | Postcss.AtRule name params nodes _ =>
      "@" ++ name ++ " " ++ params ++ "{"
      ++ String.concat ";" (map stringify nodes) ++ "}"
  | Postcss.Comment text _ => "/*" ++ text ++ "*/"
  end.

(** A usage with the given token, file, tier and severity. *)
Definition usage (feature file : string) (tier : option BaselineTier)
           (severity : Severity) : FeatureUsage.t :=
  FeatureUsage.mk feature feature file 1 0 EmptyString tier [] severity
                  None JSObject.Undefined JSObject.Undefined.

Definition widelyUsage : FeatureUsage.t :=
  usage "flex" "app.css" (Some WidelyAvailable) SevInfo.

Definition limitedUsage : FeatureUsage.t :=
  usage "anchor-name" "app.css" (Some Limited) SevError.

Definition newlyUsage : FeatureUsage.t :=
  usage "container-queries" "app.css" (Some NewlyAvailable) SevWarning.

(** The report of a run with three usages: an error, a warning and a
    suggestion. *)
Definition smallResult : AnalysisResult.t :=
  Analyzer.generateReport
    [ FileAnalysis.mk "app.css" FtCss
        [limitedUsage; newlyUsage; widelyUsage] ].

(** The report of a run with 40 usages: 23 errors and 17 suggestions. *)
Definition riskyResult : AnalysisResult.t :=
  Analyzer.generateReport
    [ FileAnalysis.mk "app.css" FtCss
        (repeat limitedUsage 23 ++ repeat widelyUsage 17) ].

End Sample.

(* ================================================================== *)
(** * The specification, in its own words *)

Module Spec.
Import BaselineChecker.

(** A token no lookup stage matches: not a key, not a key once
    lowercased, none of its CSS variations a key, and no key or display
    name containing it. *)
Definition unmatched (m : FeatureMap) (token : string) : Prop :=
  has m token = false
  /\ has m (JS.toLowerCase token) = false
  /\ (forall v, In v (generateCssVariations token) -> has m v = false)
  /\ fuzzySearch m token = None.

(** The severity rule: info when the criteria are met; otherwise error
    for the tier limited and warning for any other tier. *)
Definition severity (meetsCriteria : bool) (tier : BaselineTier) : Severity :=
  if meetsCriteria then SevInfo
  else match tier with
       | Limited => SevError
       | WidelyAvailable | NewlyAvailable => SevWarning
       end.

(** A usage whose tier is the one the matcher gives its token, and
    whose severity follows the rule for that answer. *)
Definition classified (checker : BaselineChecker.t) (u : FeatureUsage.t)
  : Prop :=
  let result := checkFeature checker (FeatureUsage.feature u) in
  exists tier,
    FeatureUsage.baseline u = Some tier
    /\ baseline result = Some tier
    /\ FeatureUsage.severity u = severity (meetsCriteria result) tier.








(** The key under which the script extractor reports at most once. *)
Definition lineAndFeature (u : FeatureUsage.t) : nat * string :=
  (FeatureUsage.line u, FeatureUsage.feature u).

(** Points of a usage: 100, 75, 25 by tier, 50 without a tier. *)
Definition points (u : FeatureUsage.t) : Q :=
  match FeatureUsage.baseline u with
  | Some WidelyAvailable => 100
  | Some NewlyAvailable => 75
  | Some Limited => 25
  | None => 50
  end.

(** Rounding of an exact rational, halves upwards. *)
Definition roundHalfUp (x : Q) : Z := Qfloor (x + (1 # 2))%Q.

Definition total (us : list FeatureUsage.t) : Q :=
  fold_right (fun u acc => (points u + acc)%Q) 0%Q us.

(** round(mean of the points); 100 for no usage. *)
Definition compatibilityScore (us : list FeatureUsage.t) : Z :=
  match us with
  | [] => 100%Z
  | _ => roundHalfUp (total us / inject_Z (Z.of_nat (List.length us)))%Q
  end.

(** The points of a usage, as an integer, and their sum. *)
Definition pointsZ (u : FeatureUsage.t) : Z :=
  match FeatureUsage.baseline u with
  | Some WidelyAvailable => 100
  | Some NewlyAvailable => 75
  | Some Limited => 25
  | None => 50
  end.

Definition totalZ (us : list FeatureUsage.t) : Z :=
  fold_right (fun u acc => (pointsZ u + acc)%Z) 0%Z us.

(** 100 x (3 errors + warnings) / (3 totalUsages), exactly. *)
Definition riskValue (errors warnings totalUsages : nat) : Q :=
  (100 * (3 * inject_Z (Z.of_nat errors) + inject_Z (Z.of_nat warnings))
   / (3 * inject_Z (Z.of_nat totalUsages)))%Q.

(** round(100 x (3 errors + warnings) / (3 totalUsages)), 0 for no
    usage, in exact arithmetic. *)
Definition riskScore (errors warnings totalUsages : nat) : Z :=
  match totalUsages with
  | O => 0%Z
  | _ => roundHalfUp (riskValue errors warnings totalUsages)
  end.

(** The same formula evaluated in binary64 in the order it is written:
    the sum is scaled by 100 before the division. *)
Definition riskScoreAsWritten (errors warnings totalUsages : nat) : Z :=
  match totalUsages with
  | O => 0%Z
  | _ =>
      JSNumber.Math_round
        (JSNumber.div
           (JSNumber.mul
              100%Q
              (JSNumber.add
                 (JSNumber.mul 3%Q (JSNumber.ofNat errors))
                 (JSNumber.mul 1%Q (JSNumber.ofNat warnings))))
           (JSNumber.mul 3%Q (JSNumber.ofNat totalUsages)))
  end.

(** A number halfway between two consecutive integers. *)
Definition halfway (x : Q) : Prop :=
  exists k : Z, (x == inject_Z k + (1 # 2))%Q.

End Spec.

(* ================================================================== *)
(** * Computations that return, and what they leave in the array *)

Module Run.
Import Eff.

Section Array.

Context {E : Type}.

(** The computation never throws. *)
Definition returns {A : Type} (m : M E A) : Prop :=
  forall s, exists a, fst (m s) = Ok a.

(** Whatever the array held before, it holds [x] afterwards. *)
Definition leaves {A : Type} (x : E) (m : M E A) : Prop :=
  forall s, In x (snd (m s)).

End Array.

End Run.

(* ================================================================== *)
(** * A [Map] with string keys, in insertion order *)

Module JSMap.

Section Values.

Context {V : Type}.

Definition t : Type := list (string * V).

Definition get (m : t) (k : string) : option V := assoc k m.

Definition has (m : t) (k : string) : bool :=
  match assoc k m with Some _ => true | None => false end.

(** [Map.prototype.set]: an existing key keeps its place. *)
Fixpoint set (m : t) (k : string) (v : V) : t :=
  match m with
  | [] => [(k, v)]
  | (k', v') :: rest =>
      if String.eqb k' k then (k', v) :: rest else (k', v') :: set rest k v
  end.

Definition keys (m : t) : list string := map fst m.

End Values.

Arguments t V : clear implicits.

End JSMap.

(* ================================================================== *)
(** * [JSONReporter.generateStatistics]: the three tallies and the top
      features *)

Module Statistics.

(** [[...result.violations, ...result.warnings, ...result.suggestions]] *)
Definition allFeatures (result : AnalysisResult.t) : list FeatureUsage.t :=
  (AnalysisResult.violations result
   ++ AnalysisResult.warnings result
   ++ AnalysisResult.suggestions result)%list.

(** [map.set(key, (map.get(key) || 0) + 1)].  The counters are integers
    far below 2^53, on which the addition of Numbers is exact. *)
Definition increment (m : JSMap.t nat) (key : string) : JSMap.t nat :=
  JSMap.set m key
            ((match JSMap.get m key with Some n => n | None => 0 end) + 1).

(** One of the three [allFeatures.forEach] loops. *)
Definition tally (key : FeatureUsage.t -> string)
           (features : list FeatureUsage.t) : JSMap.t nat :=
  fold_left (fun m feature => increment m (key feature)) features [].

(** [feature.file.split('.').pop()?.toLowerCase() || 'unknown'] *)
Definition ext (feature : FeatureUsage.t) : string :=
  match option_map JS.toLowerCase
                   (JS.pop (JS.split "."%char (FeatureUsage.file feature)))
  with
  | Some EmptyString | None => "unknown"
  | Some e => e
  end.

(** [feature.baseline || 'unknown'] *)
Definition status (feature : FeatureUsage.t) : string :=
  match FeatureUsage.baseline feature with
  | Some tier => tier_name tier
  | None => "unknown"
  end.

Definition fileTypes (result : AnalysisResult.t) : JSMap.t nat :=
  tally ext (allFeatures result).

Definition baselineDistribution (result : AnalysisResult.t) : JSMap.t nat :=
  tally status (allFeatures result).

Definition featureFrequency (result : AnalysisResult.t) : JSMap.t nat :=
  tally FeatureUsage.feature (allFeatures result).

(** [entries.sort(([,a], [,b]) => b - a)]: the sort of arrays is stable,
    so the entries come by decreasing count and, for equal counts, in
    their order in the map.  An entry is inserted in front of the sorted
    entries that followed it in the map. *)
Fixpoint insert (entry : string * nat) (sorted : list (string * nat))
  : list (string * nat) :=
  match sorted with
  | [] => [entry]
  | next :: rest =>
      if (snd entry <? snd next)%nat then next :: insert entry rest
      else entry :: next :: rest
  end.

Definition sort (entries : list (string * nat)) : list (string * nat) :=
  fold_right insert [] entries.

(** [.slice(0, 10)] of the sorted entries, as pairs [(feature, count)]. *)
Definition topFeatures (result : AnalysisResult.t) : list (string * nat) :=
  firstn 10 (sort (featureFrequency result)).

(** The number of usages with a given key. *)
Definition occurrences (key : FeatureUsage.t -> string) (k : string)
           (features : list FeatureUsage.t) : nat :=
  List.length (filter (fun feature => String.eqb (key feature) k) features).

End Statistics.

(* ================================================================== *)
(** * [ConsoleReporter.groupByFile] *)

Module ConsoleReporter.

(** The body of the loop: the array of the file is created when the
    file is met first, and the usage is pushed onto it. *)
Definition group (grouped : JSMap.t (list FeatureUsage.t))
           (feature : FeatureUsage.t) : JSMap.t (list FeatureUsage.t) :=
  let file := FeatureUsage.file feature in
  let grouped :=
    if negb (JSMap.has grouped file) then JSMap.set grouped file []
    else grouped in
  match JSMap.get grouped file with
  | Some usages => JSMap.set grouped file (usages ++ [feature])%list
  | None => grouped
  end.

Definition groupByFile (features : list FeatureUsage.t)
  : JSMap.t (list FeatureUsage.t) :=
  fold_left group features [].

(** [process.cwd()] is a parameter. *)
Definition getRelativePath (cwd filePath : string) : string :=
  if JS.startsWith filePath cwd then JS.drop (String.length cwd + 1) filePath
  else filePath.

End ConsoleReporter.

(* ================================================================== *)
(** * The usage the stylesheet extractor records for a candidate *)

Module StylesheetUsages.
Import Postcss CSSAnalyzer.

(** The object [checkFeature] pushes for the candidate [featureId] of
    kind [type] met at [node], when the matcher gives it the tier
    [tier]. *)
Definition usageOf (toString : Node -> string) (checker : BaselineChecker.t)
           (featureId : string) (node : Node)
           (filePath type : string) (tier : BaselineTier) : FeatureUsage.t :=
  let result := BaselineChecker.checkFeature checker featureId in
  FeatureUsage.mk featureId featureId filePath (line node) (column node)
                  (getContext toString node type) (Some tier)
                  (BaselineChecker.browsers result)
                  (determineSeverity tier (BaselineChecker.meetsCriteria result))
                  (BaselineChecker.suggestion result)
                  (getPolyfillSuggestion featureId)
                  (getAlternativeSuggestion featureId).

End StylesheetUsages.

(* ================================================================== *)
(** * [BaselineChecker.getModernizationSuggestions] *)

Module LegacySuggestion.
Record t : Type := mk {
  oldFeature : string;
  newFeature : option string;
  description : option string;
  example : option string
}.
End LegacySuggestion.

Module LegacyFeatures.
Import JSObject.

Record Entry : Type := mkEntry {
  newFeature : string;
  description : string;
  example : string
}.

(** Common modernization patterns *)
Definition modernizationMap : list (string * Entry) :=
  [ ("float",
     mkEntry "flexbox"
             "Replace float-based layouts with modern Flexbox"
             "display: flex; justify-content: space-between;");
    ("clearfix",
     mkEntry "flexbox"
             "Use Flexbox instead of clearfix hacks"
             "display: flex; flex-wrap: wrap;");
    ("position: absolute",
     mkEntry "css-grid"
             "Consider CSS Grid for complex layouts"
             ("display: grid; grid-template-areas: " ++ JS.dquote
              ++ "header header" ++ JS.dquote)) ].

(** The body of [legacyFeatures.forEach]: the entry of the map is spread
    after [oldFeature]; a member inherited by the map is truthy and
    spreads to nothing. *)
Definition suggest (suggestions : list LegacySuggestion.t) (feature : string)
  : list LegacySuggestion.t :=
  match lookup modernizationMap feature with
  | Own entry =>
      suggestions
        ++ [ LegacySuggestion.mk feature (Some (newFeature entry))
                                 (Some (description entry))
                                 (Some (example entry)) ]
  | Inherited => suggestions ++ [ LegacySuggestion.mk feature None None None ]
  | Undefined => suggestions
  end%list.

Definition getModernizationSuggestions (legacyFeatures : list string)
  : list LegacySuggestion.t :=
  fold_left suggest legacyFeatures [].

End LegacyFeatures.

(* ================================================================== *)
(** * [Analyzer.generateProgressiveEnhancements] *)

Module Enhancement.
Record t : Type := mk {
  feature : string;
  fallback : option string;
  enhancement : option string;
  example : option string
}.
End Enhancement.

Module ProgressiveEnhancements.
Import JSObject.

Record Entry : Type := mkEntry {
  fallback : string;
  enhancement : string;
  example : string
}.

Definition enhancements : list (string * Entry) :=
  [ ("css-grid",
     mkEntry "Flexbox or float-based layout"
             "CSS Grid for complex layouts"
             "
.grid-container {
  display: flex; /* fallback */
  flex-wrap: wrap;
}

@supports (display: grid) {
  .grid-container {
    display: grid;
    grid-template-columns: repeat(auto-fit, minmax(300px, 1fr));
    gap: 1rem;
  }
}");
    ("container-queries",
     mkEntry "Media queries"
             "Container queries for component-based responsive design"
             "
/* Fallback with media queries */
@media (min-width: 400px) {
  .card { flex-direction: row; }
}

/* Enhancement with container queries */
@container (min-width: 400px) {
  .card { flex-direction: row; }
}");
    ("aspect-ratio",
     mkEntry "Padding-bottom technique"
             "Native aspect-ratio property"
             "
.aspect-box {
  /* Fallback */
  position: relative;
  padding-bottom: 56.25%; /* 16:9 */
}

.aspect-box > * {
  position: absolute;
  top: 0;
  left: 0;
  width: 100%;
  height: 100%;
}

/* Enhancement */
@supports (aspect-ratio: 16/9) {
  .aspect-box {
    aspect-ratio: 16/9;
    padding-bottom: 0;
  }
  
  .aspect-box > * {
    position: static;
  }
}") ].

(** [enhancements[featureId] || null]: [Undefined] stands for [null]. *)
Definition getProgressiveEnhancement (featureId : string) : Member Entry :=
  lookup enhancements featureId.

(** The body of the loop over the usages.  A member inherited by
    [enhancements] is truthy and has none of the three properties. *)
Definition enhance (found : list Enhancement.t) (feature : FeatureUsage.t)
  : list Enhancement.t :=
  match FeatureUsage.baseline feature with
  | Some NewlyAvailable | Some Limited =>
      match getProgressiveEnhancement (FeatureUsage.feature feature) with
      | Own entry =>
          found
            ++ [ Enhancement.mk (FeatureUsage.feature feature)
                                (Some (fallback entry))
                                (Some (enhancement entry))
                                (Some (example entry)) ]
      | Inherited =>
          found
            ++ [ Enhancement.mk (FeatureUsage.feature feature)
                                None None None ]
      | Undefined => found
      end
  | _ => found
  end%list.

Definition generateProgressiveEnhancements (features : list FeatureUsage.t)
  : list Enhancement.t :=
  fold_left enhance features [].

End ProgressiveEnhancements.

(* ================================================================== *)
(** * The ties of the risk score *)

Module RiskTies.

(** The risk score computed when the exact value is [k + 1/2]: the
    quotient of the counters is then [(2 k + 1) / 200]. *)
Definition atTie (k : Z) : Z :=
  JSNumber.Math_round
    (JSNumber.mul (JSNumber.div (inject_Z (2 * k + 1)) 200%Q) 100%Q).

(** The integers [k] from 0 to 99 for which the product computed for
    [k + 1/2] falls below it. *)
Definition low : list Z := [14; 28; 56; 57]%Z.

(** [v] is one of 14.5, 28.5, 56.5 and 57.5. *)
Definition lowTie (v : Q) : bool :=
  existsb (fun k => Qeq_bool v (inject_Z k + (1 # 2))%Q) low.

End RiskTies.

(* ================================================================== *)
(** * Running the model *)

Section Running.

(** A vendor prefix is stripped at the third lookup stage. *)
Example prefixed_property_resolves :
  BaselineChecker.findFeature
    (BaselineChecker.featureMap (Sample.checker "widely-available"))
    "-webkit-flex-direction"
  = Some Sample.flexbox.
Proof. vm_compute. reflexivity. Qed.

(** A token that is part of a key is found by the substring fallback, in
    the first entry of the map that contains it. *)
Example substring_fallback_resolves :
  BaselineChecker.baseline
    (BaselineChecker.checkFeature (Sample.checker "limited") "anchor")
  = Some Limited.
Proof. vm_compute. reflexivity. Qed.

Example newly_available_under_widely_available :
  let result := BaselineChecker.checkFeature
                  (Sample.checker "widely-available") "container-queries" in
  BaselineChecker.baseline result = Some NewlyAvailable
  /\ BaselineChecker.meetsCriteria result = false.
Proof. vm_compute. split; reflexivity. Qed.

(** The successive matches of the three global expressions of the
    stylesheet extractor. *)
Example functions_of_a_value :
  Regex.execAll CSSAnalyzer.matchFunction 0
                "calc(1px + var (--x)) rgb(1,2,3)"
  = ["calc"; "var"; "rgb"].
Proof. vm_compute. reflexivity. Qed.

Example units_of_a_value :
  Regex.execAll CSSAnalyzer.matchUnit 0 "1.5rem 10 px 3.vh 2vw100%"
  = ["rem"; "px"; "vw"; "%"].
Proof. vm_compute. reflexivity. Qed.

Example properties_of_a_supports_query :
  Regex.execAll CSSAnalyzer.matchSupportsProperty 0
                "(display: grid) and ( gap : 1px)"
  = ["display"; "gap"].
Proof. vm_compute. reflexivity. Qed.

(** Two lines of script: the tokens found, with their lines. *)
Example script_of_two_lines :
  match SimpleJavaScriptAnalyzer.analyze
          (Sample.checker "widely-available")
          ("const f = x => x ?? 1;" ++ String JS.LF "g = y => y") "a.ts"
  with
  | Eff.Ok analysis =>
      map Spec.lineAndFeature (FileAnalysis.features analysis)
      = [(1, "arrow-functions"); (1, "nullish-coalescing");
         (2, "arrow-functions")]
      /\ FileAnalysis.type analysis = FtTypescript
  | Eff.Throw _ => False
  end.
Proof. vm_compute. split; reflexivity. Qed.

End Running.

(* ================================================================== *)
(** * The matcher: lookup and classification *)

Section Matcher.
Import BaselineChecker Spec.

Lemma has_get (m : FeatureMap) (k : string) :
  has m k = true -> exists f, get m k = Some f.
Proof.
  unfold has, get. destruct (assoc k m) as [f|]; [eauto | discriminate].
Qed.

Lemma firstVariation_none (m : FeatureMap) (vs : list string) :
  firstVariation m vs = None <-> (forall v, In v vs -> has m v = false).
Proof.
  unfold firstVariation. split.
  - intros H v Hin. exact (find_none _ _ H v Hin).
  - induction vs as [|v vs IH]; intros H; simpl; [reflexivity|].
    rewrite (H v (or_introl eq_refl)). apply IH.
    intros w Hw. apply H. now right.
Qed.

Lemma firstVariation_some (m : FeatureMap) (vs : list string) (v : string) :
  firstVariation m vs = Some v -> has m v = true.
Proof.
  unfold firstVariation. intros H. now apply find_some in H.
Qed.

(** [findFeature] answers [null] exactly on the unmatched tokens. *)
Lemma findFeature_none (m : FeatureMap) (token : string) :
  findFeature m token = None <-> unmatched m token.
Proof.
  unfold findFeature, unmatched. split.
  - intros H.
    destruct (has m token) eqn:E1.
    { destruct (has_get _ _ E1) as [f Hf]. congruence. }
    destruct (has m (JS.toLowerCase token)) eqn:E2.
    { destruct (has_get _ _ E2) as [f Hf]. congruence. }
    destruct (firstVariation m (generateCssVariations token)) as [v|] eqn:E3.
    { destruct (has_get _ _ (firstVariation_some _ _ _ E3)) as [f Hf].
      congruence. }
    repeat split; try assumption. now apply firstVariation_none.
  - intros (H1 & H2 & H3 & H4).
    rewrite H1, H2.
    apply firstVariation_none in H3. now rewrite H3.
Qed.

(** A matched token is classified from the status of its record. *)
Lemma checkFeature_matched (self : BaselineChecker.t) (token : string)
      (tier : BaselineTier) :
  baseline (checkFeature self token) = Some tier ->
  meetsCriteria (checkFeature self token)
  = evaluateCriteria (config self) tier.
Proof.
  unfold checkFeature.
  destruct (findFeature (featureMap self) token) as [f|]; [|discriminate].
  destruct (Dataset.status f) as [st|]; [|discriminate].
  simpl. intros H. now inversion H.
Qed.

(** C1. A token unmatched at every lookup stage (exact key, lowercase
    key, CSS variations, substring fallback) gets the null descriptor:
    [baseline] is null, the browser-support map is empty,
    [meetsCriteria] is false and the suggestion says "not found".
    [checkFeature] is a total function: the answer is a value, never an
    exception. *)
Theorem checkFeature_unmatched (self : BaselineChecker.t) (token : string) :
  unmatched (featureMap self) token ->
  baseline (checkFeature self token) = None
  /\ browsers (checkFeature self token) = []
  /\ meetsCriteria (checkFeature self token) = false
  /\ suggestion (checkFeature self token)
     = Some ("Feature " ++ JS.dquote ++ token ++ JS.dquote
             ++ " not found in web-features database").
Proof.
  intros H. apply findFeature_none in H.
  unfold checkFeature. rewrite H. repeat split.
Qed.

Lemma checkFeature_unmatched_witness :
  unmatched (featureMap (Sample.checker "widely-available"))
            "non-existent-feature"
  /\ baseline (checkFeature (Sample.checker "widely-available")
                            "non-existent-feature") = None.
Proof.
  assert (H : unmatched (featureMap (Sample.checker "widely-available"))
                        "non-existent-feature").
  { apply findFeature_none. vm_compute. reflexivity. }
  split; [exact H|].
  exact (proj1 (checkFeature_unmatched _ _ H)).
Defined.

(** C2. For a matched token, [meetsCriteria] is decided by the target:
    [widely-available] accepts only the tier widely-available,
    [newly-available] accepts widely- and newly-available, [limited]
    accepts every tier.  Hence a token of tier widely-available meets
    the criteria under each of the three targets. *)
Theorem meetsCriteria_by_target (self : BaselineChecker.t) (token : string)
        (tier : BaselineTier) :
  baseline (checkFeature self token) = Some tier ->
  let target := BaselineConfig.target (config self) in
  let meets := meetsCriteria (checkFeature self token) in
  (target = "widely-available" ->
   (meets = true <-> tier = WidelyAvailable))
  /\ (target = "newly-available" ->
      (meets = true <-> tier = WidelyAvailable \/ tier = NewlyAvailable))
  /\ (target = "limited" -> meets = true)
  /\ (tier = WidelyAvailable ->
      target = "widely-available" \/ target = "newly-available"
      \/ target = "limited" ->
      meets = true).
Proof.
  intros H target meets. subst meets.
  rewrite (checkFeature_matched _ _ _ H).
  unfold evaluateCriteria. fold target.
  split; [|split; [|split]].
  - intros ->. simpl. destruct tier; simpl; split; congruence.
  - intros ->. simpl. destruct tier; simpl; split; intuition congruence.
  - intros ->. reflexivity.
  - intros -> [-> | [-> | ->]]; reflexivity.
Qed.

Lemma meetsCriteria_by_target_witness :
  baseline (checkFeature (Sample.checker "newly-available") "flexbox")
  = Some WidelyAvailable
  /\ meetsCriteria (checkFeature (Sample.checker "newly-available") "flexbox")
     = true.
Proof.
  assert (H : baseline (checkFeature (Sample.checker "newly-available")
                                     "flexbox") = Some WidelyAvailable)
    by (vm_compute; reflexivity).
  split; [exact H|].
  destruct (meetsCriteria_by_target _ _ _ H) as (_ & _ & _ & Hw).
  apply Hw; [reflexivity|]. right; left. reflexivity.
Defined.

(** The classification reads the target of the configuration and
    nothing else of it. *)
Lemma checkFeature_config (m : FeatureMap) (c1 c2 : BaselineConfig.t)
      (token : string) :
  BaselineConfig.target c1 = BaselineConfig.target c2 ->
  checkFeature (mk c1 m) token = checkFeature (mk c2 m) token.
Proof.
  intros Ht. unfold checkFeature. simpl.
  destruct (findFeature m token) as [f|]; [|reflexivity].
  destruct (Dataset.status f) as [st|]; [|reflexivity].
  unfold evaluateCriteria, generateSuggestion. now rewrite Ht.
Qed.

(** C5. Two configurations that agree on target and browsers give the
    same [checkFeature] result for every token, whatever their
    exceptions lists: same tier, same browser-support map, same
    [meetsCriteria], same suggestion. *)
Theorem exceptions_never_alter_classification
        (features : Dataset.t) (c1 c2 : BaselineConfig.t) (token : string) :
  BaselineConfig.target c1 = BaselineConfig.target c2 ->
  BaselineConfig.browsers c1 = BaselineConfig.browsers c2 ->
  checkFeature (new features c1) token = checkFeature (new features c2) token.
Proof.
  intros Ht _. unfold new. now apply checkFeature_config.
Qed.

Lemma exceptions_never_alter_classification_witness :
  checkFeature (new Sample.features (Sample.config "widely-available" []))
               "container-queries"
  = checkFeature (new Sample.features
                      (Sample.config "widely-available" ["container-queries"]))
                 "container-queries".
Proof.
  apply (exceptions_never_alter_classification Sample.features
           (Sample.config "widely-available" [])
           (Sample.config "widely-available" ["container-queries"])
           "container-queries"); reflexivity.
Defined.

(** C10. A token that resolves to a record without a [status] field
    gets the same not-found descriptor as an unmatched token: null
    tier, empty browser-support map, [meetsCriteria] false and the
    not-found suggestion. *)
Theorem checkFeature_without_status (self : BaselineChecker.t)
        (token : string) (feature : Dataset.Feature) :
  findFeature (featureMap self) token = Some feature ->
  Dataset.status feature = None ->
  checkFeature self token = notFound token
  /\ baseline (checkFeature self token) = None
  /\ browsers (checkFeature self token) = []
  /\ meetsCriteria (checkFeature self token) = false.
Proof.
  intros Hf Hs. unfold checkFeature. rewrite Hf, Hs. repeat split.
Qed.

Lemma checkFeature_without_status_witness :
  findFeature (featureMap (Sample.checker "limited")) "draft"
  = Some Sample.draft
  /\ checkFeature (Sample.checker "limited") "draft" = notFound "draft".
Proof.
  assert (H : findFeature (featureMap (Sample.checker "limited")) "draft"
              = Some Sample.draft) by (vm_compute; reflexivity).
  split; [exact H|].
  exact (proj1 (checkFeature_without_status _ _ _ H eq_refl)).
Defined.

End Matcher.

(* ================================================================== *)
(** * Computations that only append *)

Section Emits.
Import Eff.
Context {E : Type}.
Variable Q : E -> Prop.

Lemma emits_ret {A : Type} (a : A) : emits Q (ret (E:=E) a).
Proof. intros s. exists []. simpl. now rewrite app_nil_r. Qed.

Lemma emits_lift {A : Type} (o : Outcome A) : emits Q (lift (E:=E) o).
Proof. intros s. exists []. simpl. now rewrite app_nil_r. Qed.

Lemma emits_get : emits Q (get (E:=E)).
Proof. intros s. exists []. simpl. now rewrite app_nil_r. Qed.

Lemma emits_console_warn (message : string) :
  emits Q (console_warn (E:=E) message).
Proof. apply emits_ret. Qed.

Lemma emits_push (x : E) : Q x -> emits Q (push x).
Proof. intros H s. exists [x]. simpl. split; [reflexivity | now constructor]. Qed.

Lemma emits_bind {A B : Type} (m : M E A) (k : A -> M E B) :
  emits Q m -> (forall a, emits Q (k a)) -> emits Q (bind m k).
Proof.
  intros Hm Hk s. unfold bind.
  destruct (Hm s) as (xs & Hs & Hxs).
  destruct (m s) as [[a | e] s']; simpl in Hs; subst s'.
  - destruct (Hk a (s ++ xs)%list) as (ys & Hs' & Hys).
    exists (xs ++ ys)%list. rewrite Hs', app_assoc. split; [reflexivity|].
    apply Forall_app. now split.
  - exists xs. now split.
Qed.

Lemma emits_try_catch {A : Type} (body : M E A) (handler : string -> M E A) :
  emits Q body -> (forall e, emits Q (handler e)) ->
  emits Q (try_catch body handler).
Proof.
  intros Hb Hh s. unfold try_catch.
  destruct (Hb s) as (xs & Hs & Hxs).
  destruct (body s) as [[a | e] s']; simpl in Hs; subst s'.
  - exists xs. now split.
  - destruct (Hh e (s ++ xs)%list) as (ys & Hs' & Hys).
    exists (xs ++ ys)%list. rewrite Hs', app_assoc. split; [reflexivity|].
    apply Forall_app. now split.
Qed.

Lemma emits_when (c : bool) (body : M E unit) :
  (c = true -> emits Q body) -> emits Q (when c body).
Proof.
  intros H. unfold when. destruct c; [now apply H | apply emits_ret].
Qed.

Lemma emits_forEach {A : Type} (xs : list A) (body : A -> M E unit) :
  (forall x, In x xs -> emits Q (body x)) -> emits Q (forEach xs body).
Proof.
  induction xs as [|x xs IH]; intros H; simpl.
  - apply emits_ret.
  - apply emits_bind.
    + apply H. now left.
    + intros _. apply IH. intros y Hy. apply H. now right.
Qed.

(** Run on the empty array, such a computation leaves elements of [Q]. *)
Lemma emits_from_empty {A : Type} (m : M E A) :
  emits Q m -> Forall Q (snd (m [])).
Proof.
  intros H. destruct (H []) as (xs & -> & Hxs). exact Hxs.
Qed.

End Emits.

(** One step of a proof that a computation emits: the combinators of
    the effect layer, and the conditionals of the source. *)
Ltac emits_step :=
  match goal with
  | |- Eff.emits _ (Eff.bind _ _) => apply emits_bind; [|intros]
  | |- Eff.emits _ (Eff.try_catch _ _) => apply emits_try_catch; [|intros]
  | |- Eff.emits _ (Eff.forEach _ _) => apply emits_forEach; intros
  | |- Eff.emits _ (Eff.when _ _) => apply emits_when; intros
  | |- Eff.emits _ (Eff.ret _) => apply emits_ret
  | |- Eff.emits _ (Eff.lift _) => apply emits_lift
  | |- Eff.emits _ Eff.get => apply emits_get
  | |- Eff.emits _ (Eff.console_warn _) => apply emits_console_warn
  | |- Eff.emits _ (if ?c then _ else _) => destruct c
  end.

(* ================================================================== *)
(** * The stylesheet extractor *)

Section StylesheetExtractor.
Import Eff Postcss CSSAnalyzer.

Variable parse : string -> string -> Outcome Root.
Variable parseSelector : string -> Outcome (list SelNode).
Variable toString : Node -> string.
Variable checker : BaselineChecker.t.

Lemma determineSeverity_rule (tier : BaselineTier) (meets : bool) :
  determineSeverity tier meets = Spec.severity meets tier.
Proof. destruct tier, meets; reflexivity. Qed.

(** Whatever [checkFeature] pushes is classified. *)
Lemma checkFeature_classified (featureId : string) (node : Node)
      (filePath type : string) :
  emits (Spec.classified checker)
        (checkFeature toString checker featureId node filePath type).
Proof.
  unfold checkFeature.
  destruct (BaselineChecker.baseline
              (BaselineChecker.checkFeature checker featureId)) as [tier|] eqn:Hb.
  - apply emits_push. exists tier. simpl.
    repeat split; [exact Hb | apply determineSeverity_rule].
  - apply emits_ret.
Qed.

Lemma analyzeRoot_classified (root : Root) (filePath : string) :
  emits (Spec.classified checker)
        (analyzeRoot parseSelector toString checker root filePath).
Proof.
  unfold analyzeRoot, analyzeDeclaration, analyzeValue, analyzeSelector,
    analyzeAtRule, analyzeMediaQuery, analyzeSupportsQuery.
  repeat first [apply checkFeature_classified | emits_step].
Qed.

(** [analyze] always settles to a value; its features are what the
    body left in the array. *)
Lemma analyze_settles (content filePath : string) :
  analyze parse parseSelector toString checker content filePath
  = Ok (FileAnalysis.mk filePath FtCss
          (snd (try_catch
                  (root <- lift (parse content filePath) ;;
                   analyzeRoot parseSelector toString checker root filePath)
                  (fun error =>
                     console_warn
                       ("Failed to parse CSS file " ++ filePath ++ ":"))
                  []))).
Proof.
  unfold analyze, analyzeBody, bind, try_catch, lift, console_warn, get, ret.
  destruct (parse content filePath) as [root | e]; simpl.
  - destruct (analyzeRoot _ _ _ root filePath []) as [[[] | e] s];
      reflexivity.
  - reflexivity.
Qed.

End StylesheetExtractor.

(* ================================================================== *)
(** * The script extractor *)

Section ScriptExtractor.
Import Eff Regex SimpleJavaScriptAnalyzer ScriptUsages.

Variable checker : BaselineChecker.t.

Lemma script_determineSeverity_rule (tier : BaselineTier) (meets : bool) :
  determineSeverity tier meets = Spec.severity meets tier.
Proof. destruct tier, meets; reflexivity. Qed.

Lemma addFeature_appends (featureId context : string) (lineNumber : nat)
      (filePath description : string) (s : list FeatureUsage.t) :
  addFeature checker featureId context lineNumber filePath description s
  = (Ok tt, (s ++ added checker featureId context lineNumber filePath)%list).
Proof.
  unfold added, addFeature.
  destruct (BaselineChecker.baseline
              (BaselineChecker.checkFeature checker featureId));
    simpl; [reflexivity | now rewrite app_nil_r].
Qed.

Lemma added_at_most_one (featureId context : string) (lineNumber : nat)
      (filePath : string) :
  (List.length (added checker featureId context lineNumber filePath) <= 1)%nat.
Proof.
  unfold added, addFeature.
  destruct (BaselineChecker.baseline
              (BaselineChecker.checkFeature checker featureId));
    simpl; lia.
Qed.

Lemma added_fields (featureId context : string) (lineNumber : nat)
      (filePath : string) (u : FeatureUsage.t) :
  In u (added checker featureId context lineNumber filePath) ->
  FeatureUsage.feature u = featureId
  /\ FeatureUsage.line u = lineNumber
  /\ FeatureUsage.column u = 0
  /\ Spec.classified checker u.
Proof.
  unfold added, addFeature.
  destruct (BaselineChecker.baseline
              (BaselineChecker.checkFeature checker featureId))
    as [tier|] eqn:Hb; simpl; [|tauto].
  intros [<- | []]. simpl. repeat split.
  exists tier. simpl.
  repeat split; [exact Hb | apply script_determineSeverity_rule].
Qed.

Lemma checkPatterns_appends (patterns : list Pattern) (line : string)
      (lineNumber : nat) (filePath : string) (s : list FeatureUsage.t) :
  checkPatterns checker patterns line lineNumber filePath s
  = (Ok tt,
     (s ++ flat_map (entryUsages checker line lineNumber filePath) patterns)%list).
Proof.
  unfold checkPatterns. revert s.
  induction patterns as [|p ps IH]; intros s; simpl.
  - unfold ret. now rewrite app_nil_r.
  - unfold bind, when, entryUsages at 1.
    destruct (test (pattern p) line).
    + rewrite addFeature_appends, IH. now rewrite app_assoc.
    + unfold ret. rewrite IH. reflexivity.
Qed.

Lemma checkMethods_table (receiver kind label : string)
      (methods : list string) (line : string) (lineNumber : nat)
      (filePath : string) (s : list FeatureUsage.t) :
  checkMethods checker receiver kind label methods line lineNumber filePath s
  = checkPatterns checker (methodPatterns receiver kind label methods)
                  line lineNumber filePath s.
Proof.
  unfold checkMethods, checkPatterns, methodPatterns. revert s.
  induction methods as [|m ms IH]; intros s; cbn [forEach map];
    [reflexivity|].
  unfold bind. cbn [pattern feature description].
  destruct (when _ _ s) as [[[] | e] s']; [apply IH | reflexivity].
Qed.

Lemma checkMethods_appends (receiver kind label : string)
      (methods : list string) (line : string) (lineNumber : nat)
      (filePath : string) (s : list FeatureUsage.t) :
  checkMethods checker receiver kind label methods line lineNumber filePath s
  = (Ok tt,
     (s ++ flat_map (entryUsages checker line lineNumber filePath)
                    (methodPatterns receiver kind label methods))%list).
Proof. rewrite checkMethods_table. apply checkPatterns_appends. Qed.

Lemma analyzeLineForFeatures_appends (line : string) (lineNumber : nat)
      (filePath : string) (s : list FeatureUsage.t) :
  analyzeLineForFeatures checker line lineNumber filePath s
  = (Ok tt, (s ++ lineUsages checker line lineNumber filePath)%list).
Proof.
  unfold analyzeLineForFeatures, lineUsages, lineTable, bind.
  rewrite !checkMethods_appends, !checkPatterns_appends.
  now rewrite !flat_map_app, <- !app_assoc.
Qed.

Lemma analyzeLines_appends (lines : list string) (lineIndex : nat)
      (filePath : string) (s : list FeatureUsage.t) :
  analyzeLines checker lines lineIndex filePath s
  = (Ok tt, (s ++ linesUsages checker lines lineIndex filePath)%list).
Proof.
  revert lineIndex s.
  induction lines as [|line rest IH]; intros lineIndex s; simpl.
  - unfold ret. now rewrite app_nil_r.
  - unfold bind. rewrite analyzeLineForFeatures_appends, IH.
    now rewrite app_assoc.
Qed.

(** [analyze] always settles to a value. *)
Lemma script_analyze_settles (content filePath : string) :
  analyze checker content filePath
  = Ok (FileAnalysis.mk filePath (getFileType filePath)
          (linesUsages checker (JS.split JS.LF content) 0 filePath)).
Proof.
  unfold analyze, analyzeBody, bind.
  rewrite analyzeLines_appends. reflexivity.
Qed.

Lemma lineUsages_fields (line : string) (lineNumber : nat)
      (filePath : string) (u : FeatureUsage.t) :
  In u (lineUsages checker line lineNumber filePath) ->
  FeatureUsage.line u = lineNumber
  /\ FeatureUsage.column u = 0
  /\ Spec.classified checker u.
Proof.
  unfold lineUsages. intros H. apply in_flat_map in H.
  destruct H as (p & _ & H). unfold entryUsages in H.
  destruct (test (pattern p) line); [|contradiction].
  apply added_fields in H. tauto.
Qed.

Lemma linesUsages_fields (lines : list string) (lineIndex : nat)
      (filePath : string) (u : FeatureUsage.t) :
  In u (linesUsages checker lines lineIndex filePath) ->
  (lineIndex < FeatureUsage.line u)%nat
  /\ FeatureUsage.column u = 0
  /\ Spec.classified checker u.
Proof.
  revert lineIndex.
  induction lines as [|line rest IH]; intros lineIndex; simpl; [tauto|].
  intros H. apply in_app_or in H. destruct H as [H | H].
  - apply lineUsages_fields in H. destruct H as (-> & H). split; [lia | exact H].
  - apply IH in H. destruct H as (Hl & H). split; [lia | exact H].
Qed.

End ScriptExtractor.

(* ================================================================== *)
(** * Lists without repetition *)

Section Distinct.

Lemma distinct_NoDup (xs : list string) :
  ScriptUsages.distinct xs = true -> NoDup xs.
Proof.
  induction xs as [|x xs IH]; simpl; intros H; constructor.
  - apply andb_prop in H. destruct H as [H _].
    intros Hin. apply negb_true_iff in H.
    assert (existsb (String.eqb x) xs = true); [|congruence].
    apply existsb_exists. exists x. split; [exact Hin | apply String.eqb_refl].
  - apply IH. apply andb_prop in H. tauto.
Qed.

(** Each entry of a table yields at most one element, keyed like the
    entry: distinct keys in the table give distinct keys in the yield. *)
Lemma flat_map_keys_NoDup {A U K : Type} (key : A -> K) (ukey : U -> K)
      (f : A -> list U) (table : list A) :
  (forall a u, In u (f a) -> ukey u = key a) ->
  (forall a, (List.length (f a) <= 1)%nat) ->
  NoDup (map key table) ->
  NoDup (map ukey (flat_map f table)).
Proof.
  intros Hkey Hone. induction table as [|a table IH]; simpl; intros Hnd.
  - constructor.
  - inversion Hnd as [|k ks Hnotin Hrest]; subst.
    rewrite map_app. specialize (IH Hrest).
    assert (Hfresh : forall u, In u (f a) ->
                               ~ In (ukey u) (map ukey (flat_map f table))).
    { intros u Hu Hin. apply Hnotin.
      apply in_map_iff in Hin. destruct Hin as (v & Hv & Hin).
      apply in_flat_map in Hin. destruct Hin as (b & Hb & Hvb).
      apply in_map_iff. exists b. split; [|exact Hb].
      rewrite <- (Hkey a u Hu), <- Hv. symmetry. now apply Hkey. }
    specialize (Hone a).
    destruct (f a) as [|u [|v us]]; simpl in *; [exact IH | | lia].
    constructor; [|exact IH]. apply Hfresh. now left.
Qed.

End Distinct.

(* ================================================================== *)
(** * Contexts of the stylesheet usages *)

Section StylesheetContexts.
Import Eff Postcss CSSAnalyzer.

Variable parseSelector : string -> Outcome (list SelNode).
Variable toString : Node -> string.
Variable checker : BaselineChecker.t.
Variable root : Root.

Lemma take_length (n : nat) (s : string) :
  (String.length (JS.take n s) <= n)%nat.
Proof.
  revert s. induction n as [|n IH]; intros [|c s]; simpl; try lia.
  specialize (IH s). lia.
Qed.










End StylesheetContexts.

(* ================================================================== *)
(** * The extractors: what every emitted usage satisfies *)

Section Extractors.
Import Eff Postcss.

Lemma lineTable_distinct :
  NoDup (map SimpleJavaScriptAnalyzer.feature ScriptUsages.lineTable).
Proof. apply distinct_NoDup. vm_compute. reflexivity. Qed.

Lemma lineUsages_NoDup (checker : BaselineChecker.t) (line : string)
      (lineNumber : nat) (filePath : string) :
  NoDup (map Spec.lineAndFeature
             (ScriptUsages.lineUsages checker line lineNumber filePath)).
Proof.
  unfold ScriptUsages.lineUsages.
  apply flat_map_keys_NoDup
    with (key := fun p => (lineNumber, SimpleJavaScriptAnalyzer.feature p)).
  - intros p u Hu. unfold ScriptUsages.entryUsages in Hu.
    destruct (Regex.test _ line); [|contradiction].
    apply added_fields in Hu. destruct Hu as (Hf & Hl & _).
    unfold Spec.lineAndFeature. now rewrite Hf, Hl.
  - intros p. unfold ScriptUsages.entryUsages.
    destruct (Regex.test _ line); [apply added_at_most_one | simpl; lia].
  - rewrite <- (map_map SimpleJavaScriptAnalyzer.feature (pair lineNumber)).
    apply Injective_map_NoDup; [|apply lineTable_distinct].
    intros a b H. now inversion H.
Qed.

Lemma linesUsages_NoDup (checker : BaselineChecker.t) (lines : list string)
      (lineIndex : nat) (filePath : string) :
  NoDup (map Spec.lineAndFeature
             (ScriptUsages.linesUsages checker lines lineIndex filePath)).
Proof.
  revert lineIndex.
  induction lines as [|line rest IH]; intros lineIndex; simpl.
  - constructor.
  - rewrite map_app. apply NoDup_app.
    + apply lineUsages_NoDup.
    + apply IH.
    + intros k Hk Hk'.
      apply in_map_iff in Hk. destruct Hk as (u & <- & Hu).
      apply in_map_iff in Hk'. destruct Hk' as (v & Hv & Hv').
      apply lineUsages_fields in Hu. apply linesUsages_fields in Hv'.
      unfold Spec.lineAndFeature in Hv. inversion Hv. lia.
Qed.

(** C3. Every usage either extractor emits has a tier, the one the
    matcher gives its token, and the severity of the one rule: info when
    [meetsCriteria] is true; otherwise error for the tier limited and
    warning for any other tier. *)
Theorem emitted_usages_follow_severity_rule
        (parse : string -> string -> Outcome Root)
        (parseSelector : string -> Outcome (list SelNode))
        (toString : Node -> string)
        (checker : BaselineChecker.t) (content filePath : string) :
  (exists analysis,
      CSSAnalyzer.analyze parse parseSelector toString checker
                          content filePath = Ok analysis
      /\ Forall (Spec.classified checker) (FileAnalysis.features analysis))
  /\ (exists analysis,
         SimpleJavaScriptAnalyzer.analyze checker content filePath = Ok analysis
         /\ Forall (Spec.classified checker)
                   (FileAnalysis.features analysis)).
Proof.
  split.
  - eexists. split; [apply analyze_settles|]. simpl.
    apply emits_from_empty.
    apply emits_try_catch; [|intros; apply emits_console_warn].
    apply emits_bind; [apply emits_lift|].
    intros root. apply analyzeRoot_classified.
  - eexists. split; [apply script_analyze_settles|]. simpl.
    apply Forall_forall. intros u Hu.
    now apply linesUsages_fields in Hu.
Qed.



(** C7. For every text, the line-based script extractor emits at most
    one usage for each pair of a line number and a feature token, and
    every usage it emits has column 0. *)
Theorem script_usages_once_per_line_and_feature
        (checker : BaselineChecker.t) (content filePath : string) :
  exists analysis,
    SimpleJavaScriptAnalyzer.analyze checker content filePath = Ok analysis
    /\ NoDup (map Spec.lineAndFeature (FileAnalysis.features analysis))
    /\ Forall (fun u => FeatureUsage.column u = 0)
              (FileAnalysis.features analysis).
Proof.
  eexists. split; [apply script_analyze_settles|]. simpl. split.
  - apply linesUsages_NoDup.
  - apply Forall_forall. intros u Hu.
    now apply linesUsages_fields in Hu.
Qed.

(** The loop of [analyzeProject] passes over a file whose analysis has no
    features: the array of results stays as it is and the loop goes on. *)
Lemma analyzeInto_empty
      (readFile : string -> Outcome string) (extname : string -> string)
      (parse : string -> string -> Outcome Root)
      (parseSelector : string -> Outcome (list SelNode))
      (toString : Node -> string)
      (features : Dataset.t) (config : BaselineConfig.t)
      (file : string) (analysis : FileAnalysis.t)
      (fileAnalyses : list FileAnalysis.t) :
  Analyzer.analyzeFile readFile extname parse parseSelector toString
                       features config file = Ok analysis ->
  FileAnalysis.features analysis = [] ->
  Analyzer.analyzeInto readFile extname parse parseSelector toString
                       features config file fileAnalyses
  = (Ok tt, fileAnalyses).
Proof.
  intros Ha He. unfold Analyzer.analyzeInto, try_catch, bind, lift.
  now rewrite Ha, He.
Qed.

(** C9. When the CSS parser fails on a stylesheet, [analyze] settles to
    the analysis of that file with no features: the error is not
    propagated.  In a run, the file leaves the array of results as it
    was and the loop over the files goes on. *)
Theorem stylesheet_parse_failure
        (parse : string -> string -> Outcome Root)
        (parseSelector : string -> Outcome (list SelNode))
        (toString : Node -> string)
        (checker : BaselineChecker.t)
        (content filePath error : string) :
  parse content filePath = Throw error ->
  CSSAnalyzer.analyze parse parseSelector toString checker content filePath
  = Ok (FileAnalysis.mk filePath FtCss [])
  /\ forall (readFile : string -> Outcome string) (extname : string -> string)
            (features : Dataset.t) (config : BaselineConfig.t)
            (fileAnalyses : list FileAnalysis.t),
      readFile filePath = Ok content ->
      JS.arrayIncludes [".css"; ".scss"; ".sass"; ".less"]
                       (JS.toLowerCase (extname filePath)) = true ->
      Analyzer.analyzeInto readFile extname parse parseSelector toString
                           features config filePath fileAnalyses
      = (Ok tt, fileAnalyses).
Proof.
  intros Hparse.
  assert (Hcss : forall c,
             CSSAnalyzer.analyze parse parseSelector toString c content filePath
             = Ok (FileAnalysis.mk filePath FtCss [])).
  { intros c. rewrite analyze_settles.
    unfold try_catch, bind, lift. now rewrite Hparse. }
  split; [apply Hcss|].
  intros readFile extname features config fileAnalyses Hread Hext.
  apply analyzeInto_empty with (analysis := FileAnalysis.mk filePath FtCss []);
    [|reflexivity].
  unfold Analyzer.analyzeFile. rewrite Hread, Hext. apply Hcss.
Qed.

Lemma stylesheet_parse_failure_witness :
  (fun (_ _ : string) => @Throw Root "CssSyntaxError: Unclosed block")
    ".a{color:red" "broken.css"
  = Throw "CssSyntaxError: Unclosed block"
  /\ CSSAnalyzer.analyze
       (fun _ _ => Throw "CssSyntaxError: Unclosed block")
       (fun _ => Ok Sample.wideSelector) Sample.stringify
       (Sample.checker "widely-available") ".a{color:red" "broken.css"
     = Ok (FileAnalysis.mk "broken.css" FtCss []).
Proof.
  split; [reflexivity|].
  apply (stylesheet_parse_failure
           (fun _ _ => Throw "CssSyntaxError: Unclosed block")
           (fun _ => Ok Sample.wideSelector) Sample.stringify
           (Sample.checker "widely-available")
           ".a{color:red" "broken.css" "CssSyntaxError: Unclosed block").
  reflexivity.
Defined.

End Extractors.

(* ================================================================== *)
(** * Arithmetic of binary64 numbers *)

Section Numbers.
Import JSNumber.
Open Scope Q_scope.

Lemma pow2_pos (k : Z) : 0 < pow2 k.
Proof. apply Qpower_0_lt. reflexivity. Qed.

Lemma pow2_add (a b : Z) : pow2 (a + b) == pow2 a * pow2 b.
Proof. apply Qpower_plus. discriminate. Qed.

Lemma pow2_inject (n : Z) : (0 <= n)%Z -> pow2 n == inject_Z (2 ^ n).
Proof. intros H. unfold pow2. now rewrite Zpower_Qpower. Qed.

Lemma pow2_le (a b : Z) : (a <= b)%Z -> pow2 a <= pow2 b.
Proof. intros H. apply Qpower_le_compat_l; [exact H | discriminate]. Qed.

Lemma pow2_lt (a b : Z) : (a < b)%Z -> pow2 a < pow2 b.
Proof. intros H. apply Qpower_lt_compat_l; [exact H | reflexivity]. Qed.

Lemma pow2_lt_inv (a b : Z) : pow2 a < pow2 b -> (a < b)%Z.
Proof.
  intros H. destruct (Z_lt_le_dec a b) as [Hlt | Hle]; [exact Hlt|].
  apply pow2_le in Hle. lra.
Qed.

Lemma pow2_succ (a : Z) : pow2 (a + 1) == 2 * pow2 a.
Proof. rewrite pow2_add. unfold pow2 at 2. simpl. lra. Qed.

(** Characterisation of the binary exponent. *)
Lemma ilog2_unique (x : Q) (e : Z) :
  pow2 e <= x -> x < pow2 (e + 1) ->
  forall e', pow2 e' <= x -> x < pow2 (e' + 1) -> e = e'.
Proof.
  intros H1 H2 e' H3 H4.
  assert (e < e' + 1)%Z by (apply pow2_lt_inv; lra).
  assert (e' < e + 1)%Z by (apply pow2_lt_inv; lra).
  lia.
Qed.

Lemma inject_Z_pow2_bounds (a : Z) :
  (0 < a)%Z -> pow2 (Z.log2 a) <= inject_Z a /\ inject_Z a < pow2 (Z.log2 a + 1).
Proof.
  intros Ha. pose proof (Z.log2_spec a Ha) as [H1 H2].
  pose proof (Z.log2_nonneg a) as H0.
  rewrite !pow2_inject by lia.
  split.
  - rewrite <- Zle_Qle. exact H1.
  - rewrite <- Zlt_Qlt.
    replace (Z.log2 a + 1)%Z with (Z.succ (Z.log2 a)) by lia. exact H2.
Qed.

Lemma Q_as_ratio (x : Q) : x * inject_Z (Zpos (Qden x)) == inject_Z (Qnum x).
Proof.
  destruct x as [n d]. unfold Qeq, Qmult, inject_Z. simpl. lia.
Qed.

Lemma ilog2_spec (x : Q) :
  0 < x -> pow2 (ilog2 x) <= x /\ x < pow2 (ilog2 x + 1).
Proof.
  intros Hx.
  assert (Hn : (0 < Qnum x)%Z).
  { destruct x as [n d]. unfold Qlt in Hx. simpl in *. lia. }
  pose proof (inject_Z_pow2_bounds (Qnum x) Hn) as [Hn1 Hn2].
  pose proof (inject_Z_pow2_bounds (Zpos (Qden x)) eq_refl) as [Hd1 Hd2].
  pose proof (Q_as_ratio x) as Hr.
  set (la := Z.log2 (Qnum x)) in *. set (lb := Z.log2 (Zpos (Qden x))) in *.
  set (b := inject_Z (Zpos (Qden x))) in *. set (a := inject_Z (Qnum x)) in *.
  assert (Hb : 0 < b) by (pose proof (pow2_pos lb); lra).
  unfold ilog2. fold la lb.
  (* x < 2^(la - lb + 1) and 2^(la - lb - 1) < x *)
  assert (Hup : x < pow2 (la - lb + 1)).
  { assert (E : pow2 (la + 1) == pow2 (la - lb + 1) * pow2 lb).
    { rewrite <- pow2_add. now replace (la - lb + 1 + lb)%Z with (la + 1)%Z by lia. }
    apply Qmult_lt_r with (z := b); [exact Hb|].
    rewrite Hr. 
    apply Qlt_le_trans with (pow2 (la + 1)); [exact Hn2|].
    rewrite E. apply Qmult_le_l; [apply pow2_pos | exact Hd1]. }
  assert (Hlo : pow2 (la - lb - 1) < x).
  { assert (E : pow2 la == pow2 (la - lb - 1) * pow2 (lb + 1)).
    { rewrite <- pow2_add. now replace (la - lb - 1 + (lb + 1))%Z with la by lia. }
    apply Qmult_lt_r with (z := b); [exact Hb|].
    rewrite Hr.
    apply Qlt_le_trans with (pow2 la); [|exact Hn1].
    rewrite E. apply Qmult_lt_l; [apply pow2_pos | exact Hd2]. }
  destruct (Qle_bool (pow2 (la - lb)) x) eqn:E.
  - apply Qle_bool_iff in E. split; [exact E | exact Hup].
  - assert (Hlt : x < pow2 (la - lb)).
    { apply Qnot_le_lt. intros H. apply Qle_bool_iff in H. congruence. }
    split.
    + apply Qlt_le_weak. exact Hlo.
    + now replace (la - lb - 1 + 1)%Z with (la - lb)%Z by lia.
Qed.

Lemma Qfloor_unique (x : Q) (n : Z) :
  inject_Z n <= x -> x < inject_Z (n + 1) -> Qfloor x = n.
Proof.
  intros H1 H2.
  pose proof (Qfloor_le x) as F1. pose proof (Qlt_floor x) as F2.
  rewrite inject_Z_plus in H2, F2. change (inject_Z 1) with 1 in H2, F2.
  assert (Qfloor x < n + 1)%Z
    by (rewrite Zlt_Qlt, inject_Z_plus; change (inject_Z 1) with 1; lra).
  assert (n < Qfloor x + 1)%Z
    by (rewrite Zlt_Qlt, inject_Z_plus; change (inject_Z 1) with 1; lra).
  lia.
Qed.

Lemma nearestEven_error (y : Q) :
  y - (1 # 2) <= inject_Z (nearestEven y)
  /\ inject_Z (nearestEven y) <= y + (1 # 2).
Proof.
  unfold nearestEven.
  pose proof (Qfloor_le y) as F1. pose proof (Qlt_floor y) as F2.
  rewrite inject_Z_plus in F2. change (inject_Z 1) with 1 in F2.
  destruct (Qcompare (y - inject_Z (Qfloor y)) (1 # 2)) eqn:E.
  - apply Qeq_alt in E.
    destruct (Z.even (Qfloor y));
      [|rewrite inject_Z_plus; change (inject_Z 1) with 1]; lra.
  - apply Qlt_alt in E. lra.
  - apply Qgt_alt in E. rewrite inject_Z_plus.
    change (inject_Z 1) with 1. lra.
Qed.

Lemma nearestEven_integer (y : Q) (n : Z) :
  y == inject_Z n -> nearestEven y = n.
Proof.
  intros H. unfold nearestEven.
  assert (F : Qfloor y = n).
  { apply Qfloor_unique;
      [|rewrite inject_Z_plus; change (inject_Z 1) with 1]; lra. }
  rewrite F.
  destruct (Qcompare (y - inject_Z n) (1 # 2)) eqn:E.
  - apply Qeq_alt in E. lra.
  - reflexivity.
  - apply Qgt_alt in E. lra.
Qed.

(** The rounding of a positive number, by its exponent. *)
Lemma round_positive (x : Q) :
  0 < x ->
  round x = inject_Z (nearestEven (x / ulp x)) * ulp x.
Proof.
  intros H. unfold round.
  apply Qgt_alt in H. now rewrite H.
Qed.

Lemma round_zero (x : Q) : x == 0 -> round x = 0.
Proof. intros H. unfold round. apply Qeq_alt in H. now rewrite H. Qed.

Lemma ulp_normal (x : Q) :
  0 < x -> pow2 (-1022) <= x -> ulp x = pow2 (ilog2 x - 52).
Proof.
  intros Hx Hn. unfold ulp.
  destruct (ilog2_spec x Hx) as [_ H2].
  assert (-1022 < ilog2 x + 1)%Z by (apply pow2_lt_inv; lra).
  f_equal. lia.
Qed.

(** The relative error of a rounding in the normal range is at most
    2^-53. *)
Lemma round_error (x : Q) :
  0 < x -> pow2 (-1022) <= x ->
  x * (1 - pow2 (-53)) <= round x /\ round x <= x * (1 + pow2 (-53)).
Proof.
  intros Hx Hn.
  rewrite (round_positive x Hx), (ulp_normal x Hx Hn).
  destruct (ilog2_spec x Hx) as [H1 _].
  set (e := ilog2 x) in *.
  pose proof (pow2_pos (e - 52)) as Hu.
  set (u := pow2 (e - 52)) in *.
  destruct (nearestEven_error (x / u)) as [N1 N2].
  set (n := inject_Z (nearestEven (x / u))) in *.
  assert (Hxu : x / u * u == x) by (field; lra).
  assert (E : pow2 e == pow2 52 * u).
  { unfold u. rewrite <- pow2_add. now replace (52 + (e - 52))%Z with e by lia. }
  assert (E53 : pow2 (-53) * pow2 52 == 1 # 2).
  { rewrite <- pow2_add. reflexivity. }
  assert (Hhalf : u * (1 # 2) <= x * pow2 (-53)).
  { rewrite E in H1.
    assert (pow2 (-53) * (pow2 52 * u) <= pow2 (-53) * x).
    { apply Qmult_le_l; [apply pow2_pos | exact H1]. }
    rewrite Qmult_assoc, E53 in H. lra. }
  assert (L1 : (x / u - (1 # 2)) * u <= n * u)
    by (apply Qmult_le_compat_r; lra).
  assert (L2 : n * u <= (x / u + (1 # 2)) * u)
    by (apply Qmult_le_compat_r; lra).
  split; lra.
Qed.

(** A number with at most 53 significant bits is its own rounding. *)
Lemma round_exact (x : Q) (k j : Z) :
  x == inject_Z k * pow2 j ->
  (0 < k < 2 ^ 53)%Z -> (-1074 <= j)%Z ->
  round x == x.
Proof.
  intros Hx Hk Hj.
  pose proof (pow2_pos j) as Hpj.
  assert (Hk0 : 0 < inject_Z k) by (rewrite <- (Zlt_Qlt 0); lia).
  assert (Hk53 : inject_Z k < pow2 53).
  { rewrite pow2_inject by lia. rewrite <- Zlt_Qlt. lia. }
  assert (Hpos : 0 < x).
  { rewrite Hx. apply Qmult_lt_0_compat; assumption. }
  rewrite (round_positive x Hpos). unfold ulp.
  destruct (ilog2_spec x Hpos) as [H1 _].
  set (e := ilog2 x) in *.
  assert (He : (e < 53 + j)%Z).
  { apply pow2_lt_inv. rewrite pow2_add.
    apply Qle_lt_trans with x; [exact H1|].
    rewrite Hx. apply Qmult_lt_r; assumption. }
  set (u := Z.max (e - 52) (-1074)).
  assert (Hu : (u <= j)%Z) by (unfold u; lia).
  pose proof (pow2_pos u) as Hpu.
  assert (Ej : pow2 j == pow2 (j - u) * pow2 u).
  { rewrite <- pow2_add. now replace (j - u + u)%Z with j by lia. }
  assert (Ei : x / pow2 u == inject_Z (k * 2 ^ (j - u))).
  { rewrite inject_Z_mult, <- pow2_inject by lia.
    rewrite Hx, Ej. field. lra. }
  rewrite (nearestEven_integer _ _ Ei).
  rewrite inject_Z_mult, <- pow2_inject by lia.
  rewrite Hx, Ej. ring.
Qed.

Lemma round_integer (x : Q) (k : Z) :
  x == inject_Z k -> (0 <= k < 2 ^ 53)%Z -> round x == inject_Z k.
Proof.
  intros Hx Hk.
  destruct (Z.eq_dec k 0) as [-> | Hk0].
  - rewrite (round_zero x Hx). reflexivity.
  - rewrite <- Hx. apply round_exact with (k := k) (j := 0%Z); [|lia|lia].
    rewrite Hx. unfold pow2. simpl. ring.
Qed.

Lemma eps_value : pow2 (-53) == 1 # 9007199254740992.
Proof. reflexivity. Qed.

(** Two roundings in a row, seen from the integers: [v * M == V] with
    [V] and [M] integers, [v] not Spec.halfway between two integers, and [q]
    within [3 * 2^-53] of [v], relatively. *)
Lemma round_of_ratio (v q : Q) (V M : Z) :
  (0 < M)%Z -> (0 <= V)%Z -> (6 * V < 2 ^ 53)%Z ->
  v * inject_Z M == inject_Z V ->
  ~ Spec.halfway v ->
  v * (1 - 3 * pow2 (-53)) <= q -> q <= v * (1 + 3 * pow2 (-53)) ->
  Math_round q = Qfloor (v + (1 # 2)).
Proof.
  intros HM HV Hsmall Hv Hnot Hlo Hhi.
  unfold Math_round.
  set (n := Qfloor (v + (1 # 2))).
  pose proof (Qfloor_le (v + (1 # 2))) as F1.
  pose proof (Qlt_floor (v + (1 # 2))) as F2.
  fold n in F1, F2. rewrite inject_Z_plus in F2.
  change (inject_Z 1) with 1 in F2.
  assert (F1' : inject_Z n < v + (1 # 2)).
  { apply Qle_lteq in F1. destruct F1 as [F1 | F1]; [exact F1|].
    exfalso. apply Hnot. exists (n + -1)%Z.
    rewrite inject_Z_plus. change (inject_Z (-1)) with (-1 # 1). lra. }
  assert (HMq : 0 < inject_Z M) by (rewrite <- (Zlt_Qlt 0); lia).
  assert (HVq : 0 <= inject_Z V) by (rewrite <- (Zle_Qle 0); lia).
  (* the gaps, in the integers *)
  assert (G1 : (2 * M * n + 1 <= 2 * V + M)%Z).
  { assert (2 * M * n < 2 * V + M)%Z; [|lia].
    rewrite Zlt_Qlt. rewrite inject_Z_plus, !inject_Z_mult.
    change (inject_Z 2) with 2. rewrite <- Hv.
    assert (inject_Z n * inject_Z M < (v + (1 # 2)) * inject_Z M)
      by (apply Qmult_lt_compat_r; assumption).
    lra. }
  assert (G2 : (2 * V + M + 1 <= 2 * M * (n + 1))%Z).
  { assert (2 * V + M < 2 * M * (n + 1))%Z; [|lia].
    rewrite Zlt_Qlt. rewrite !inject_Z_plus, !inject_Z_mult, inject_Z_plus.
    change (inject_Z 2) with 2. change (inject_Z 1) with 1. rewrite <- Hv.
    assert ((v + (1 # 2)) * inject_Z M < (inject_Z n + 1) * inject_Z M)
      by (apply Qmult_lt_compat_r; assumption).
    lra. }
  rewrite Zle_Qle in G1, G2.
  rewrite !inject_Z_plus, !inject_Z_mult in G1, G2.
  rewrite inject_Z_plus in G2.
  change (inject_Z 2) with 2 in G1, G2. change (inject_Z 1) with 1 in G1, G2.
  assert (S : 6 * inject_Z V < 9007199254740992).
  { change 9007199254740992 with (inject_Z (2 ^ 53)).
    change 6 with (inject_Z 6). rewrite <- inject_Z_mult, <- Zlt_Qlt. exact Hsmall. }
  rewrite eps_value in Hlo, Hhi.
  assert (L : (v * (1 - 3 * (1 # 9007199254740992))) * inject_Z M <= q * inject_Z M)
    by (apply Qmult_le_compat_r; lra).
  assert (U : q * inject_Z M <= (v * (1 + 3 * (1 # 9007199254740992))) * inject_Z M)
    by (apply Qmult_le_compat_r; lra).
  assert (E1 : v * (1 - 3 * (1 # 9007199254740992)) * inject_Z M
               == inject_Z V * (1 - 3 * (1 # 9007199254740992)))
    by (rewrite <- Hv; ring).
  assert (E2 : v * (1 + 3 * (1 # 9007199254740992)) * inject_Z M
               == inject_Z V * (1 + 3 * (1 # 9007199254740992)))
    by (rewrite <- Hv; ring).
  rewrite E1 in L. rewrite E2 in U.
  apply Qfloor_unique.
  - apply Qmult_le_r with (z := inject_Z M); [exact HMq|].
    clear - L G1 S HVq. lra.
  - rewrite inject_Z_plus. change (inject_Z 1) with 1.
    apply Qmult_lt_r with (z := inject_Z M); [exact HMq|].
    clear - U G2 S HVq. lra.
Qed.

Lemma ofNat_bounds (n : nat) : 0 <= ofNat n.
Proof. unfold ofNat. rewrite <- (Zle_Qle 0). lia. Qed.

(** A quotient of counters, then a scaling by an integer constant: the
    result is within [3 * 2^-53] of the exact value, relatively. *)
Lemma div_then_mul_error (a b : Q) (r m c : Z) :
  a == inject_Z r -> b == inject_Z m ->
  (0 <= r < 2 ^ 53)%Z -> (0 < m < 2 ^ 53)%Z -> (0 < c < 2 ^ 53)%Z ->
  let v := inject_Z c * inject_Z r / inject_Z m in
  let q := mul (div a b) (inject_Z c) in
  v * (1 - 3 * pow2 (-53)) <= q /\ q <= v * (1 + 3 * pow2 (-53)).
Proof.
  intros Ha Hb Hr Hm Hc v q.
  assert (HM : 0 < inject_Z m) by (rewrite <- (Zlt_Qlt 0); lia).
  assert (HC : 1 <= inject_Z c) by (rewrite <- (Zle_Qle 1); lia).
  assert (HM53 : inject_Z m < pow2 53).
  { rewrite pow2_inject by lia. rewrite <- Zlt_Qlt. lia. }
  destruct (Z.eq_dec r 0) as [-> | Hr0].
  - (* nothing at risk: every step is exact *)
    assert (Ed : div a b = 0).
    { unfold div. apply round_zero. rewrite Ha, Hb. field. lra. }
    assert (Eq : q = 0).
    { unfold q, mul. rewrite Ed. apply round_zero. ring. }
    assert (Ev : v == 0) by (unfold v; field; lra).
    rewrite Eq, Ev. split; lra.
  - assert (HR : 1 <= inject_Z r) by (rewrite <- (Zle_Qle 1); lia).
    set (x := a / b).
    assert (Ex : x * inject_Z m == inject_Z r).
    { unfold x. rewrite Ha, Hb. field. lra. }
    assert (Hx53 : pow2 (-53) < x).
    { apply Qmult_lt_r with (z := inject_Z m); [exact HM|].
      rewrite Ex.
      apply Qlt_le_trans with (pow2 (-53) * pow2 53).
      - apply Qmult_lt_l; [apply pow2_pos | exact HM53].
      - rewrite <- pow2_add. simpl. exact HR. }
    pose proof (pow2_pos (-53)) as Hp53.
    pose proof (pow2_le (-1022) (-53) ltac:(lia)) as Hp1.
    pose proof (pow2_le (-1022) (-54) ltac:(lia)) as Hp2.
    assert (E54 : pow2 (-53) == 2 * pow2 (-54)).
    { rewrite <- pow2_succ. reflexivity. }
    destruct (round_error x ltac:(lra) ltac:(lra)) as [D1 D2].
    set (d := div a b) in *. change (round x) with d in D1, D2.
    assert (Hv : v == inject_Z c * x).
    { unfold v. apply Qmult_inj_r with (z := inject_Z m); [lra|].
      rewrite <- Qmult_assoc, Ex. field. lra. }
    rewrite eps_value in *.
    assert (Hd : (1 # 2) * x <= d) by lra.
    assert (Hy0 : 0 < d * inject_Z c).
    { apply Qmult_lt_0_compat; lra. }
    assert (Hy1 : d <= d * inject_Z c).
    { rewrite <- (Qmult_1_r d) at 1. apply Qmult_le_l; lra. }
    destruct (round_error (d * inject_Z c) Hy0 ltac:(lra)) as [Q1 Q2].
    change (round (d * inject_Z c)) with q in Q1, Q2.
    rewrite eps_value in Q1, Q2.
    assert (C1 : inject_Z c * (x * (1 - (1 # 9007199254740992)))
                 <= inject_Z c * d) by (apply Qmult_le_l; lra).
    assert (C2 : inject_Z c * d
                 <= inject_Z c * (x * (1 + (1 # 9007199254740992))))
      by (apply Qmult_le_l; lra).
    assert (Hcx : 0 < inject_Z c * x) by (apply Qmult_lt_0_compat; lra).
    rewrite Hv. split; lra.
Qed.

Lemma mul_counter (n : nat) (c : Z) :
  (0 <= c)%Z -> (Z.of_nat n * c < 2 ^ 53)%Z ->
  mul (ofNat n) (inject_Z c) == inject_Z (Z.of_nat n * c).
Proof.
  intros Hc Hb. unfold mul, ofNat. apply round_integer.
  - now rewrite inject_Z_mult.
  - lia.
Qed.

Lemma add_integers (a b : Q) (x y : Z) :
  a == inject_Z x -> b == inject_Z y ->
  (0 <= x)%Z -> (0 <= y)%Z -> (x + y < 2 ^ 53)%Z ->
  add a b == inject_Z (x + y).
Proof.
  intros Ha Hb Hx Hy Hs. unfold add. apply round_integer.
  - now rewrite Ha, Hb, inject_Z_plus.
  - lia.
Qed.

(** ** The risk score *)

Lemma calculateRiskScore_empty (result : AnalysisResult.t) :
  AnalysisResult.totalFeatures result = 0%nat ->
  JSONReporter.calculateRiskScore result = 0%Z.
Proof.
  intros H. unfold JSONReporter.calculateRiskScore. rewrite H. reflexivity.
Qed.

Lemma calculateRiskScore_rounds (result : AnalysisResult.t) :
  let errors := Summary.errors (AnalysisResult.summary result) in
  let warnings := Summary.warnings (AnalysisResult.summary result) in
  let totalUsages := AnalysisResult.totalFeatures result in
  (Z.of_nat errors < 2 ^ 32)%Z ->
  (Z.of_nat warnings < 2 ^ 32)%Z ->
  (Z.of_nat totalUsages < 2 ^ 32)%Z ->
  totalUsages <> 0%nat ->
  ~ Spec.halfway (Spec.riskValue errors warnings totalUsages) ->
  JSONReporter.calculateRiskScore result
  = Qfloor (Spec.riskValue errors warnings totalUsages + (1 # 2)).
Proof.
  intros errors warnings totalUsages He Hw Ht Ht0 Hnot.
  unfold JSONReporter.calculateRiskScore.
  fold errors warnings totalUsages.
  set (E := Z.of_nat errors) in *. set (W := Z.of_nat warnings) in *.
  set (T := Z.of_nat totalUsages) in *.
  assert (HE : (0 <= E)%Z) by (unfold E; lia).
  assert (HW : (0 <= W)%Z) by (unfold W; lia).
  assert (HT : (0 < T)%Z) by (unfold T; lia).
  pose proof (mul_counter errors 3 ltac:(lia) ltac:(fold E; lia)) as A1.
  pose proof (mul_counter warnings 1 ltac:(lia) ltac:(fold W; lia)) as A2.
  pose proof (mul_counter totalUsages 3 ltac:(lia) ltac:(fold T; lia)) as A3.
  fold E in A1. fold W in A2. fold T in A3.
  change (inject_Z 3) with 3 in A1, A3. change (inject_Z 1) with 1 in A2.
  pose proof (add_integers _ _ _ _ A1 A2 ltac:(lia) ltac:(lia) ltac:(lia))
    as A4.
  set (totalRisk := add (mul (ofNat errors) 3) (mul (ofNat warnings) 1)) in *.
  set (maxPossibleRisk := mul (ofNat totalUsages) 3) in *.
  assert (Hmax : Qeq_bool maxPossibleRisk 0 = false).
  { destruct (Qeq_bool maxPossibleRisk 0) eqn:B; [|reflexivity].
    apply Qeq_bool_iff in B. rewrite A3 in B.
    unfold Qeq in B. simpl in B. lia. }
  rewrite Hmax.
  destruct (div_then_mul_error totalRisk maxPossibleRisk
              (E * 3 + W * 1) (T * 3) 100 A4 A3
              ltac:(lia) ltac:(lia) ltac:(lia)) as [B1 B2].
  change (inject_Z 100) with 100 in B1, B2.
  assert (Ev : 100 * inject_Z (E * 3 + W * 1) / inject_Z (T * 3)
               == Spec.riskValue errors warnings totalUsages).
  { unfold Spec.riskValue. fold E W T.
    rewrite inject_Z_plus, !inject_Z_mult.
    change (inject_Z 3) with 3. change (inject_Z 1) with 1.
    assert (0 < inject_Z T) by (rewrite <- (Zlt_Qlt 0); exact HT).
    field. lra. }
  assert (Hnot' : ~ Spec.halfway (100 * inject_Z (E * 3 + W * 1) / inject_Z (T * 3))).
  { intros [k Hk]. apply Hnot. exists k. now rewrite <- Ev. }
  rewrite <- (Qfloor_comp _ _ (Qplus_comp _ _ Ev _ _ (Qeq_refl (1 # 2)))).
  apply round_of_ratio with (V := (100 * (E * 3 + W * 1))%Z) (M := (T * 3)%Z);
    try assumption; try lia.
  rewrite (inject_Z_mult 100). change (inject_Z 100) with 100.
  assert (0 < inject_Z (T * 3)) by (rewrite <- (Zlt_Qlt 0); lia).
  field. lra.
Qed.

(** ** The compatibility score *)

Lemma pointsZ_bounds (u : FeatureUsage.t) : (25 <= Spec.pointsZ u <= 100)%Z.
Proof.
  unfold Spec.pointsZ. destruct (FeatureUsage.baseline u) as [[]|]; lia.
Qed.

Lemma score_pointsZ (u : FeatureUsage.t) :
  Analyzer.score u = inject_Z (Spec.pointsZ u).
Proof.
  unfold Analyzer.score, Spec.pointsZ.
  destruct (FeatureUsage.baseline u) as [[]|]; reflexivity.
Qed.

Lemma points_pointsZ (u : FeatureUsage.t) :
  Spec.points u = inject_Z (Spec.pointsZ u).
Proof.
  unfold Spec.points, Spec.pointsZ.
  destruct (FeatureUsage.baseline u) as [[]|]; reflexivity.
Qed.

Lemma totalZ_bounds (us : list FeatureUsage.t) :
  (25 * Z.of_nat (List.length us) <= Spec.totalZ us
   <= 100 * Z.of_nat (List.length us))%Z.
Proof.
  induction us as [|u us IH]; simpl List.length; simpl Spec.totalZ; [lia|].
  pose proof (pointsZ_bounds u). lia.
Qed.

Lemma total_totalZ (us : list FeatureUsage.t) :
  Spec.total us == inject_Z (Spec.totalZ us).
Proof.
  induction us as [|u us IH]; simpl; [reflexivity|].
  now rewrite IH, points_pointsZ, inject_Z_plus.
Qed.

(** The sum that [reduce] accumulates is exact: every partial sum is an
    integer below 2^53. *)
Lemma reduce_exact (us : list FeatureUsage.t) (acc : Q) (accZ : Z) :
  acc == inject_Z accZ -> (0 <= accZ)%Z ->
  (accZ + 100 * Z.of_nat (List.length us) < 2 ^ 53)%Z ->
  fold_left (fun sum score => add sum score) (map Analyzer.score us) acc
  == inject_Z (accZ + Spec.totalZ us).
Proof.
  revert acc accZ.
  induction us as [|u us IH]; intros acc accZ Hacc H0 Hb.
  - simpl. now rewrite Z.add_0_r.
  - cbn [map fold_left Spec.totalZ fold_right].
    change (fold_right (fun u acc => (Spec.pointsZ u + acc)%Z) 0%Z us)
      with (Spec.totalZ us).
    pose proof (pointsZ_bounds u) as Hp.
    cbn [List.length] in Hb. rewrite Nat2Z.inj_succ in Hb.
    rewrite (IH (add acc (Analyzer.score u)) (accZ + Spec.pointsZ u)%Z).
    + now rewrite Z.add_assoc.
    + apply add_integers; try lia; [exact Hacc | now rewrite score_pointsZ].
    + lia.
    + lia.
Qed.

Lemma calculateCompatibilityScore_rounds (us : list FeatureUsage.t) :
  (Z.of_nat (List.length us) < 2 ^ 32)%Z ->
  Analyzer.calculateCompatibilityScore us = Spec.compatibilityScore us.
Proof.
  intros Hlen.
  unfold Analyzer.calculateCompatibilityScore, Spec.compatibilityScore.
  destruct us as [|u0 us0]; [reflexivity|].
  set (us := u0 :: us0) in *.
  change (List.length us =? 0)%nat with false. cbv iota.
  rewrite length_map.
  pose proof (totalZ_bounds us) as Hb.
  set (n := Z.of_nat (List.length us)) in *.
  assert (Hn : (0 < n)%Z) by (unfold n, us; simpl List.length; lia).
  pose proof (reduce_exact us 0 0 ltac:(reflexivity) ltac:(lia) ltac:(fold n; lia))
    as Hsum.
  rewrite Z.add_0_l in Hsum.
  set (S := fold_left (fun sum score => add sum score)
                      (map Analyzer.score us) 0) in *.
  unfold Spec.roundHalfUp.
  set (v := Spec.total us / inject_Z n).
  assert (Hnq : 0 < inject_Z n) by (rewrite <- (Zlt_Qlt 0); exact Hn).
  assert (Hv : v * inject_Z n == inject_Z (Spec.totalZ us)).
  { unfold v. rewrite total_totalZ. field. lra. }
  assert (Hx : S / ofNat (List.length us) == v).
  { unfold v, ofNat. fold n. now rewrite Hsum, total_totalZ. }
  assert (Hv25 : 25 <= v).
  { apply Qmult_le_r with (z := inject_Z n); [exact Hnq|].
    rewrite Hv. change 25 with (inject_Z 25).
    rewrite <- inject_Z_mult, <- Zle_Qle. lia. }
  assert (Hv100 : v <= 100).
  { apply Qmult_le_r with (z := inject_Z n); [exact Hnq|].
    rewrite Hv. change 100 with (inject_Z 100).
    rewrite <- inject_Z_mult, <- Zle_Qle. lia. }
  unfold div. set (x := S / ofNat (List.length us)) in *.
  pose proof (pow2_le (-1022) 0 ltac:(lia)) as Hp.
  change (pow2 0) with 1 in Hp.
  destruct (Qeq_dec (inject_Z (Qfloor (v + (1 # 2)))) (v + (1 # 2)))
    as [Htie | Hno].
  - (* the mean is Spec.halfway between two integers: it is a binary64 value *)
    set (k := Qfloor (v + (1 # 2))) in *.
    assert (Hk : (0 < 2 * k + -1 < 2 ^ 53)%Z).
    { assert (25 < inject_Z k) by lra. assert (inject_Z k < 101) by lra.
      change 25 with (inject_Z 25) in H. change 101 with (inject_Z 101) in H0.
      rewrite <- Zlt_Qlt in H, H0. lia. }
    assert (Ex : x == inject_Z (2 * k + -1) * pow2 (-1)).
    { rewrite Hx. rewrite inject_Z_plus, inject_Z_mult.
      change (inject_Z 2) with 2. change (inject_Z (-1)) with (-1 # 1).
      change (pow2 (-1)) with (1 # 2). lra. }
    pose proof (round_exact x _ _ Ex Hk ltac:(lia)) as Hr.
    unfold Math_round. apply Qfloor_comp. rewrite Hr, Hx. reflexivity.
  - (* otherwise the rounding of the quotient stays on the same side *)
    apply round_of_ratio with (V := Spec.totalZ us) (M := n);
      try assumption; try lia.
    + intros [j Hj]. apply Hno.
      assert (Qfloor (v + (1 # 2)) = (j + 1)%Z).
      { apply Qfloor_unique; rewrite !inject_Z_plus;
          change (inject_Z 1) with 1; lra. }
      rewrite H, inject_Z_plus. change (inject_Z 1) with 1. lra.
    + destruct (round_error x ltac:(lra) ltac:(lra)) as [D1 _].
      rewrite eps_value in *. lra.
    + destruct (round_error x ltac:(lra) ltac:(lra)) as [_ D2].
      rewrite eps_value in *. lra.
Qed.
End Numbers.


(* ================================================================== *)
(** * The model of the numbers against the binary64 of the kernel *)

Section Binary64.
Import PrimFloat JSNumber.

Example div_agrees_69_120 :
  agrees (PrimFloat.div 69 120)%float (div 69 120) = true.
Proof. vm_compute. reflexivity. Qed.

Example mul_agrees_69_120 :
  agrees (PrimFloat.mul (PrimFloat.div 69 120) 100)%float
         (mul (div 69 120) 100) = true.
Proof. vm_compute. reflexivity. Qed.

Example div_agrees_1_3 :
  agrees (PrimFloat.div 1 3)%float (div 1 3) = true.
Proof. vm_compute. reflexivity. Qed.

Example div_agrees_275_4 :
  agrees (PrimFloat.div 275 4)%float (div 275 4) = true.
Proof. vm_compute. reflexivity. Qed.

Example add_agrees_large :
  agrees (PrimFloat.add 9007199254740992 3)%float
         (add 9007199254740992 3) = true.
Proof. vm_compute. reflexivity. Qed.

End Binary64.

(* ================================================================== *)
(** * The scores *)

Section Scores.

(** C4. The compatibility score is the mean of the points of the usages
    (100 for widely-available, 75 for newly-available, 25 for limited, 50
    for a usage without a tier), rounded to the nearest integer; it is 100
    for no usage.  A JavaScript array has fewer than 2^32 elements.  In
    particular the score of no usage is 100, the score of two
    widely-available usages is 100 and the score of one limited usage is
    25. *)
Theorem compatibilityScore_rounded_mean :
  (forall features : list FeatureUsage.t,
      (Z.of_nat (List.length features) < 2 ^ 32)%Z ->
      Analyzer.calculateCompatibilityScore features
      = Spec.compatibilityScore features)
  /\ Analyzer.calculateCompatibilityScore [] = 100%Z
  /\ (forall u1 u2 : FeatureUsage.t,
         FeatureUsage.baseline u1 = Some WidelyAvailable ->
         FeatureUsage.baseline u2 = Some WidelyAvailable ->
         Analyzer.calculateCompatibilityScore [u1; u2] = 100%Z)
  /\ (forall u : FeatureUsage.t,
         FeatureUsage.baseline u = Some Limited ->
         Analyzer.calculateCompatibilityScore [u] = 25%Z).
Proof.
  split; [exact calculateCompatibilityScore_rounds|].
  split; [reflexivity|]. split.
  - intros u1 u2 H1 H2.
    rewrite calculateCompatibilityScore_rounds by (simpl; lia).
    unfold Spec.compatibilityScore, Spec.total, Spec.points. simpl.
    rewrite H1, H2. reflexivity.
  - intros u H.
    rewrite calculateCompatibilityScore_rounds by (simpl; lia).
    unfold Spec.compatibilityScore, Spec.total, Spec.points. simpl.
    rewrite H. reflexivity.
Qed.

Lemma compatibilityScore_rounded_mean_witness :
  (Z.of_nat (List.length [Sample.widelyUsage; Sample.limitedUsage]) < 2 ^ 32)%Z
  /\ Analyzer.calculateCompatibilityScore
       [Sample.widelyUsage; Sample.limitedUsage]
     = Spec.compatibilityScore [Sample.widelyUsage; Sample.limitedUsage].
Proof.
  split; [vm_compute; reflexivity|].
  apply (proj1 compatibilityScore_rounded_mean). vm_compute. reflexivity.
Defined.

(** C8. At a tie the code misses the formula.  A report of 40 usages
    with 23 errors and no warning has the exact value 57.5, which the
    formula rounds to 58.  The code divides before it multiplies: the
    Numbers [69 / 120] and then [(69 / 120) * 100] are rounded to
    binary64, the product falls just below 57.5, and the risk score is
    57.  Evaluated in binary64 in the order the formula is written,
    multiplying first, the result is 58. *)
Theorem riskScore_misses_a_tie :
  let result := Sample.riskyResult in
  Summary.errors (AnalysisResult.summary result) = 23
  /\ Summary.warnings (AnalysisResult.summary result) = 0
  /\ AnalysisResult.totalFeatures result = 40
  /\ Qeq (Spec.riskValue 23 0 40) (115 # 2)
  /\ Spec.riskScore 23 0 40 = 58%Z
  /\ Spec.riskScoreAsWritten 23 0 40 = 58%Z
  /\ JSONReporter.calculateRiskScore result = 57%Z.
Proof. vm_compute. repeat split; reflexivity. Qed.

End Scores.

(* ================================================================== *)
(** * More on the matcher *)

Section MatcherIndex.
Import BaselineChecker.

Lemma has_set_same (m : FeatureMap) (k : string) (v : Dataset.Feature) :
  has (set m k v) k = true.
Proof.
  unfold has. induction m as [|[k' v'] m IH]; simpl.
  - now rewrite String.eqb_refl.
  - destruct (String.eqb k' k) eqn:E; simpl; rewrite E; [reflexivity | exact IH].
Qed.

Lemma has_set_other (m : FeatureMap) (k k' : string) (v : Dataset.Feature) :
  has m k = true -> has (set m k' v) k = true.
Proof.
  unfold has. induction m as [|[k0 v0] m IH]; simpl; [discriminate|].
  destruct (String.eqb k0 k') eqn:E'; simpl.
  - destruct (String.eqb k0 k); [reflexivity | tauto].
  - destruct (String.eqb k0 k); [reflexivity | exact IH].
Qed.

(** Keys are never removed while the map is built. *)
Lemma has_fold_set {A : Type} (f : FeatureMap -> A -> FeatureMap)
      (xs : list A) (m : FeatureMap) (k : string) :
  (forall m x, has m k = true -> has (f m x) k = true) ->
  has m k = true -> has (fold_left f xs m) k = true.
Proof.
  intros Hf. revert m. induction xs as [|x xs IH]; intros m H; simpl; auto.
Qed.

Lemma addCommonMappings_keeps (m : FeatureMap) (id : string)
      (f : Dataset.Feature) (k : string) :
  has m k = true -> has (addCommonMappings m id f) k = true.
Proof.
  intros H. unfold addCommonMappings.
  destruct (assoc id mappings) as [aliases|]; [|exact H].
  apply has_fold_set; [|exact H]. intros; now apply has_set_other.
Qed.

Lemma compat_step_keeps (f : Dataset.Feature) (m : FeatureMap)
      (compat k : string) :
  has m k = true ->
  has (let m := set m compat f in
       if JS.startsWith compat "css.properties."
       then set m (JS.replaceFirst "css.properties." EmptyString compat) f
       else m) k = true.
Proof.
  intros H. cbv zeta.
  destruct (JS.startsWith compat "css.properties.");
    repeat apply has_set_other; exact H.
Qed.

Lemma indexFeature_keeps (m : FeatureMap) (entry : string * Dataset.Feature)
      (k : string) :
  has m k = true -> has (indexFeature m entry) k = true.
Proof.
  intros H. destruct entry as [id f]. unfold indexFeature.
  apply addCommonMappings_keeps.
  assert (H1 : has (set m id f) k = true) by now apply has_set_other.
  assert (H2 : has match Dataset.name f with
                   | Some n => if JS.truthy (Some n)
                               then set (set m id f) (JS.toLowerCase n) f
                               else set m id f
                   | None => set m id f
                   end k = true).
  { destruct (Dataset.name f) as [n|]; [|exact H1].
    destruct (JS.truthy (Some n)); [now apply has_set_other | exact H1]. }
  destruct (Dataset.compat_features f) as [compats|]; [|exact H2].
  apply has_fold_set; [|exact H2].
  intros m' c Hm'. now apply compat_step_keeps.
Qed.

Lemma fold_set_reaches {A : Type} (f : FeatureMap -> A -> FeatureMap)
      (xs : list A) (x : A) (m : FeatureMap) (k : string) :
  (forall m y, has m k = true -> has (f m y) k = true) ->
  (forall m, has (f m x) k = true) ->
  In x xs -> has (fold_left f xs m) k = true.
Proof.
  intros Hkeep Hx. revert m.
  induction xs as [|y xs IH]; intros m Hin; simpl; [contradiction|].
  destruct Hin as [-> | Hin]; [|now apply IH].
  apply has_fold_set; [exact Hkeep | apply Hx].
Qed.

(** What one entry of the dataset puts in the map. *)
Lemma indexFeature_keys (m : FeatureMap) (id : string) (f : Dataset.Feature) :
  let m' := indexFeature m (id, f) in
  has m' id = true
  /\ (forall n, Dataset.name f = Some n -> n <> EmptyString ->
                has m' (JS.toLowerCase n) = true)
  /\ (forall compats compat,
         Dataset.compat_features f = Some compats -> In compat compats ->
         has m' compat = true
         /\ (JS.startsWith compat "css.properties." = true ->
             has m' (JS.drop 15 compat) = true))
  /\ (forall aliases alias,
         assoc id mappings = Some aliases -> In alias aliases ->
         has m' alias = true).
Proof.
  cbv zeta. unfold indexFeature.
  set (m1 := set m id f).
  set (m2 := match Dataset.name f with
             | Some n => if JS.truthy (Some n)
                         then set m1 (JS.toLowerCase n) f else m1
             | None => m1
             end).
  set (step := fun m compat =>
                 let m := set m compat f in
                 if JS.startsWith compat "css.properties."
                 then set m (JS.replaceFirst "css.properties." EmptyString
                                             compat) f
                 else m).
  set (m3 := match Dataset.compat_features f with
             | Some compats => fold_left step compats m2
             | None => m2
             end).
  assert (K12 : forall k, has m1 k = true -> has m2 k = true).
  { intros k H. unfold m2. destruct (Dataset.name f) as [n|]; [|exact H].
    destruct (JS.truthy (Some n)); [now apply has_set_other | exact H]. }
  assert (Kstep : forall k m y, has m k = true -> has (step m y) k = true).
  { intros k m0 y H. now apply compat_step_keeps. }
  assert (K23 : forall k, has m2 k = true -> has m3 k = true).
  { intros k H. unfold m3.
    destruct (Dataset.compat_features f) as [compats|]; [|exact H].
    apply has_fold_set; [apply Kstep | exact H]. }
  split; [|split; [|split]].
  - apply addCommonMappings_keeps, K23, K12, has_set_same.
  - intros n Hn Hne. apply addCommonMappings_keeps, K23.
    unfold m2. rewrite Hn.
    destruct n as [|c n]; [congruence|]. simpl. apply has_set_same.
  - intros compats compat Hc Hin. unfold m3. rewrite Hc. split.
    + apply addCommonMappings_keeps.
      apply fold_set_reaches with (x := compat); auto.
      intros m0. unfold step. cbv zeta.
      destruct (JS.startsWith compat "css.properties.");
        [apply has_set_other|]; apply has_set_same.
    + intros Hs. apply addCommonMappings_keeps.
      apply fold_set_reaches with (x := compat); auto.
      intros m0. unfold step. cbv zeta. rewrite Hs.
      replace (JS.drop 15 compat)
        with (JS.replaceFirst "css.properties." EmptyString compat);
        [apply has_set_same|].
      unfold JS.startsWith in Hs.
      destruct compat as [|c compat];
        unfold JS.replaceFirst; fold JS.replaceFirst; rewrite Hs; reflexivity.
  - intros aliases alias Ha Hin. unfold addCommonMappings. rewrite Ha.
    apply fold_set_reaches with (x := alias); auto.
    + intros; now apply has_set_other.
    + intros; apply has_set_same.
Qed.

(** X1. Every entry of the dataset is indexed under its id, its
    lowercased display name, each of its compatibility keys, the bare
    property name of each [css.properties.] key and each of its aliases;
    so a dataset id is always found, at the first lookup stage.  This for
    a dataset none of whose ids names a member that objects inherit: for
    such an id [mappings[id]] is no array, and the construction of the
    index throws. *)
Theorem dataset_entries_are_indexed (features : Dataset.t) (id : string)
        (f : Dataset.Feature) :
  forallb (fun entry => negb (JSObject.inherits (fst entry))) features = true ->
  In (id, f) features ->
  let m := initializeFeatureMap features in
  has m id = true
  /\ (forall n, Dataset.name f = Some n -> n <> EmptyString ->
                has m (JS.toLowerCase n) = true)
  /\ (forall compats compat,
         Dataset.compat_features f = Some compats -> In compat compats ->
         has m compat = true
         /\ (JS.startsWith compat "css.properties." = true ->
             has m (JS.drop 15 compat) = true))
  /\ (forall aliases alias,
         assoc id mappings = Some aliases -> In alias aliases ->
         has m alias = true)
  /\ findFeature m id <> None.
Proof.
  intros _ Hin m. unfold m, initializeFeatureMap.
  assert (R : forall k, (forall m0, has (indexFeature m0 (id, f)) k = true) ->
                        has (fold_left indexFeature features []) k = true).
  { intros k Hk. apply fold_set_reaches with (x := (id, f)); auto.
    intros; now apply indexFeature_keeps. }
  assert (Hid : has (fold_left indexFeature features []) id = true).
  { apply R. intros m0. apply (indexFeature_keys m0 id f). }
  split; [exact Hid|]. split; [|split; [|split]].
  - intros n Hn Hne. apply R. intros m0.
    now apply (indexFeature_keys m0 id f).
  - intros compats compat Hc Hi. split.
    + apply R. intros m0.
      now apply (proj1 (proj2 (proj2 (indexFeature_keys m0 id f))) compats).
    + intros Hs. apply R. intros m0.
      now apply (proj1 (proj2 (proj2 (indexFeature_keys m0 id f))) compats).
  - intros aliases alias Ha Hi. apply R. intros m0.
    now apply (proj2 (proj2 (proj2 (indexFeature_keys m0 id f))) aliases).
  - unfold findFeature. rewrite Hid.
    destruct (has_get _ _ Hid) as [g Hg]. rewrite Hg. discriminate.
Qed.

Lemma dataset_entries_are_indexed_witness :
  In ("container-queries", Sample.containerQueries) Sample.features
  /\ has (initializeFeatureMap Sample.features) "@container" = true.
Proof.
  assert (H : In ("container-queries", Sample.containerQueries)
                 Sample.features) by (simpl; tauto).
  split; [exact H|].
  destruct (dataset_entries_are_indexed Sample.features _ _ eq_refl H)
    as (_ & _ & _ & Ha & _).
  apply (Ha ["container-queries"; "@container"]); [reflexivity|].
  simpl. tauto.
Defined.

End MatcherIndex.

(* ================================================================== *)
(** * Lookup of variations, and what the answer carries *)

Section MatcherAnswers.
Import BaselineChecker.

(** The classification of a record that was found. *)
Lemma checkFeature_found (self : BaselineChecker.t) (token : string)
      (feature : Dataset.Feature) (st : Dataset.Status) :
  findFeature (featureMap self) token = Some feature ->
  Dataset.status feature = Some st ->
  checkFeature self token
  = mkResult (Some (getBaselineStatus st)) (getBrowserSupport st)
             (evaluateCriteria (config self) (getBaselineStatus st))
             (generateSuggestion (config self) feature (getBaselineStatus st)).
Proof. intros Hf Hs. unfold checkFeature. now rewrite Hf, Hs. Qed.

(** X2. A vendor-prefixed property that is no key itself, even once
    lowercased, resolves to the record of its unprefixed form when that
    form is a key: both tokens get the same record, tier, browser support
    and [meetsCriteria]. *)
Theorem prefixed_token_resolves_like_unprefixed
        (self : BaselineChecker.t) (token : string) :
  let m := featureMap self in
  let unprefixed := stripVendorPrefix token in
  has m token = false ->
  has m (JS.toLowerCase token) = false ->
  unprefixed <> token ->
  has m unprefixed = true ->
  findFeature m token = findFeature m unprefixed
  /\ baseline (checkFeature self token)
     = baseline (checkFeature self unprefixed)
  /\ browsers (checkFeature self token)
     = browsers (checkFeature self unprefixed)
  /\ meetsCriteria (checkFeature self token)
     = meetsCriteria (checkFeature self unprefixed).
Proof.
  intros m unprefixed H1 H2 Hne Hu.
  assert (E : findFeature m token = findFeature m unprefixed).
  { unfold findFeature at 1. rewrite H1, H2.
    unfold generateCssVariations. fold unprefixed.
    destruct (String.eqb_spec unprefixed token) as [Heq | _]; [contradiction|].
    unfold firstVariation. simpl. rewrite H1, Hu.
    unfold findFeature. now rewrite Hu. }
  split; [exact E|].
  unfold checkFeature. fold m. rewrite E.
  destruct (findFeature m unprefixed) as [f|]; [|repeat split].
  destruct (Dataset.status f); repeat split.
Qed.

Lemma prefixed_token_resolves_like_unprefixed_witness :
  has (featureMap (Sample.checker "widely-available")) "-webkit-flex" = false
  /\ findFeature (featureMap (Sample.checker "widely-available"))
                 "-webkit-flex"
     = findFeature (featureMap (Sample.checker "widely-available")) "flex".
Proof.
  split; [vm_compute; reflexivity|].
  apply (prefixed_token_resolves_like_unprefixed
           (Sample.checker "widely-available") "-webkit-flex");
    try (vm_compute; reflexivity).
  vm_compute. discriminate.
Defined.

(** X3. A camelCase property without a vendor prefix that is no key
    itself, even once lowercased, resolves to the record of its
    kebab-case form when that form is a key. *)
Theorem camel_case_token_resolves_like_kebab_case
        (self : BaselineChecker.t) (token : string) :
  let m := featureMap self in
  let kebab := JS.toLowerCase (dashCapitals token) in
  has m token = false ->
  has m (JS.toLowerCase token) = false ->
  stripVendorPrefix token = token ->
  has m kebab = true ->
  findFeature m token = get m kebab
  /\ findFeature m token = findFeature m kebab.
Proof.
  intros m kebab H1 H2 Hp Hk.
  assert (E : findFeature m token = get m kebab).
  { unfold findFeature. rewrite H1, H2.
    unfold generateCssVariations. rewrite Hp, String.eqb_refl.
    unfold firstVariation. simpl. fold kebab. now rewrite H1, Hk. }
  split; [exact E|]. rewrite E. unfold findFeature. now rewrite Hk.
Qed.

Lemma camel_case_token_resolves_like_kebab_case_witness :
  has (featureMap (Sample.checker "limited")) "flexDirection" = false
  /\ findFeature (featureMap (Sample.checker "limited")) "flexDirection"
     = Some Sample.flexbox.
Proof.
  split; [vm_compute; reflexivity|].
  rewrite (proj1 (camel_case_token_resolves_like_kebab_case
                    (Sample.checker "limited") "flexDirection"
                    eq_refl eq_refl eq_refl eq_refl)).
  vm_compute. reflexivity.
Defined.

(** X4. The answer of [checkFeature] has a null tier exactly when it is
    the not-found descriptor, and exactly when its browser-support map is
    empty; otherwise the map has the seven browser keys, in a fixed
    order. *)
Theorem null_tier_iff_not_found (self : BaselineChecker.t) (token : string) :
  let result := checkFeature self token in
  (baseline result = None <-> result = notFound token)
  /\ (baseline result = None <-> browsers result = [])
  /\ (baseline result <> None ->
      map fst (browsers result)
      = ["chrome"; "firefox"; "safari"; "edge";
         "chrome_android"; "firefox_android"; "safari_ios"]).
Proof.
  cbv zeta. unfold checkFeature.
  destruct (findFeature (featureMap self) token) as [f|];
    [destruct (Dataset.status f) as [st|]|]; simpl;
    repeat split; try reflexivity; try discriminate; try congruence.
Qed.

(** X5. With a target other than the three tiers, no token meets the
    criteria. *)
Theorem unknown_target_rejects_everything
        (self : BaselineChecker.t) (token : string) :
  let target := BaselineConfig.target (config self) in
  target <> "widely-available" ->
  target <> "newly-available" ->
  target <> "limited" ->
  meetsCriteria (checkFeature self token) = false.
Proof.
  intros target H1 H2 H3. unfold checkFeature.
  destruct (findFeature (featureMap self) token) as [f|]; [|reflexivity].
  destruct (Dataset.status f) as [st|]; [|reflexivity].
  simpl. unfold evaluateCriteria. fold target.
  destruct (String.eqb_spec target "widely-available"); [contradiction|].
  destruct (String.eqb_spec target "newly-available"); [contradiction|].
  destruct (String.eqb_spec target "limited"); [contradiction|].
  reflexivity.
Qed.

Lemma unknown_target_rejects_everything_witness :
  BaselineConfig.target (config (Sample.checker "widely_available"))
  <> "widely-available"
  /\ meetsCriteria (checkFeature (Sample.checker "widely_available") "flexbox")
     = false.
Proof.
  split; [vm_compute; discriminate|].
  apply (unknown_target_rejects_everything
           (Sample.checker "widely_available") "flexbox");
    vm_compute; discriminate.
Defined.

(** X6. Under each of the three targets, a matched token that does not
    meet the criteria comes with a suggestion; and a token that meets
    them comes without one unless its tier is limited. *)
Theorem suggestion_accompanies_rejection
        (self : BaselineChecker.t) (token : string) (tier : BaselineTier) :
  let target := BaselineConfig.target (config self) in
  let result := checkFeature self token in
  baseline result = Some tier ->
  target = "widely-available" \/ target = "newly-available"
  \/ target = "limited" ->
  (meetsCriteria result = false -> suggestion result <> None)
  /\ (meetsCriteria result = true -> tier <> Limited ->
      suggestion result = None).
Proof.
  intros target result Hb Ht. unfold result in *. unfold checkFeature in *.
  destruct (findFeature (featureMap self) token) as [f|]; [|discriminate].
  destruct (Dataset.status f) as [st|]; [|discriminate].
  simpl in *. inversion Hb as [Hb']. rewrite Hb'.
  unfold evaluateCriteria, generateSuggestion. fold target.
  destruct Ht as [-> | [-> | ->]]; destruct tier; simpl;
    split; intros; try discriminate; try reflexivity; congruence.
Qed.

Lemma suggestion_accompanies_rejection_witness :
  baseline (checkFeature (Sample.checker "widely-available")
                         "container-queries") = Some NewlyAvailable
  /\ suggestion (checkFeature (Sample.checker "widely-available")
                              "container-queries") <> None.
Proof.
  assert (H : baseline (checkFeature (Sample.checker "widely-available")
                                     "container-queries")
              = Some NewlyAvailable) by (vm_compute; reflexivity).
  split; [exact H|].
  apply (proj1 (suggestion_accompanies_rejection
                  (Sample.checker "widely-available") "container-queries"
                  NewlyAvailable H (or_introl eq_refl))).
  vm_compute. reflexivity.
Defined.

End MatcherAnswers.

(* ================================================================== *)
(** * Computations that return *)

Section Returns.
Import Eff Run.
Context {E : Type}.

Lemma returns_ret {A : Type} (a : A) : returns (ret (E:=E) a).
Proof. intros s. now exists a. Qed.

Lemma returns_get : returns (get (E:=E)).
Proof. intros s. now exists s. Qed.

Lemma returns_push (x : E) : returns (push x).
Proof. intros s. now exists tt. Qed.

Lemma returns_console_warn (message : string) :
  returns (console_warn (E:=E) message).
Proof. apply returns_ret. Qed.

Lemma returns_bind {A B : Type} (m : M E A) (k : A -> M E B) :
  returns m -> (forall a, returns (k a)) -> returns (bind m k).
Proof.
  intros Hm Hk s. unfold bind. destruct (Hm s) as [a Ha].
  destruct (m s) as [[a' | e] s']; simpl in Ha; [|discriminate].
  apply Hk.
Qed.

Lemma returns_try_catch {A : Type} (body : M E A) (handler : string -> M E A) :
  (forall e, returns (handler e)) -> returns (try_catch body handler).
Proof.
  intros Hh s. unfold try_catch.
  destruct (body s) as [[a | e] s']; [now exists a | apply Hh].
Qed.

Lemma returns_when (c : bool) (body : M E unit) :
  returns body -> returns (when c body).
Proof. intros H. unfold when. destruct c; [exact H | apply returns_ret]. Qed.

Lemma returns_forEach {A : Type} (xs : list A) (body : A -> M E unit) :
  (forall x, returns (body x)) -> returns (forEach xs body).
Proof.
  intros H. induction xs as [|x xs IH]; simpl.
  - apply returns_ret.
  - apply returns_bind; [apply H | intros _; exact IH].
Qed.

(** An appending computation keeps what the array held. *)
Lemma emits_keeps {A : Type} (Q : E -> Prop) (m : M E A) (x : E)
      (s : list E) :
  emits Q m -> In x s -> In x (snd (m s)).
Proof.
  intros H Hin. destruct (H s) as (xs & -> & _). apply in_or_app. now left.
Qed.

Lemma leaves_push (x : E) : leaves x (push x).
Proof. intros s. simpl. apply in_or_app. right. now left. Qed.

Lemma leaves_bind_l {A B : Type} (Q : E -> Prop) (x : E) (m : M E A)
      (k : A -> M E B) :
  leaves x m -> (forall a, emits Q (k a)) -> leaves x (bind m k).
Proof.
  intros Hm Hk s. unfold bind. specialize (Hm s).
  destruct (m s) as [[a | e] s']; simpl in *; [|exact Hm].
  now apply (emits_keeps Q).
Qed.

Lemma leaves_bind_r {A B : Type} (x : E) (m : M E A) (k : A -> M E B) :
  returns m -> (forall a, leaves x (k a)) -> leaves x (bind m k).
Proof.
  intros Hm Hk s. unfold bind. destruct (Hm s) as [a Ha].
  destruct (m s) as [[a' | e] s']; simpl in Ha; [|discriminate].
  apply Hk.
Qed.

Lemma leaves_forEach {A : Type} (Q : E -> Prop) (x : E) (xs : list A)
      (body : A -> M E unit) (a : A) :
  In a xs ->
  (forall y, returns (body y)) -> (forall y, emits Q (body y)) ->
  leaves x (body a) -> leaves x (forEach xs body).
Proof.
  intros Hin Hr He Ha. induction xs as [|y xs IH]; [contradiction|].
  simpl. destruct Hin as [-> | Hin].
  - apply (leaves_bind_l Q); [exact Ha|].
    intros _. apply emits_forEach. intros; apply He.
  - apply leaves_bind_r; [apply Hr | intros _; now apply IH].
Qed.

End Returns.

Ltac returns_step :=
  match goal with
  | |- Run.returns (Eff.bind _ _) => apply returns_bind; [|intros]
  | |- Run.returns (Eff.try_catch _ _) => apply returns_try_catch; intros
  | |- Run.returns (Eff.forEach _ _) => apply returns_forEach; intros
  | |- Run.returns (Eff.when _ _) => apply returns_when
  | |- Run.returns (Eff.ret _) => apply returns_ret
  | |- Run.returns (Eff.push _) => apply returns_push
  | |- Run.returns Eff.get => apply returns_get
  | |- Run.returns (Eff.console_warn _) => apply returns_console_warn
  | |- Run.returns (if ?c then _ else _) => destruct c
  | |- Run.returns (match ?c with Some _ => _ | None => _ end) => destruct c
  end.

(* ================================================================== *)
(** * The stylesheet extractor: nothing is lost, nothing is misplaced *)

Section StylesheetCoverage.
Import Eff Run Postcss CSSAnalyzer.

Variable parse : string -> string -> Outcome Root.
Variable parseSelector : string -> Outcome (list SelNode).
Variable toString : Node -> string.
Variable checker : BaselineChecker.t.

Lemma checkFeature_returns (featureId : string) (node : Node)
      (filePath type : string) :
  returns (checkFeature toString checker featureId node filePath type).
Proof. unfold checkFeature. repeat returns_step. Qed.

Lemma analyzeDeclaration_returns (decl : Node) (filePath : string) :
  returns (analyzeDeclaration toString checker decl filePath).
Proof.
  unfold analyzeDeclaration, analyzeValue.
  repeat first [apply checkFeature_returns | returns_step].
Qed.

Lemma analyzeSelector_returns (rule : Node) (filePath : string) :
  returns (analyzeSelector parseSelector toString checker rule filePath).
Proof. unfold analyzeSelector. repeat returns_step. Qed.

Lemma analyzeAtRule_returns (atRule : Node) (filePath : string) :
  returns (analyzeAtRule toString checker atRule filePath).
Proof.
  unfold analyzeAtRule, analyzeMediaQuery, analyzeSupportsQuery.
  repeat first [apply checkFeature_returns | returns_step].
Qed.

Lemma analyzeRoot_returns (root : Root) (filePath : string) :
  returns (analyzeRoot parseSelector toString checker root filePath).
Proof.
  unfold analyzeRoot.
  repeat first [ apply analyzeDeclaration_returns
               | apply analyzeSelector_returns
               | apply analyzeAtRule_returns
               | returns_step ].
Qed.

(** Each piece of the extractor only appends. *)
Lemma checkFeature_appends (featureId : string) (node : Node)
      (filePath type : string) :
  emits (fun _ => True)
        (checkFeature toString checker featureId node filePath type).
Proof.
  unfold checkFeature.
  destruct (BaselineChecker.baseline _); [now apply emits_push | apply emits_ret].
Qed.

Lemma analyzeDeclaration_appends (decl : Node) (filePath : string) :
  emits (fun _ => True) (analyzeDeclaration toString checker decl filePath).
Proof.
  unfold analyzeDeclaration, analyzeValue.
  repeat first [apply checkFeature_appends | emits_step].
Qed.

Lemma analyzeSelector_appends (rule : Node) (filePath : string) :
  emits (fun _ => True)
        (analyzeSelector parseSelector toString checker rule filePath).
Proof.
  unfold analyzeSelector.
  repeat first [apply checkFeature_appends | emits_step].
Qed.

Lemma analyzeAtRule_appends (atRule : Node) (filePath : string) :
  emits (fun _ => True) (analyzeAtRule toString checker atRule filePath).
Proof.
  unfold analyzeAtRule, analyzeMediaQuery, analyzeSupportsQuery.
  repeat first [apply checkFeature_appends | emits_step].
Qed.

(** The features of a stylesheet that parses are what the three walks
    leave in the array. *)
Lemma analyze_parsed (content filePath : string) (root : Root) :
  parse content filePath = Ok root ->
  analyze parse parseSelector toString checker content filePath
  = Ok (FileAnalysis.mk filePath FtCss
          (snd (analyzeRoot parseSelector toString checker root filePath []))).
Proof.
  intros Hp. rewrite analyze_settles. unfold try_catch, bind, lift.
  rewrite Hp.
  destruct (analyzeRoot_returns root filePath []) as [[] H].
  destruct (analyzeRoot _ _ _ root filePath []) as [[[] | e] s];
    simpl in H; [reflexivity | discriminate].
Qed.

Lemma checkFeature_leaves (featureId : string) (node : Node)
      (filePath type : string) (tier : BaselineTier) :
  BaselineChecker.baseline (BaselineChecker.checkFeature checker featureId)
  = Some tier ->
  leaves (StylesheetUsages.usageOf toString checker
                                   featureId node filePath type tier)
         (checkFeature toString checker featureId node filePath type).
Proof.
  intros H. unfold checkFeature, StylesheetUsages.usageOf. rewrite H.
  apply leaves_push.
Qed.

End StylesheetCoverage.

Section StylesheetReports.
Import Eff Run Postcss CSSAnalyzer.

Variable parse : string -> string -> Outcome Root.
Variable parseSelector : string -> Outcome (list SelNode).
Variable toString : Node -> string.
Variable checker : BaselineChecker.t.

(** X7. A rule whose selector the selector parser rejects adds no usage
    and stops nothing: the array is left as it was and the walk goes
    on. *)
Theorem selector_failure_is_swallowed (rule : Node) (filePath error : string)
        (features : list FeatureUsage.t) :
  parseSelector (selector rule) = Throw error ->
  analyzeSelector parseSelector toString checker rule filePath features
  = (Ok tt, features).
Proof.
  intros H. unfold analyzeSelector, try_catch, bind, lift. now rewrite H.
Qed.

Lemma analyzeRoot_leaves_declaration (root : Root) (filePath : string)
      (decl : Node) (tier : BaselineTier) :
  In decl (walkDecls root) ->
  BaselineChecker.baseline (BaselineChecker.checkFeature checker (prop decl))
  = Some tier ->
  leaves (StylesheetUsages.usageOf toString checker (prop decl) decl
                                   filePath "property" tier)
         (analyzeRoot parseSelector toString checker root filePath).
Proof.
  intros Hin Hb. unfold analyzeRoot.
  apply (leaves_bind_l (fun _ => True)).
  - apply (leaves_forEach (fun _ => True)) with (a := decl); auto.
    + intros; apply analyzeDeclaration_returns.
    + intros; apply analyzeDeclaration_appends.
    + unfold analyzeDeclaration.
      apply (leaves_bind_l (fun _ => True));
        [now apply checkFeature_leaves|].
      intros _. unfold analyzeValue.
      repeat first [apply checkFeature_appends | emits_step].
  - intros _.
    repeat first [ apply analyzeSelector_appends
                 | apply analyzeAtRule_appends
                 | emits_step ].
Qed.

(** X8. No declaration is passed over: for every declaration of a
    stylesheet that parses, if the matcher gives its property a tier, the
    analysis holds a usage of that property at the line and column of the
    declaration, with the whole [prop: value] as context; this whatever
    the selector parser does. *)
Theorem every_resolved_property_is_reported
        (content filePath : string) (root : Root)
        (property value : string) (start : Position) (tier : BaselineTier) :
  parse content filePath = Ok root ->
  In (Declaration property value start) (walk root) ->
  BaselineChecker.baseline (BaselineChecker.checkFeature checker property)
  = Some tier ->
  exists analysis usage,
    analyze parse parseSelector toString checker content filePath
    = Ok analysis
    /\ In usage (FileAnalysis.features analysis)
    /\ FeatureUsage.feature usage = property
    /\ FeatureUsage.file usage = filePath
    /\ FeatureUsage.line usage = line (Declaration property value start)
    /\ FeatureUsage.column usage = column (Declaration property value start)
    /\ FeatureUsage.context usage = property ++ ": " ++ value
    /\ FeatureUsage.baseline usage = Some tier.
Proof.
  intros Hp Hin Hb.
  eexists. exists (StylesheetUsages.usageOf
                     toString checker property
                     (Declaration property value start)
                     filePath "property" tier).
  split; [now apply analyze_parsed with (root := root)|].
  split; [|repeat split]. simpl.
  apply (analyzeRoot_leaves_declaration
           root filePath (Declaration property value start) tier);
    [|exact Hb].
  apply filter_In. now split.
Qed.

Lemma analyzeRoot_leaves_at_rule (root : Root) (filePath : string)
      (atRule : Node) (usage : FeatureUsage.t) :
  In atRule (walkAtRules root) ->
  leaves usage (analyzeAtRule toString checker atRule filePath) ->
  leaves usage (analyzeRoot parseSelector toString checker root filePath).
Proof.
  intros Hin Hl. unfold analyzeRoot.
  apply leaves_bind_r.
  { apply returns_forEach. intros; apply analyzeDeclaration_returns. }
  intros _. apply leaves_bind_r.
  { apply returns_forEach. intros; apply analyzeSelector_returns. }
  intros _.
  apply (leaves_forEach (fun _ => True)) with (a := atRule); auto.
  - intros; apply analyzeAtRule_returns.
  - intros; apply analyzeAtRule_appends.
Qed.

(** X9. Every [@container] at-rule of a stylesheet that parses is
    reported as [container-queries], and every [@layer] at-rule as
    [cascade-layers], when the matcher gives that token a tier: the
    analysis holds a usage of the token at the line of the at-rule with
    the whole [@name params] as context. *)
Theorem container_and_layer_rules_are_reported
        (content filePath : string) (root : Root)
        (name params token : string) (nodes : list Node) (start : Position)
        (tier : BaselineTier) :
  parse content filePath = Ok root ->
  In (AtRule name params nodes start) (walk root) ->
  (name = "container" /\ token = "container-queries")
  \/ (name = "layer" /\ token = "cascade-layers") ->
  BaselineChecker.baseline (BaselineChecker.checkFeature checker token)
  = Some tier ->
  exists analysis usage,
    analyze parse parseSelector toString checker content filePath
    = Ok analysis
    /\ In usage (FileAnalysis.features analysis)
    /\ FeatureUsage.feature usage = token
    /\ FeatureUsage.line usage = line (AtRule name params nodes start)
    /\ FeatureUsage.context usage = "@" ++ name ++ " " ++ params
    /\ FeatureUsage.baseline usage = Some tier.
Proof.
  intros Hp Hin Hname Hb.
  eexists. exists (StylesheetUsages.usageOf
                     toString checker token
                     (AtRule name params nodes start) filePath "at-rule" tier).
  split; [now apply analyze_parsed with (root := root)|].
  split; [|repeat split]. simpl.
  apply (analyzeRoot_leaves_at_rule root filePath
                                    (AtRule name params nodes start)).
  { apply filter_In. now split. }
  unfold analyzeAtRule. apply leaves_bind_r; [apply checkFeature_returns|].
  intros _. cbn [Postcss.name Postcss.params].
  destruct Hname as [[-> ->] | [-> ->]]; simpl;
    now apply checkFeature_leaves.
Qed.

End StylesheetReports.

Section StylesheetReportsWitnesses.
Import Eff Postcss CSSAnalyzer.

Lemma every_resolved_property_is_reported_witness :
  In (Declaration "grid-template-columns" Sample.wideValue (Some (1, 4)))
     (walk Sample.wideRoot)
  /\ exists analysis usage,
      analyze (fun _ _ => Ok Sample.wideRoot)
              (fun _ => Throw "CssSyntaxError") Sample.stringify
              (Sample.checker "limited") Sample.wideStylesheet "wide.css"
      = Ok analysis
      /\ In usage (FileAnalysis.features analysis)
      /\ FeatureUsage.feature usage = "grid-template-columns".
Proof.
  assert (H : In (Declaration "grid-template-columns" Sample.wideValue
                              (Some (1, 4)))
                 (walk Sample.wideRoot)) by (simpl; tauto).
  split; [exact H|].
  destruct (every_resolved_property_is_reported
              (fun _ _ => Ok Sample.wideRoot)
              (fun _ => Throw "CssSyntaxError") Sample.stringify
              (Sample.checker "limited")
              Sample.wideStylesheet "wide.css" Sample.wideRoot
              "grid-template-columns" Sample.wideValue (Some (1, 4))
              WidelyAvailable eq_refl H)
    as (analysis & usage & Ha & Hu & Hf & _).
  { vm_compute. reflexivity. }
  exists analysis, usage. repeat split; assumption.
Defined.

Lemma container_and_layer_rules_are_reported_witness :
  In (AtRule "container" "(min-width:400px)" [] (Some (3, 1)))
     (walk [AtRule "container" "(min-width:400px)" [] (Some (3, 1))])
  /\ exists analysis usage,
      analyze (fun _ _ => Ok [AtRule "container" "(min-width:400px)" []
                                     (Some (3, 1))])
              (fun _ => Throw "unused") Sample.stringify
              (Sample.checker "widely-available")
              "@container (min-width:400px){}" "card.css"
      = Ok analysis
      /\ In usage (FileAnalysis.features analysis)
      /\ FeatureUsage.feature usage = "container-queries"
      /\ FeatureUsage.line usage = 3.
Proof.
  assert (H : In (AtRule "container" "(min-width:400px)" [] (Some (3, 1)))
                 (walk [AtRule "container" "(min-width:400px)" []
                               (Some (3, 1))])) by (simpl; tauto).
  split; [exact H|].
  destruct (container_and_layer_rules_are_reported
              (fun _ _ => Ok [AtRule "container" "(min-width:400px)" []
                                     (Some (3, 1))])
              (fun _ => Throw "unused") Sample.stringify
              (Sample.checker "widely-available")
              "@container (min-width:400px){}" "card.css" _
              "container" "(min-width:400px)" "container-queries" []
              (Some (3, 1)) NewlyAvailable eq_refl H
              (or_introl (conj eq_refl eq_refl)))
    as (analysis & usage & Ha & Hu & Hf & Hl & _).
  { vm_compute. reflexivity. }
  exists analysis, usage. repeat split; assumption.
Defined.

Lemma selector_failure_is_swallowed_witness :
  (fun _ : string => @Throw (list SelNode) "Expected a pseudo-class") ".a:"
  = Throw "Expected a pseudo-class"
  /\ analyzeSelector (fun _ => Throw "Expected a pseudo-class")
                     Sample.stringify (Sample.checker "limited")
                     (Rule ".a:" [] None) "a.css" [Sample.widelyUsage]
     = (Ok tt, [Sample.widelyUsage]).
Proof.
  split; [reflexivity|].
  apply (selector_failure_is_swallowed
           (fun _ => Throw "Expected a pseudo-class") Sample.stringify
           (Sample.checker "limited") (Rule ".a:" [] None) "a.css"
           "Expected a pseudo-class" [Sample.widelyUsage]).
  reflexivity.
Defined.

End StylesheetReportsWitnesses.

(* ================================================================== *)
(** * Where the stylesheet usages point *)

Section StylesheetPlaces.
Import Eff Postcss CSSAnalyzer.

Variable parse : string -> string -> Outcome Root.
Variable parseSelector : string -> Outcome (list SelNode).
Variable toString : Node -> string.
Variable checker : BaselineChecker.t.
Variable root : Root.
Variable filePath : string.

(** A usage of the file [filePath], placed at the start of a node of the
    tree (line and column 0 for a node without a position), whose two
    name fields agree. *)
Let placed (u : FeatureUsage.t) : Prop :=
  FeatureUsage.file u = filePath
  /\ FeatureUsage.featureId u = FeatureUsage.feature u
  /\ exists node,
      In node (walk root)
      /\ FeatureUsage.line u = line node
      /\ FeatureUsage.column u = column node.

Lemma checkFeature_placed (featureId : string) (node : Node) (type : string) :
  In node (walk root) ->
  emits placed (checkFeature toString checker featureId node filePath type).
Proof.
  intros Hin. unfold checkFeature.
  destruct (BaselineChecker.baseline _); [|apply emits_ret].
  apply emits_push. unfold placed. simpl. repeat split. now exists node.
Qed.

Ltac placed_in H :=
  apply checkFeature_placed; apply filter_In in H; tauto.

Lemma analyzeRoot_placed :
  emits placed (analyzeRoot parseSelector toString checker root filePath).
Proof.
  unfold analyzeRoot, analyzeDeclaration, analyzeValue, analyzeSelector,
    analyzeAtRule, analyzeMediaQuery, analyzeSupportsQuery.
  apply emits_bind; [|intros _; apply emits_bind; [|intros _]];
    apply emits_forEach; intros node Hnode;
    repeat first [placed_in Hnode | emits_step].
Qed.

(** X10. Every usage of a stylesheet that parses belongs to the analysed
    file, has equal [feature] and [featureId], and is placed at the
    start of a node of the parsed tree, or at line 0 and column 0 when
    that node carries no position. *)
Theorem stylesheet_usages_are_placed (content : string) :
  parse content filePath = Ok root ->
  exists analysis,
    analyze parse parseSelector toString checker content filePath
    = Ok analysis
    /\ Forall (fun u =>
                 FeatureUsage.file u = filePath
                 /\ FeatureUsage.featureId u = FeatureUsage.feature u
                 /\ exists node,
                     In node (walk root)
                     /\ FeatureUsage.line u = line node
                     /\ FeatureUsage.column u = column node)
              (FileAnalysis.features analysis).
Proof.
  intros Hp. eexists.
  split; [now apply analyze_parsed with (root := root)|]. simpl.
  apply (emits_from_empty placed). apply analyzeRoot_placed.
Qed.

End StylesheetPlaces.

Lemma stylesheet_usages_are_placed_witness :
  (fun _ _ : string => Eff.Ok Sample.wideRoot) Sample.wideStylesheet "wide.css"
  = Eff.Ok Sample.wideRoot
  /\ exists analysis,
      CSSAnalyzer.analyze (fun _ _ => Eff.Ok Sample.wideRoot)
                          (fun _ => Eff.Ok Sample.wideSelector)
                          Sample.stringify (Sample.checker "limited")
                          Sample.wideStylesheet "wide.css"
      = Eff.Ok analysis
      /\ Forall (fun u => FeatureUsage.file u = "wide.css")
                (FileAnalysis.features analysis).
Proof.
  split; [reflexivity|].
  destruct (stylesheet_usages_are_placed
              (fun _ _ => Eff.Ok Sample.wideRoot)
              (fun _ => Eff.Ok Sample.wideSelector)
              Sample.stringify (Sample.checker "limited")
              Sample.wideRoot "wide.css" Sample.wideStylesheet eq_refl)
    as (analysis & Ha & Hall).
  exists analysis. split; [exact Ha|].
  apply Forall_forall. intros u Hu.
  rewrite Forall_forall in Hall. now apply Hall.
Defined.

(* ================================================================== *)
(** * The script extractor: which usages, and in which order *)

Section ScriptReports.
Import Eff Regex SimpleJavaScriptAnalyzer ScriptUsages.

Variable checker : BaselineChecker.t.

Lemma added_in (featureId context : string) (lineNumber : nat)
      (filePath : string) (u : FeatureUsage.t) :
  In u (added checker featureId context lineNumber filePath) ->
  BaselineChecker.baseline (BaselineChecker.checkFeature checker featureId)
  <> None
  /\ FeatureUsage.feature u = featureId
  /\ FeatureUsage.featureId u = featureId
  /\ FeatureUsage.file u = filePath
  /\ FeatureUsage.line u = lineNumber
  /\ FeatureUsage.context u = JS.take 100 (JS.trim context).
Proof.
  unfold added, addFeature.
  destruct (BaselineChecker.baseline
              (BaselineChecker.checkFeature checker featureId))
    as [tier|]; simpl; [|tauto].
  intros [<- | []]. simpl. repeat split. discriminate.
Qed.

Lemma added_nonempty (featureId context : string) (lineNumber : nat)
      (filePath : string) :
  BaselineChecker.baseline (BaselineChecker.checkFeature checker featureId)
  <> None ->
  exists u, In u (added checker featureId context lineNumber filePath)
            /\ FeatureUsage.feature u = featureId
            /\ FeatureUsage.line u = lineNumber.
Proof.
  unfold added, addFeature.
  destruct (BaselineChecker.baseline
              (BaselineChecker.checkFeature checker featureId))
    as [tier|]; [|congruence].
  intros _. eexists. split; [left; reflexivity|]. split; reflexivity.
Qed.

Lemma lineUsages_in (line : string) (lineNumber : nat) (filePath : string)
      (u : FeatureUsage.t) :
  In u (lineUsages checker line lineNumber filePath) <->
  exists p, In p lineTable
            /\ test (pattern p) line = true
            /\ In u (added checker (feature p) line lineNumber filePath).
Proof.
  unfold lineUsages. rewrite in_flat_map. unfold entryUsages.
  split; intros (p & Hp & H); exists p.
  - destruct (test (pattern p) line); [tauto | contradiction].
  - destruct H as [-> H]. tauto.
Qed.

Lemma linesUsages_in (lines : list string) (lineIndex : nat)
      (filePath : string) (u : FeatureUsage.t) :
  In u (linesUsages checker lines lineIndex filePath) <->
  exists k line, nth_error lines k = Some line
                 /\ In u (lineUsages checker line (lineIndex + k + 1) filePath).
Proof.
  revert lineIndex.
  induction lines as [|l rest IH]; intros lineIndex; simpl.
  - split; [contradiction|]. intros (k & line & H & _).
    destruct k; discriminate.
  - rewrite in_app_iff, IH. split.
    + intros [H | (k & line & Hk & H)].
      * exists 0, l. rewrite Nat.add_0_r. now split.
      * exists (S k), line. split; [exact Hk|].
        now replace (lineIndex + S k + 1) with (lineIndex + 1 + k + 1) by lia.
    + intros ([|k] & line & Hk & H); simpl in Hk.
      * inversion Hk; subst. rewrite Nat.add_0_r in H. now left.
      * right. exists k, line. split; [exact Hk|].
        now replace (lineIndex + 1 + k + 1) with (lineIndex + S k + 1) by lia.
Qed.

(** X11. Every usage of the script extractor belongs to the analysed
    file, has equal [feature] and [featureId], carries the number of a
    line of the text (counted from 1) and quotes that line: its context
    is the line without the surrounding white space, cut to 100
    characters. *)
Theorem script_usages_quote_their_line (content filePath : string) :
  exists analysis,
    analyze checker content filePath = Ok analysis
    /\ Forall (fun u =>
                 FeatureUsage.file u = filePath
                 /\ FeatureUsage.featureId u = FeatureUsage.feature u
                 /\ 1 <= FeatureUsage.line u
                    <= List.length (JS.split JS.LF content)
                 /\ exists line,
                     nth_error (JS.split JS.LF content)
                               (FeatureUsage.line u - 1) = Some line
                     /\ FeatureUsage.context u = JS.take 100 (JS.trim line)
                     /\ String.length (FeatureUsage.context u) <= 100)
              (FileAnalysis.features analysis).
Proof.
  eexists. split; [apply script_analyze_settles|]. simpl.
  apply Forall_forall. intros u Hu.
  apply linesUsages_in in Hu. destruct Hu as (k & line & Hk & Hu).
  apply lineUsages_in in Hu. destruct Hu as (p & _ & _ & Hu).
  apply added_in in Hu. destruct Hu as (_ & Hf & Hi & Hfile & Hl & Hc).
  assert (Hlen : k < List.length (JS.split JS.LF content)).
  { apply nth_error_Some. congruence. }
  repeat split; try congruence; try lia.
  exists line. rewrite Hl.
  replace (0 + k + 1 - 1) with k by lia.
  split; [exact Hk|]. split; [exact Hc|].
  rewrite Hc. apply take_length.
Qed.

(** X12. The script extractor reports the token [t] at line [n] exactly
    when line [n] of the text matches a pattern of the table whose token
    is [t] and the matcher gives [t] a tier: a token without a tier is
    dropped, a matched token with a tier is never missed. *)
Theorem script_usage_iff (content filePath : string) (n : nat) (t : string) :
  exists analysis,
    analyze checker content filePath = Ok analysis
    /\ (In (n, t) (map Spec.lineAndFeature (FileAnalysis.features analysis))
        <->
        exists line p,
          1 <= n
          /\ nth_error (JS.split JS.LF content) (n - 1) = Some line
          /\ In p lineTable
          /\ feature p = t
          /\ test (pattern p) line = true
          /\ BaselineChecker.baseline (BaselineChecker.checkFeature checker t)
             <> None).
Proof.
  eexists. split; [apply script_analyze_settles|]. simpl.
  rewrite in_map_iff. split.
  - intros (u & Hkey & Hu).
    apply linesUsages_in in Hu. destruct Hu as (k & line & Hk & Hu).
    apply lineUsages_in in Hu. destruct Hu as (p & Hp & Ht & Hu).
    apply added_in in Hu. destruct Hu as (Hb & Hf & _ & _ & Hl & _).
    unfold Spec.lineAndFeature in Hkey. inversion Hkey; subst.
    exists line, p. rewrite Hl.
    replace (0 + k + 1 - 1) with k by lia.
    rewrite Hf in *. repeat split; auto; lia.
  - intros (line & p & Hn & Hline & Hp & Hf & Ht & Hb). subst t.
    destruct (added_nonempty (feature p) line n filePath Hb)
      as (u & Hu & Huf & Hul).
    exists u. split; [unfold Spec.lineAndFeature; congruence|].
    apply linesUsages_in. exists (n - 1), line. split; [exact Hline|].
    replace (0 + (n - 1) + 1) with n by lia.
    apply lineUsages_in. exists p. auto.
Qed.

Lemma sorted_after_equal (n : nat) (front back : list FeatureUsage.t) :
  Forall (fun u => FeatureUsage.line u = n) front ->
  Forall (fun u => n <= FeatureUsage.line u) back ->
  StronglySorted le (map FeatureUsage.line back) ->
  StronglySorted le (map FeatureUsage.line (front ++ back)).
Proof.
  intros Hf Hb Hs. induction Hf as [|u front Hu Hf IH]; simpl; [exact Hs|].
  constructor; [exact IH|].
  apply Forall_map, Forall_app. split.
  - eapply Forall_impl; [|exact Hf]. simpl. intros v Hv. lia.
  - eapply Forall_impl; [|exact Hb]. simpl. intros v Hv. lia.
Qed.

Lemma linesUsages_sorted (lines : list string) (lineIndex : nat)
      (filePath : string) :
  StronglySorted le
    (map FeatureUsage.line (linesUsages checker lines lineIndex filePath)).
Proof.
  revert lineIndex.
  induction lines as [|l rest IH]; intros lineIndex; simpl; [constructor|].
  apply sorted_after_equal with (n := lineIndex + 1).
  - apply Forall_forall. intros u Hu. now apply lineUsages_fields in Hu.
  - apply Forall_forall. intros u Hu. apply linesUsages_fields in Hu. lia.
  - apply IH.
Qed.

(** X13. The usages of the script extractor come in the order of the
    lines of the text: their line numbers never decrease. *)
Theorem script_usages_follow_the_lines (content filePath : string) :
  exists analysis,
    analyze checker content filePath = Ok analysis
    /\ StronglySorted le
         (map FeatureUsage.line (FileAnalysis.features analysis)).
Proof.
  eexists. split; [apply script_analyze_settles|]. simpl.
  apply linesUsages_sorted.
Qed.

End ScriptReports.

(* ================================================================== *)
(** * The report: partition and scores *)

Section Report.
Import Analyzer.

Lemma severity_eqb_eq (a b : Severity) :
  severity_eqb a b = true <-> a = b.
Proof. destruct a, b; simpl; split; congruence. Qed.

(** Splitting a list by severity loses and repeats nothing. *)
Lemma split_by_severity (us : list FeatureUsage.t) :
  Permutation
    (filter (fun f => severity_eqb (FeatureUsage.severity f) SevError) us
     ++ filter (fun f => severity_eqb (FeatureUsage.severity f) SevWarning) us
     ++ filter (fun f => severity_eqb (FeatureUsage.severity f) SevInfo) us)
    us.
Proof.
  induction us as [|u us IH]; simpl; [constructor|].
  destruct (FeatureUsage.severity u); simpl.
  - now constructor.
  - apply Permutation_sym, Permutation_cons_app, Permutation_sym, IH.
  - apply Permutation_sym.
    rewrite app_assoc. apply Permutation_cons_app.
    rewrite <- app_assoc. apply Permutation_sym, IH.
Qed.

(** X14. In a report, the violations, warnings and suggestions are the
    usages of severity error, warning and info, each list in the order of
    the usages; together they hold every usage of the analysed files
    exactly once, so the three counts add up to [totalFeatures]. *)
Theorem report_partitions_the_usages (fileAnalyses : list FileAnalysis.t) :
  let result := generateReport fileAnalyses in
  let allFeatures := flat_map FileAnalysis.features fileAnalyses in
  Permutation (AnalysisResult.violations result
               ++ AnalysisResult.warnings result
               ++ AnalysisResult.suggestions result) allFeatures
  /\ Forall (fun u => FeatureUsage.severity u = SevError)
            (AnalysisResult.violations result)
  /\ Forall (fun u => FeatureUsage.severity u = SevWarning)
            (AnalysisResult.warnings result)
  /\ Forall (fun u => FeatureUsage.severity u = SevInfo)
            (AnalysisResult.suggestions result)
  /\ Summary.errors (AnalysisResult.summary result)
     + Summary.warnings (AnalysisResult.summary result)
     + Summary.suggestions (AnalysisResult.summary result)
     = AnalysisResult.totalFeatures result
  /\ AnalysisResult.totalFiles result = List.length fileAnalyses.
Proof.
  cbv zeta. unfold generateReport. simpl.
  set (us := flat_map FileAnalysis.features fileAnalyses).
  pose proof (split_by_severity us) as P.
  split; [exact P|].
  repeat split;
    try (apply Forall_forall; intros u Hu; apply filter_In in Hu;
         now apply severity_eqb_eq).
  apply Permutation_length in P. rewrite !length_app in P. lia.
Qed.

Lemma totalZ_permutation (us vs : list FeatureUsage.t) :
  Permutation us vs -> Spec.totalZ us = Spec.totalZ vs.
Proof.
  intros P. induction P; simpl; lia.
Qed.

Lemma compatibilityScore_by_total (us : list FeatureUsage.t) :
  us <> [] ->
  Spec.compatibilityScore us
  = Qfloor (inject_Z (Spec.totalZ us) / inject_Z (Z.of_nat (List.length us))
            + (1 # 2))%Q.
Proof.
  intros H. unfold Spec.compatibilityScore, Spec.roundHalfUp.
  destruct us as [|u us]; [congruence|].
  apply Qfloor_comp. now rewrite total_totalZ.
Qed.

(** X15. The compatibility score does not depend on the order in which
    the usages come: two lists with the same usages, in any order, get
    the same score. *)
Theorem compatibilityScore_ignores_order (us vs : list FeatureUsage.t) :
  Permutation us vs ->
  (Z.of_nat (List.length us) < 2 ^ 32)%Z ->
  calculateCompatibilityScore us = calculateCompatibilityScore vs.
Proof.
  intros P Hlen.
  pose proof (Permutation_length P) as Hl.
  rewrite !calculateCompatibilityScore_rounds by (rewrite <- ?Hl; exact Hlen).
  destruct us as [|u us].
  - apply Permutation_nil in P. now subst.
  - assert (vs <> []).
    { intros ->. apply Permutation_sym, Permutation_nil in P. discriminate. }
    rewrite !compatibilityScore_by_total by congruence.
    now rewrite (totalZ_permutation _ _ P), Hl.
Qed.

Lemma compatibilityScore_ignores_order_witness :
  Permutation [Sample.limitedUsage; Sample.widelyUsage]
              [Sample.widelyUsage; Sample.limitedUsage]
  /\ calculateCompatibilityScore [Sample.limitedUsage; Sample.widelyUsage]
     = calculateCompatibilityScore [Sample.widelyUsage; Sample.limitedUsage].
Proof.
  assert (P : Permutation [Sample.limitedUsage; Sample.widelyUsage]
                          [Sample.widelyUsage; Sample.limitedUsage])
    by apply perm_swap.
  split; [exact P|].
  apply (compatibilityScore_ignores_order _ _ P). vm_compute. reflexivity.
Defined.

(** X16. The compatibility score lies between 25 and 100; and when every
    usage has the same points, the score is that number: 100 when all are
    widely available, 75 when all are newly available, 25 when all are
    limited. *)
Theorem compatibilityScore_range (us : list FeatureUsage.t) :
  (Z.of_nat (List.length us) < 2 ^ 32)%Z ->
  (25 <= calculateCompatibilityScore us <= 100)%Z
  /\ (forall p : Z,
         us <> [] -> Forall (fun u => Spec.pointsZ u = p) us ->
         calculateCompatibilityScore us = p).
Proof.
  intros Hlen. rewrite calculateCompatibilityScore_rounds by exact Hlen.
  destruct us as [|u0 us0]; [split; [simpl; lia | congruence]|].
  set (us := u0 :: us0) in *.
  rewrite compatibilityScore_by_total by discriminate.
  pose proof (totalZ_bounds us) as Hb.
  set (n := Z.of_nat (List.length us)) in *.
  assert (Hn : (0 < n)%Z) by (unfold n, us; simpl List.length; lia).
  assert (Hnq : (0 < inject_Z n)%Q) by (rewrite <- (Zlt_Qlt 0); exact Hn).
  set (v := (inject_Z (Spec.totalZ us) / inject_Z n)%Q).
  assert (Hv : (v * inject_Z n == inject_Z (Spec.totalZ us))%Q)
    by (unfold v; field; lra).
  assert (Hscaled : forall p : Z,
             (inject_Z p * inject_Z n == inject_Z (p * n))%Q)
    by (intros; now rewrite inject_Z_mult).
  assert (Hv25 : (25 <= v)%Q).
  { apply Qmult_le_r with (z := inject_Z n); [exact Hnq|].
    rewrite Hv. change 25%Q with (inject_Z 25).
    rewrite Hscaled, <- Zle_Qle. lia. }
  assert (Hv100 : (v <= 100)%Q).
  { apply Qmult_le_r with (z := inject_Z n); [exact Hnq|].
    rewrite Hv. change 100%Q with (inject_Z 100).
    rewrite Hscaled, <- Zle_Qle. lia. }
  split.
  - pose proof (Qfloor_le (v + (1 # 2))) as F1.
    pose proof (Qlt_floor (v + (1 # 2))) as F2.
    rewrite inject_Z_plus in F2. change (inject_Z 1) with 1%Q in F2.
    split.
    + assert (24 < Qfloor (v + (1 # 2)))%Z; [|lia].
      rewrite Zlt_Qlt. change (inject_Z 24) with 24%Q. lra.
    + assert (Qfloor (v + (1 # 2)) < 101)%Z; [|lia].
      rewrite Zlt_Qlt. change (inject_Z 101) with 101%Q. lra.
  - intros p _ Hall.
    assert (Ht : Spec.totalZ us = (p * n)%Z).
    { unfold n. clearbody us. clear - Hall.
      induction Hall as [|u us Hu Hall IH]; [simpl; lia|].
      cbn [Spec.totalZ fold_right List.length].
      change (fold_right (fun u acc => (Spec.pointsZ u + acc)%Z) 0%Z us)
        with (Spec.totalZ us).
      rewrite IH, Hu, Nat2Z.inj_succ. lia. }
    assert (Hvp : (v == inject_Z p)%Q).
    { apply Qmult_inj_r with (z := inject_Z n); [lra|].
      now rewrite Hv, Ht, Hscaled. }
    apply Qfloor_unique; rewrite ?inject_Z_plus;
      change (inject_Z 1) with 1%Q; lra.
Qed.

Lemma compatibilityScore_range_witness :
  (Z.of_nat (List.length (repeat Sample.newlyUsage 7)) < 2 ^ 32)%Z
  /\ calculateCompatibilityScore (repeat Sample.newlyUsage 7) = 75%Z.
Proof.
  split; [vm_compute; reflexivity|].
  apply (proj2 (compatibilityScore_range (repeat Sample.newlyUsage 7)
                                         eq_refl)).
  - discriminate.
  - repeat constructor.
Defined.

End Report.

(* ================================================================== *)
(** * The run over the files of a project *)

Section Project.
Import Eff Run Analyzer.

Variable readFile : string -> Outcome string.
Variable extname : string -> string.
Variable glob : list string -> string -> Outcome (list string).
Variable parse : string -> string -> Outcome Postcss.Root.
Variable parseSelector : string -> Outcome (list Postcss.SelNode).
Variable toString : Postcss.Node -> string.
Variable features : Dataset.t.
Variable config : BaselineConfig.t.

Let checker : BaselineChecker.t := Analyzer.baselineChecker features config.
Let analyzeFile' :=
  analyzeFile readFile extname parse parseSelector toString features config.
Let analyzeInto' :=
  analyzeInto readFile extname parse parseSelector toString features config.
Let analyzeFiles' :=
  analyzeFiles readFile extname parse parseSelector toString features config.
Let analyzeProject' :=
  analyzeProject readFile extname glob parse parseSelector toString
                 features config.

(** What one file adds to the array of results: nothing, or its own
    analysis, which then has a usage. *)
Lemma analyzeInto_step (file : string) (s : list FileAnalysis.t) :
  analyzeInto' file s = (Ok tt, s)
  \/ exists analysis,
      analyzeFile' file = Ok analysis
      /\ FileAnalysis.features analysis <> []
      /\ analyzeInto' file s = (Ok tt, (s ++ [analysis])%list).
Proof.
  unfold analyzeInto', analyzeInto, try_catch, bind, lift, when, push,
    console_warn, ret.
  fold analyzeFile'.
  destruct (analyzeFile' file) as [analysis | e]; [|now left].
  destruct (FileAnalysis.features analysis) as [|u us] eqn:E; simpl;
    [now left|].
  right. exists analysis. rewrite E. repeat split. discriminate.
Qed.

(** A usage of the file [file], classified by the matcher of the run. *)
Let filed (file : string) (u : FeatureUsage.t) : Prop :=
  FeatureUsage.file u = file /\ Spec.classified checker u.

Lemma stylesheet_checkFeature_filed (featureId : string) (node : Postcss.Node)
      (filePath type : string) :
  emits (filed filePath)
        (CSSAnalyzer.checkFeature toString checker featureId node
                                  filePath type).
Proof.
  unfold CSSAnalyzer.checkFeature.
  destruct (BaselineChecker.baseline
              (BaselineChecker.checkFeature checker featureId))
    as [tier|] eqn:Hb.
  - apply emits_push. split; [reflexivity|]. exists tier. simpl.
    repeat split; [exact Hb | apply determineSeverity_rule].
  - apply emits_ret.
Qed.

(** The analysis of a file is about that file, and so are its usages,
    each classified by the matcher of the run. *)
Lemma analyzeFile_filed (file : string) (analysis : FileAnalysis.t) :
  analyzeFile' file = Ok analysis ->
  FileAnalysis.file analysis = file
  /\ Forall (filed file) (FileAnalysis.features analysis).
Proof.
  unfold analyzeFile', analyzeFile. fold checker.
  destruct (readFile file) as [content | e]; [|discriminate].
  destruct (JS.arrayIncludes _ _).
  - rewrite analyze_settles. intros H. inversion H; subst. simpl.
    split; [reflexivity|]. apply emits_from_empty.
    apply emits_try_catch; [|intros; apply emits_console_warn].
    apply emits_bind; [apply emits_lift|]. intros root.
    unfold CSSAnalyzer.analyzeRoot, CSSAnalyzer.analyzeDeclaration,
      CSSAnalyzer.analyzeValue, CSSAnalyzer.analyzeSelector,
      CSSAnalyzer.analyzeAtRule, CSSAnalyzer.analyzeMediaQuery,
      CSSAnalyzer.analyzeSupportsQuery.
    repeat first [apply stylesheet_checkFeature_filed | emits_step].
  - destruct (JS.arrayIncludes _ _).
    + rewrite script_analyze_settles. intros H. inversion H; subst. simpl.
      split; [reflexivity|]. apply Forall_forall. intros u Hu. split.
      * apply linesUsages_in in Hu. destruct Hu as (k & line & _ & Hu).
        apply lineUsages_in in Hu. destruct Hu as (p & _ & _ & Hu).
        now apply added_in in Hu.
      * now apply linesUsages_fields in Hu.
    + intros H. inversion H; subst. simpl. split; [reflexivity | constructor].
Qed.

(** The loop over the files: it returns, and the array of results grows
    by analyses of files of the list, each with a usage. *)
Lemma analyzeFiles_grows (files : list string) (s : list FileAnalysis.t) :
  exists added,
    analyzeFiles' files s = (Ok tt, (s ++ added)%list)
    /\ List.length added <= List.length files
    /\ Forall (fun analysis =>
                 FileAnalysis.features analysis <> []
                 /\ exists file,
                     In file files /\ analyzeFile' file = Ok analysis)
              added.
Proof.
  unfold analyzeFiles', analyzeFiles. fold analyzeInto'. revert s.
  induction files as [|file files IH]; intros s; simpl.
  - exists []. rewrite app_nil_r. repeat split; auto.
  - unfold bind.
    assert (Hweak : forall added,
               Forall (fun analysis =>
                         FileAnalysis.features analysis <> []
                         /\ exists f,
                             In f files /\ analyzeFile' f = Ok analysis)
                      added ->
               Forall (fun analysis =>
                         FileAnalysis.features analysis <> []
                         /\ exists f,
                             In f (file :: files)
                             /\ analyzeFile' f = Ok analysis)
                      added).
    { intros added H. eapply Forall_impl; [|exact H]. simpl.
      intros a (H1 & f & H2 & H3). split; [exact H1|]. exists f. auto. }
    destruct (analyzeInto_step file s) as [-> | (analysis & Ha & Hne & ->)].
    + destruct (IH s) as (added & -> & Hlen & Hall).
      exists added. repeat split; [lia | now apply Hweak].
    + destruct (IH (s ++ [analysis])%list) as (added & -> & Hlen & Hall).
      exists (analysis :: added). rewrite <- app_assoc. simpl.
      repeat split; [lia|].
      constructor; [|now apply Hweak].
      split; [exact Hne|]. exists file. split; [now left | exact Ha].
Qed.

(** A run over the discovered files: the report of what the loop
    collected; a failure of the discovery is passed on. *)
Lemma analyzeProject_run (projectPath : string) :
  match findFiles extname glob config projectPath with
  | Ok files =>
      analyzeProject' projectPath
      = Ok (generateReport (snd (analyzeFiles' files [])))
  | Throw error => analyzeProject' projectPath = Throw error
  end.
Proof.
  unfold analyzeProject', analyzeProject, bind, lift, console_warn, ret, get.
  fold analyzeFiles'.
  destruct (findFiles extname glob config projectPath) as [files | e];
    [|reflexivity].
  simpl. destruct (analyzeFiles_grows files []) as (added & -> & _).
  reflexivity.
Qed.

(** The result of a run is the report of analyses of discovered files. *)
Lemma analyzeProject_report (projectPath : string)
      (result : AnalysisResult.t) :
  analyzeProject' projectPath = Ok result ->
  exists files added,
    findFiles extname glob config projectPath = Ok files
    /\ result = generateReport added
    /\ List.length added <= List.length files
    /\ Forall (fun analysis =>
                 FileAnalysis.features analysis <> []
                 /\ exists file,
                     In file files /\ analyzeFile' file = Ok analysis)
              added.
Proof.
  intros Hr. pose proof (analyzeProject_run projectPath) as H.
  destruct (findFiles extname glob config projectPath) as [files | e];
    [|congruence].
  destruct (analyzeFiles_grows files []) as (added & E & Hlen & Hall).
  rewrite E, Hr in H. simpl in H. inversion H.
  exists files, added. auto.
Qed.

(** X17. A run settles whenever the discovery of the files does: no
    failure to read or to analyse a file makes [analyzeProject] reject.
    A failure of the discovery itself is passed on unchanged. *)
Theorem analyzeProject_settles_with_discovery (projectPath : string) :
  match findFiles extname glob config projectPath with
  | Ok files =>
      exists result,
        analyzeProject readFile extname glob parse parseSelector toString
                       features config projectPath = Ok result
  | Throw error =>
      analyzeProject readFile extname glob parse parseSelector toString
                     features config projectPath = Throw error
  end.
Proof.
  pose proof (analyzeProject_run projectPath) as H.
  destruct (findFiles extname glob config projectPath); [|exact H].
  eexists. exact H.
Qed.

(** X18. In the result of a run, [totalFiles] counts only files that were
    discovered and have at least one usage: it exceeds neither the number
    of discovered files nor [totalFeatures]; and every reported usage
    belongs to a discovered file. *)
Theorem report_counts_files_with_usages (projectPath : string)
        (files : list string) (result : AnalysisResult.t) :
  findFiles extname glob config projectPath = Ok files ->
  analyzeProject readFile extname glob parse parseSelector toString
                 features config projectPath = Ok result ->
  AnalysisResult.totalFiles result <= List.length files
  /\ AnalysisResult.totalFiles result <= AnalysisResult.totalFeatures result
  /\ Forall (fun u => In (FeatureUsage.file u) files)
            (AnalysisResult.violations result
             ++ AnalysisResult.warnings result
             ++ AnalysisResult.suggestions result).
Proof.
  intros Hf Hr.
  destruct (analyzeProject_report projectPath result Hr)
    as (files' & added & Hf' & -> & Hlen & Hall).
  rewrite Hf in Hf'. inversion Hf'; subst files'. simpl.
  split; [exact Hlen|]. split.
  - clear - Hall. induction Hall as [|a added (Hne & _) Hall IH];
      simpl; [lia|].
    rewrite length_app.
    destruct (FileAnalysis.features a); [congruence | simpl; lia].
  - pose proof (split_by_severity
                  (flat_map FileAnalysis.features added)) as P.
    apply Forall_forall. intros u Hu.
    apply (Permutation_in _ P), in_flat_map in Hu.
    destruct Hu as (a & Ha & Hu).
    rewrite Forall_forall in Hall.
    destruct (Hall a Ha) as (_ & file & Hin & Hfile).
    apply analyzeFile_filed in Hfile. destruct Hfile as (_ & Hus).
    rewrite Forall_forall in Hus. destruct (Hus u Hu) as [-> _]. exact Hin.
Qed.

(** The severity of a usage of a run, from its tier and the target. *)
Lemma run_usage_severity (projectPath : string) (result : AnalysisResult.t)
      (u : FeatureUsage.t) :
  analyzeProject' projectPath = Ok result ->
  In u (AnalysisResult.violations result
        ++ AnalysisResult.warnings result
        ++ AnalysisResult.suggestions result) ->
  exists tier,
    FeatureUsage.baseline u = Some tier
    /\ FeatureUsage.severity u
       = Spec.severity (BaselineChecker.evaluateCriteria config tier) tier.
Proof.
  intros Hr Hu.
  destruct (analyzeProject_report projectPath result Hr)
    as (files & added & _ & -> & _ & Hall).
  simpl in Hu.
  apply (Permutation_in
           _ (split_by_severity (flat_map FileAnalysis.features added)))
    in Hu.
  apply in_flat_map in Hu. destruct Hu as (a & Ha & Hu).
  rewrite Forall_forall in Hall.
  destruct (Hall a Ha) as (_ & file & _ & Hfile).
  apply analyzeFile_filed in Hfile. destruct Hfile as (_ & Hus).
  rewrite Forall_forall in Hus.
  destruct (Hus u Hu) as (_ & tier & Hb & Hc & Hs).
  exists tier. split; [exact Hb|].
  rewrite Hs. f_equal.
  now apply checkFeature_matched.
Qed.

Lemma filter_none {A : Type} (f : A -> bool) (l : list A) :
  (forall x, In x l -> f x = false) -> filter f l = [].
Proof.
  induction l as [|x l IH]; intros H; simpl; [reflexivity|].
  rewrite (H x (or_introl eq_refl)). apply IH. intros y Hy. apply H. now right.
Qed.

(** X19. In the result of a run the severities follow the tiers, by the
    target.  Under [widely-available] the violations are the usages of
    tier limited, the warnings those of tier newly-available and the
    suggestions those of tier widely-available.  Under [newly-available]
    there is no warning at all: a usage is a violation when its tier is
    limited and a suggestion otherwise.  Under [limited] there is neither
    a violation nor a warning.  Under any other target there is no
    suggestion. *)
Theorem run_severities_follow_the_target (projectPath : string)
        (result : AnalysisResult.t) :
  analyzeProject readFile extname glob parse parseSelector toString
                 features config projectPath = Ok result ->
  let target := BaselineConfig.target config in
  let tier_is (tier : BaselineTier) :=
    Forall (fun u => FeatureUsage.baseline u = Some tier) in
  (tier_is Limited (AnalysisResult.violations result))
  /\ (target = "widely-available" ->
      tier_is NewlyAvailable (AnalysisResult.warnings result)
      /\ tier_is WidelyAvailable (AnalysisResult.suggestions result))
  /\ (target = "newly-available" ->
      AnalysisResult.warnings result = []
      /\ Forall (fun u => FeatureUsage.baseline u <> Some Limited)
                (AnalysisResult.suggestions result))
  /\ (target = "limited" ->
      AnalysisResult.violations result = []
      /\ AnalysisResult.warnings result = [])
  /\ (target <> "widely-available" -> target <> "newly-available" ->
      target <> "limited" ->
      AnalysisResult.suggestions result = []).
Proof.
  intros Hr target tier_is.
  pose proof (run_usage_severity projectPath result) as Hsev.
  specialize (fun u => Hsev u Hr).
  destruct (analyzeProject_report projectPath result Hr)
    as (files & added & _ & Hres & _ & _).
  set (us := flat_map FileAnalysis.features added).
  assert (Hv : AnalysisResult.violations result
               = filter (fun f => severity_eqb (FeatureUsage.severity f)
                                               SevError) us)
    by (rewrite Hres; reflexivity).
  assert (Hw : AnalysisResult.warnings result
               = filter (fun f => severity_eqb (FeatureUsage.severity f)
                                               SevWarning) us)
    by (rewrite Hres; reflexivity).
  assert (Hs : AnalysisResult.suggestions result
               = filter (fun f => severity_eqb (FeatureUsage.severity f)
                                               SevInfo) us)
    by (rewrite Hres; reflexivity).
  assert (Hin : forall u, In u us ->
                  exists tier,
                    FeatureUsage.baseline u = Some tier
                    /\ FeatureUsage.severity u
                       = Spec.severity
                           (BaselineChecker.evaluateCriteria config tier)
                           tier).
  { intros u Hu. apply Hsev.
    apply (Permutation_in _ (Permutation_sym (split_by_severity us))) in Hu.
    rewrite Hv, Hw, Hs. exact Hu. }
  clear Hsev Hres Hr.
  unfold tier_is. rewrite Hv, Hw, Hs.
  unfold BaselineChecker.evaluateCriteria in Hin. fold target in Hin.
  split; [|split; [|split; [|split]]].
  - apply Forall_forall. intros u Hu. apply filter_In in Hu.
    destruct Hu as [Hu E]. destruct (Hin u Hu) as (tier & Hb & Hsv).
    rewrite Hsv in E. rewrite Hb.
    destruct tier; [| |reflexivity]; exfalso; revert E;
      unfold Spec.severity; repeat destruct (String.eqb _ _); simpl;
      discriminate.
  - intros Ht. rewrite Ht in Hin. simpl in Hin.
    split; apply Forall_forall; intros u Hu; apply filter_In in Hu;
      destruct Hu as [Hu E]; destruct (Hin u Hu) as (tier & Hb & Hsv);
      rewrite Hsv in E; rewrite Hb; destruct tier; simpl in E;
      try reflexivity; discriminate.
  - intros Ht. rewrite Ht in Hin. simpl in Hin. split.
    + apply filter_none. intros u Hu.
      destruct (Hin u Hu) as (tier & _ & ->). now destruct tier.
    + apply Forall_forall; intros u Hu; apply filter_In in Hu.
      destruct Hu as [Hu E]. destruct (Hin u Hu) as (tier & Hb & Hsv).
      rewrite Hsv in E. rewrite Hb. destruct tier; simpl in E;
        try discriminate E; discriminate.
  - intros Ht. rewrite Ht in Hin. simpl in Hin.
    split; apply filter_none; intros u Hu;
      destruct (Hin u Hu) as (tier & _ & ->); reflexivity.
  - intros H1 H2 H3.
    apply String.eqb_neq in H1, H2, H3. rewrite H1, H2, H3 in Hin.
    apply filter_none. intros u Hu.
    destruct (Hin u Hu) as (tier & _ & ->). now destruct tier.
Qed.

(** X20. Every discovered file has an extractor: its extension is one of
    the eight, whatever the case of its letters, so that [analyzeFile]
    hands it to the stylesheet extractor or to the script extractor and
    never takes the branch of unsupported files. *)
Theorem discovered_files_have_an_extractor (projectPath : string)
        (files : list string) (file content : string) :
  findFiles extname glob config projectPath = Ok files ->
  In file files ->
  readFile file = Ok content ->
  analyzeFile readFile extname parse parseSelector toString features config
              file
  = (if JS.arrayIncludes [".css"; ".scss"; ".sass"; ".less"]
                         (JS.toLowerCase (extname file))
     then CSSAnalyzer.analyze parse parseSelector toString
                              (baselineChecker features config) content file
     else SimpleJavaScriptAnalyzer.analyze (baselineChecker features config)
                                           content file).
Proof.
  unfold findFiles. intros Hf Hin Hread.
  destruct (glob _ projectPath) as [found | e]; [|discriminate].
  inversion Hf; subst files. clear Hf.
  apply filter_In in Hin. destruct Hin as [_ Hext]. cbv beta zeta in Hext.
  unfold analyzeFile. rewrite Hread.
  destruct (JS.arrayIncludes [".css"; ".scss"; ".sass"; ".less"] _) eqn:Ec;
    [reflexivity|].
  destruct (JS.arrayIncludes [".js"; ".jsx"; ".ts"; ".tsx"] _) eqn:Ej;
    [reflexivity|].
  exfalso. unfold JS.arrayIncludes in *. simpl in Hext, Ec, Ej.
  repeat match type of Ec with
         | (_ || _)%bool = false =>
             apply orb_false_iff in Ec; destruct Ec as [? Ec]
         end.
  repeat match type of Ej with
         | (_ || _)%bool = false =>
             apply orb_false_iff in Ej; destruct Ej as [? Ej]
         end.
  repeat match goal with
         | H : String.eqb ?a ?b = false |- _ => rewrite H in Hext; clear H
         end.
  discriminate.
Qed.

End Project.

Section ProjectWitnesses.
Import Eff Analyzer.

Let readFile := fun _ : string => Ok "const f = (a) => a ?? 1;".
Let extname := fun file : string =>
                 if String.eqb file "/p/a.js" then ".js" else ".txt".
Let glob := fun (_ : list string) (_ : string) =>
              Ok ["/p/a.js"; "/p/notes.txt"].
Let parse := fun _ _ : string => Ok Sample.wideRoot.
Let parseSelector := fun _ : string => Ok Sample.wideSelector.
Let run (target : string) :=
  generateReport
    (snd (analyzeFiles readFile extname parse parseSelector Sample.stringify
                       Sample.features (Sample.config target [])
                       ["/p/a.js"] [])).

Lemma report_counts_files_with_usages_witness :
  AnalysisResult.totalFiles (run "widely-available") <= 1
  /\ AnalysisResult.totalFiles (run "widely-available")
     <= AnalysisResult.totalFeatures (run "widely-available").
Proof.
  pose proof (report_counts_files_with_usages
                readFile extname glob parse parseSelector
                Sample.stringify Sample.features
                (Sample.config "widely-available" [])
                "/p" ["/p/a.js"] (run "widely-available")
                ltac:(vm_compute; reflexivity)
                ltac:(vm_compute; reflexivity)) as (H1 & H2 & _).
  split; [exact H1 | exact H2].
Defined.

Lemma run_severities_follow_the_target_witness :
  AnalysisResult.violations (run "limited") = []
  /\ AnalysisResult.warnings (run "limited") = [].
Proof.
  pose proof (run_severities_follow_the_target
                readFile extname glob parse parseSelector
                Sample.stringify Sample.features
                (Sample.config "limited" [])
                "/p" (run "limited")
                ltac:(vm_compute; reflexivity)) as (_ & _ & _ & H & _).
  apply H. reflexivity.
Defined.

Lemma discovered_files_have_an_extractor_witness :
  analyzeFile readFile extname parse parseSelector Sample.stringify
              Sample.features (Sample.config "limited" []) "/p/a.js"
  = SimpleJavaScriptAnalyzer.analyze
      (baselineChecker Sample.features (Sample.config "limited" []))
      "const f = (a) => a ?? 1;" "/p/a.js".
Proof.
  apply (discovered_files_have_an_extractor
           readFile extname glob parse parseSelector
           Sample.stringify Sample.features (Sample.config "limited" [])
           "/p" ["/p/a.js"] "/p/a.js" "const f = (a) => a ?? 1;");
    [vm_compute; reflexivity | simpl; tauto | reflexivity].
Defined.

End ProjectWitnesses.

(* ================================================================== *)
(** * The risk score of a report *)

Section Risk.
Import JSNumber.
Open Scope Q_scope.

(** The computed risk score is [Math.round] of a number within
    [3 * 2^-53], relatively, of the exact value. *)
Lemma calculateRiskScore_near (result : AnalysisResult.t) :
  let errors := Summary.errors (AnalysisResult.summary result) in
  let warnings := Summary.warnings (AnalysisResult.summary result) in
  let totalUsages := AnalysisResult.totalFeatures result in
  (Z.of_nat errors < 2 ^ 32)%Z ->
  (Z.of_nat warnings < 2 ^ 32)%Z ->
  (Z.of_nat totalUsages < 2 ^ 32)%Z ->
  totalUsages <> 0%nat ->
  exists q,
    JSONReporter.calculateRiskScore result = Math_round q
    /\ Spec.riskValue errors warnings totalUsages * (1 - 3 * pow2 (-53)) <= q
    /\ q <= Spec.riskValue errors warnings totalUsages * (1 + 3 * pow2 (-53)).
Proof.
  intros errors warnings totalUsages He Hw Ht Ht0.
  unfold JSONReporter.calculateRiskScore.
  fold errors warnings totalUsages.
  set (E := Z.of_nat errors) in *. set (W := Z.of_nat warnings) in *.
  set (T := Z.of_nat totalUsages) in *.
  assert (HE : (0 <= E)%Z) by (unfold E; lia).
  assert (HW : (0 <= W)%Z) by (unfold W; lia).
  assert (HT : (0 < T)%Z) by (unfold T; lia).
  pose proof (mul_counter errors 3 ltac:(lia) ltac:(fold E; lia)) as A1.
  pose proof (mul_counter warnings 1 ltac:(lia) ltac:(fold W; lia)) as A2.
  pose proof (mul_counter totalUsages 3 ltac:(lia) ltac:(fold T; lia)) as A3.
  fold E in A1. fold W in A2. fold T in A3.
  change (inject_Z 3) with 3 in A1, A3. change (inject_Z 1) with 1 in A2.
  pose proof (add_integers _ _ _ _ A1 A2 ltac:(lia) ltac:(lia) ltac:(lia))
    as A4.
  set (totalRisk := add (mul (ofNat errors) 3) (mul (ofNat warnings) 1)) in *.
  set (maxPossibleRisk := mul (ofNat totalUsages) 3) in *.
  assert (Hmax : Qeq_bool maxPossibleRisk 0 = false).
  { destruct (Qeq_bool maxPossibleRisk 0) eqn:B; [|reflexivity].
    apply Qeq_bool_iff in B. rewrite A3 in B.
    unfold Qeq in B. simpl in B. lia. }
  rewrite Hmax.
  destruct (div_then_mul_error totalRisk maxPossibleRisk
              (E * 3 + W * 1) (T * 3) 100 A4 A3
              ltac:(lia) ltac:(lia) ltac:(lia)) as [B1 B2].
  change (inject_Z 100) with 100 in B1, B2.
  assert (Ev : 100 * inject_Z (E * 3 + W * 1) / inject_Z (T * 3)
               == Spec.riskValue errors warnings totalUsages).
  { unfold Spec.riskValue. fold E W T.
    rewrite inject_Z_plus, !inject_Z_mult.
    change (inject_Z 3) with 3. change (inject_Z 1) with 1.
    assert (0 < inject_Z T) by (rewrite <- (Zlt_Qlt 0); exact HT).
    field. lra. }
  exists (mul (div totalRisk maxPossibleRisk) 100).
  split; [reflexivity|]. rewrite <- Ev. split; assumption.
Qed.

(** The exact value lies between 0 and 100 when the errors and the
    warnings are among the usages. *)
Lemma riskValue_range (errors warnings totalUsages : nat) :
  (errors + warnings <= totalUsages)%nat -> totalUsages <> 0%nat ->
  0 <= Spec.riskValue errors warnings totalUsages <= 100.
Proof.
  intros Hsum Ht0. unfold Spec.riskValue.
  set (E := Z.of_nat errors). set (W := Z.of_nat warnings).
  set (T := Z.of_nat totalUsages).
  assert (HE : 0 <= inject_Z E) by (rewrite <- (Zle_Qle 0); unfold E; lia).
  assert (HW : 0 <= inject_Z W) by (rewrite <- (Zle_Qle 0); unfold W; lia).
  assert (HT : 0 < inject_Z T) by (rewrite <- (Zlt_Qlt 0); unfold T; lia).
  assert (HS : inject_Z E + inject_Z W <= inject_Z T).
  { rewrite <- inject_Z_plus, <- Zle_Qle. unfold E, W, T. lia. }
  split.
  - apply Qle_shift_div_l; [lra|]. lra.
  - apply Qle_shift_div_r; [lra|]. lra.
Qed.

Lemma calculateRiskScore_range (result : AnalysisResult.t) :
  let errors := Summary.errors (AnalysisResult.summary result) in
  let warnings := Summary.warnings (AnalysisResult.summary result) in
  let totalUsages := AnalysisResult.totalFeatures result in
  (Z.of_nat totalUsages < 2 ^ 32)%Z ->
  (errors + warnings <= totalUsages)%nat ->
  (0 <= JSONReporter.calculateRiskScore result <= 100)%Z
  /\ (errors = 0%nat -> warnings = 0%nat ->
      JSONReporter.calculateRiskScore result = 0%Z)
  /\ (errors = totalUsages -> totalUsages <> 0%nat ->
      JSONReporter.calculateRiskScore result = 100%Z).
Proof.
  intros errors warnings totalUsages Ht Hsum.
  destruct (Nat.eq_dec totalUsages 0) as [Hz | Hnz].
  - rewrite (calculateRiskScore_empty result Hz).
    repeat split; try lia; congruence.
  - destruct (calculateRiskScore_near result) as (q & -> & Hlo & Hhi);
      fold errors warnings totalUsages; try lia.
    fold errors warnings totalUsages in Hlo, Hhi.
    pose proof (riskValue_range errors warnings totalUsages Hsum Hnz)
      as [V0 V1].
    rewrite eps_value in Hlo, Hhi.
    set (v := Spec.riskValue errors warnings totalUsages) in *.
    unfold Math_round.
    assert (R0 : (0 <= Qfloor (q + (1 # 2)))%Z).
    { change 0%Z with (Qfloor 0). apply Qfloor_resp_le.
      assert (0 <= v * (1 - 3 * (1 # 9007199254740992))).
      { apply Qmult_le_0_compat; lra. }
      lra. }
    assert (Hq100 : q <= 100 * (1 + 3 * (1 # 9007199254740992))).
    { eapply Qle_trans; [exact Hhi|]. apply Qmult_le_compat_r; lra. }
    assert (R1 : (Qfloor (q + (1 # 2)) <= 100)%Z).
    { assert (Qfloor (q + (1 # 2)) < 101)%Z; [|lia].
      rewrite Zlt_Qlt. change (inject_Z 101) with 101.
      apply Qle_lt_trans with (q + (1 # 2)); [apply Qfloor_le|]. lra. }
    split; [split; assumption|]. split.
    + intros E0 W0.
      assert (Hv0 : v == 0).
      { unfold v, Spec.riskValue. rewrite E0, W0. simpl.
        assert (0 < inject_Z (Z.of_nat totalUsages))
          by (rewrite <- (Zlt_Qlt 0); lia).
        field. lra. }
      rewrite Hv0 in Hlo, Hhi.
      apply Qfloor_unique; change (inject_Z 0) with 0;
        change (inject_Z (0 + 1)) with 1; lra.
    + intros Eall _.
      assert (W0 : warnings = 0%nat) by lia.
      assert (Hv100 : v == 100).
      { unfold v, Spec.riskValue. rewrite Eall, W0.
        assert (0 < inject_Z (Z.of_nat totalUsages))
          by (rewrite <- (Zlt_Qlt 0); lia).
        change (inject_Z (Z.of_nat 0)) with 0. field. lra. }
      rewrite Hv100 in Hlo, Hhi.
      apply Qfloor_unique; change (inject_Z 100) with 100;
        change (inject_Z (100 + 1)) with 101; lra.
Qed.

(** X21. The risk score of a report of [generateReport] lies between 0
    and 100; it is 0 when no usage is an error or a warning, and 100 when
    there are usages and all of them are errors (fewer than 2^32
    usages). *)
Theorem report_riskScore_range (fileAnalyses : list FileAnalysis.t) :
  let result := Analyzer.generateReport fileAnalyses in
  (Z.of_nat (AnalysisResult.totalFeatures result) < 2 ^ 32)%Z ->
  (0 <= JSONReporter.calculateRiskScore result <= 100)%Z
  /\ (AnalysisResult.violations result = [] ->
      AnalysisResult.warnings result = [] ->
      JSONReporter.calculateRiskScore result = 0%Z)
  /\ (AnalysisResult.totalFeatures result <> 0%nat ->
      AnalysisResult.warnings result = [] ->
      AnalysisResult.suggestions result = [] ->
      JSONReporter.calculateRiskScore result = 100%Z).
Proof.
  intros result Ht.
  pose proof (split_by_severity
                (flat_map FileAnalysis.features fileAnalyses)) as P.
  apply Permutation_length in P. rewrite !length_app in P.
  assert (Hsum : (Summary.errors (AnalysisResult.summary result)
                  + Summary.warnings (AnalysisResult.summary result)
                  <= AnalysisResult.totalFeatures result)%nat).
  { unfold result, Analyzer.generateReport. simpl. lia. }
  destruct (calculateRiskScore_range result Ht Hsum) as (R & Z0 & Z100).
  split; [exact R|]. split.
  - intros Hv Hw. apply Z0.
    + unfold result, Analyzer.generateReport in *. simpl in *. now rewrite Hv.
    + unfold result, Analyzer.generateReport in *. simpl in *. now rewrite Hw.
  - intros Hnz Hw Hs. apply Z100; [|exact Hnz].
    unfold result, Analyzer.generateReport in *. simpl in *.
    rewrite Hw, Hs in P. simpl in P. lia.
Qed.

Lemma report_riskScore_range_witness :
  (0 <= JSONReporter.calculateRiskScore
          (Analyzer.generateReport
             [FileAnalysis.mk "a.css" FtCss
                              [Sample.limitedUsage; Sample.widelyUsage]])
   <= 100)%Z.
Proof.
  apply (report_riskScore_range
           [FileAnalysis.mk "a.css" FtCss
                            [Sample.limitedUsage; Sample.widelyUsage]]).
  vm_compute. reflexivity.
Defined.

End Risk.

(* ================================================================== *)
(** * Maps in insertion order *)

Section Maps.
Context {V : Type}.
Implicit Types (m : JSMap.t V) (k : string) (v : V).

Lemma get_set_same m k v : JSMap.get (JSMap.set m k v) k = Some v.
Proof.
  unfold JSMap.get. induction m as [|[k' v'] m IH]; simpl.
  - now rewrite String.eqb_refl.
  - destruct (String.eqb k' k) eqn:E; simpl; rewrite E; auto.
Qed.

Lemma get_set_other m k k' v :
  k' <> k -> JSMap.get (JSMap.set m k v) k' = JSMap.get m k'.
Proof.
  intros Hne. unfold JSMap.get. induction m as [|[k0 v0] m IH]; simpl.
  - destruct (String.eqb k k') eqn:E; [|reflexivity].
    apply String.eqb_eq in E. congruence.
  - destruct (String.eqb k0 k) eqn:E; simpl.
    + apply String.eqb_eq in E. subst k0.
      destruct (String.eqb k k') eqn:E'; [|reflexivity].
      apply String.eqb_eq in E'. congruence.
    + destruct (String.eqb k0 k'); auto.
Qed.

Lemma get_none m k : JSMap.get m k = None <-> ~ In k (JSMap.keys m).
Proof.
  unfold JSMap.get, JSMap.keys. induction m as [|[k' v'] m IH]; simpl.
  - tauto.
  - destruct (String.eqb k' k) eqn:E.
    + apply String.eqb_eq in E. split; [discriminate | tauto].
    + apply String.eqb_neq in E. tauto.
Qed.

Lemma get_in m k v : JSMap.get m k = Some v -> In (k, v) m.
Proof.
  unfold JSMap.get. induction m as [|[k' v'] m IH]; simpl; [discriminate|].
  destruct (String.eqb k' k) eqn:E.
  - apply String.eqb_eq in E. intros H. inversion H. subst. now left.
  - auto.
Qed.

Lemma in_get m k v : NoDup (JSMap.keys m) -> In (k, v) m -> JSMap.get m k = Some v.
Proof.
  unfold JSMap.get, JSMap.keys. induction m as [|[k' v'] m IH]; simpl;
    [tauto|].
  intros Hnd [H | H].
  - inversion H. subst. now rewrite String.eqb_refl.
  - inversion Hnd as [|? ? Hnot Hnd']. subst.
    destruct (String.eqb k' k) eqn:E; [|auto].
    apply String.eqb_eq in E. subst k'. exfalso. apply Hnot.
    change k with (fst (k, v)). now apply in_map.
Qed.

Lemma keys_set m k v :
  JSMap.keys (JSMap.set m k v)
  = if JSMap.has m k then JSMap.keys m else (JSMap.keys m ++ [k])%list.
Proof.
  unfold JSMap.has, JSMap.keys. induction m as [|[k' v'] m IH]; simpl.
  - reflexivity.
  - destruct (String.eqb k' k) eqn:E; simpl; [reflexivity|].
    rewrite IH. now destruct (assoc k m).
Qed.

Lemma keys_set_NoDup m k v :
  NoDup (JSMap.keys m) -> NoDup (JSMap.keys (JSMap.set m k v)).
Proof.
  intros Hnd. rewrite keys_set. unfold JSMap.has.
  destruct (assoc k m) eqn:E; [exact Hnd|].
  apply get_none in E.
  apply NoDup_rev in Hnd. rewrite <- (rev_involutive (_ ++ _)).
  apply NoDup_rev. rewrite rev_app_distr. simpl.
  constructor; [|exact Hnd]. now rewrite <- in_rev.
Qed.

Lemma length_set m k v :
  List.length (JSMap.set m k v)
  = if JSMap.has m k then List.length m else S (List.length m).
Proof.
  unfold JSMap.has. induction m as [|[k' v'] m IH]; simpl; [reflexivity|].
  destruct (String.eqb k' k); simpl; [reflexivity|].
  rewrite IH. now destruct (assoc k m).
Qed.

End Maps.

(* ================================================================== *)
(** * The statistics of the JSON report *)

Section Tallies.
Import Statistics.

Variable key : FeatureUsage.t -> string.

Let step (m : JSMap.t nat) (feature : FeatureUsage.t) : JSMap.t nat :=
  increment m (key feature).

Lemma increment_same (m : JSMap.t nat) (k : string) :
  JSMap.get (increment m k) k
  = Some (match JSMap.get m k with Some n => n | None => 0 end + 1).
Proof. apply get_set_same. Qed.

Lemma increment_other (m : JSMap.t nat) (k k' : string) :
  k' <> k -> JSMap.get (increment m k) k' = JSMap.get m k'.
Proof. apply get_set_other. Qed.

Lemma occurrences_cons (k : string) (u : FeatureUsage.t)
      (us : list FeatureUsage.t) :
  occurrences key k (u :: us)
  = (if String.eqb (key u) k then 1 else 0) + occurrences key k us.
Proof.
  unfold occurrences. simpl. now destruct (String.eqb (key u) k).
Qed.

(** The loop of a tally, from any map of counters. *)
Lemma tally_from (us : list FeatureUsage.t) (m : JSMap.t nat) (k : string) :
  JSMap.get (fold_left step us m) k
  = match JSMap.get m k, occurrences key k us with
    | Some c, n => Some (c + n)
    | None, 0 => None
    | None, n => Some n
    end.
Proof.
  revert m. induction us as [|u us IH]; intros m.
  - simpl. unfold occurrences. simpl.
    destruct (JSMap.get m k); [f_equal; lia | reflexivity].
  - simpl. rewrite IH, occurrences_cons. unfold step.
    destruct (String.eqb (key u) k) eqn:E.
    + apply String.eqb_eq in E. rewrite E, increment_same.
      destruct (JSMap.get m k); simpl; f_equal; lia.
    + apply String.eqb_neq in E.
      rewrite (increment_other m (key u) k) by congruence.
      reflexivity.
Qed.

Lemma tally_keys_from (us : list FeatureUsage.t) (m : JSMap.t nat) :
  NoDup (JSMap.keys m) -> NoDup (JSMap.keys (fold_left step us m)).
Proof.
  revert m. induction us as [|u us IH]; intros m Hnd; simpl; [exact Hnd|].
  apply IH. now apply keys_set_NoDup.
Qed.

Lemma sum_set (m : JSMap.t nat) (k : string) :
  list_sum (map snd (increment m k)) = list_sum (map snd m) + 1.
Proof.
  unfold increment, JSMap.get.
  induction m as [|[k' c] m IH]; simpl; [reflexivity|].
  destruct (String.eqb k' k); simpl; [lia|].
  unfold JSMap.t in *. rewrite IH. lia.
Qed.

Lemma tally_sum_from (us : list FeatureUsage.t) (m : JSMap.t nat) :
  list_sum (map snd (fold_left step us m))
  = list_sum (map snd m) + List.length us.
Proof.
  revert m. induction us as [|u us IH]; intros m; simpl; [lia|].
  rewrite IH. unfold step. rewrite sum_set. lia.
Qed.

(** A tally holds, for every key, the number of usages with that key,
    and no entry for a key without usage; its keys are distinct and its
    counts add up to the number of usages. *)
Lemma tally_counts (us : list FeatureUsage.t) :
  (forall k,
      JSMap.get (tally key us) k
      = match occurrences key k us with 0 => None | n => Some n end)
  /\ NoDup (JSMap.keys (tally key us))
  /\ list_sum (map snd (tally key us)) = List.length us.
Proof.
  unfold tally. fold step. split; [|split].
  - intros k. now rewrite tally_from.
  - apply tally_keys_from. constructor.
  - now rewrite tally_sum_from.
Qed.

End Tallies.

Section TopFeatures.
Import Statistics.

(** By decreasing count. *)
Let before (a b : string * nat) : Prop := snd b <= snd a.

Lemma insert_permutation (entry : string * nat)
      (sorted : list (string * nat)) :
  Permutation (insert entry sorted) (entry :: sorted).
Proof.
  induction sorted as [|next rest IH]; simpl; [reflexivity|].
  destruct (snd entry <? snd next)%nat; [|reflexivity].
  rewrite IH. apply perm_swap.
Qed.

Lemma sort_permutation (entries : list (string * nat)) :
  Permutation (sort entries) entries.
Proof.
  induction entries as [|entry rest IH]; simpl; [reflexivity|].
  rewrite insert_permutation. now constructor.
Qed.

Lemma insert_sorted (entry : string * nat) (sorted : list (string * nat)) :
  StronglySorted before sorted -> StronglySorted before (insert entry sorted).
Proof.
  induction sorted as [|next rest IH]; intros Hs; simpl.
  - repeat constructor.
  - inversion Hs as [|? ? Hrest Hall]. subst.
    destruct (snd entry <? snd next)%nat eqn:E.
    + apply Nat.ltb_lt in E. constructor; [now apply IH|].
      apply Forall_forall. intros x Hx.
      apply (Permutation_in _ (insert_permutation entry rest)) in Hx.
      destruct Hx as [<- | Hx]; [unfold before; lia|].
      rewrite Forall_forall in Hall. now apply Hall.
    + apply Nat.ltb_ge in E. constructor; [exact Hs|].
      constructor; [exact E|].
      eapply Forall_impl; [|exact Hall]. unfold before. intros x Hx. lia.
Qed.

Lemma sort_sorted (entries : list (string * nat)) :
  StronglySorted before (sort entries).
Proof.
  induction entries as [|entry rest IH]; simpl; [constructor|].
  now apply insert_sorted.
Qed.

Lemma firstn_sorted {A : Type} (R : A -> A -> Prop) (n : nat) (l : list A) :
  StronglySorted R l ->
  StronglySorted R (firstn n l)
  /\ forall x y, In x (firstn n l) -> In y (skipn n l) -> R x y.
Proof.
  revert l. induction n as [|n IH]; intros l Hs; simpl.
  - split; [constructor | tauto].
  - destruct l as [|a l]; [split; [constructor | simpl; tauto]|].
    inversion Hs as [|? ? Hl Hall]. subst.
    destruct (IH l Hl) as [IH1 IH2]. split.
    + constructor; [exact IH1|].
      apply Forall_forall. intros x Hx. rewrite Forall_forall in Hall.
      apply Hall. rewrite <- (firstn_skipn n l). apply in_or_app. now left.
    + intros x y [<- | Hx] Hy.
      * rewrite Forall_forall in Hall. apply Hall.
        rewrite <- (firstn_skipn n l). apply in_or_app. now right.
      * now apply IH2.
Qed.

(** X22. The top features of the JSON report: the ten most used feature
    names, or all of them when there are fewer, each once and with the
    number of its usages, by decreasing count; no feature left out is
    used more often than a listed one. *)
Theorem topFeatures_are_the_most_used (result : AnalysisResult.t) :
  let features := allFeatures result in
  let uses (name : string) := occurrences FeatureUsage.feature name features in
  let top := topFeatures result in
  List.length top = Nat.min 10 (List.length (featureFrequency result))
  /\ NoDup (map fst top)
  /\ StronglySorted (fun a b => snd b <= snd a) top
  /\ (forall name count, In (name, count) top ->
                         count = uses name /\ 0 < count)
  /\ (forall name, ~ In name (map fst top) ->
                   forall listed count, In (listed, count) top ->
                                        uses name <= count).
Proof.
  intros features uses top.
  destruct (tally_counts FeatureUsage.feature features)
    as (Hget & Hnd & _).
  fold (featureFrequency result) in Hget, Hnd.
  set (freq := featureFrequency result) in *.
  pose proof (sort_permutation freq) as P.
  destruct (firstn_sorted _ 10 _ (sort_sorted freq)) as [S1 S2].
  assert (Hmem : forall name count,
             In (name, count) (sort freq) -> count = uses name /\ 0 < count).
  { intros name count Hin. apply (Permutation_in _ P) in Hin.
    apply (in_get _ _ _ Hnd) in Hin. rewrite Hget in Hin. fold (uses name) in Hin.
    destruct (uses name); [discriminate|]. inversion Hin. lia. }
  assert (Hsub : forall e, In e top -> In e (sort freq)).
  { intros e He. unfold top, topFeatures in He. fold freq in He.
    rewrite <- (firstn_skipn 10 (sort freq)). apply in_or_app. now left. }
  split; [|split; [|split; [|split]]].
  - unfold top, topFeatures. fold freq. rewrite length_firstn.
    now rewrite (Permutation_length P).
  - assert (Hnd' : NoDup (map fst (sort freq))).
    { eapply Permutation_NoDup; [|exact Hnd].
      apply Permutation_sym, Permutation_map, P. }
    unfold top, topFeatures. fold freq.
    rewrite <- (firstn_skipn 10 (sort freq)), map_app in Hnd'.
    now apply NoDup_app_remove_r in Hnd'.
  - exact S1.
  - intros name count Hin. apply Hmem. now apply Hsub.
  - intros name Hout listed count Hin.
    destruct (uses name) as [|n] eqn:E; [lia|].
    assert (Hn : In (name, S n) (sort freq)).
    { apply (Permutation_in _ (Permutation_sym P)).
      apply get_in. rewrite Hget. fold (uses name). now rewrite E. }
    rewrite <- (firstn_skipn 10 (sort freq)) in Hn.
    apply in_app_or in Hn. destruct Hn as [Hn | Hn].
    + exfalso. apply Hout. change name with (fst (name, S n)).
      now apply in_map.
    + apply (S2 (listed, count) (name, S n) Hin Hn).
Qed.

(** X23. The three tallies of the JSON report (by extension of the
    file, by tier and by feature name) hold, for every key, the number
    of usages with that key, and no entry for a key without usage; in
    each the keys are distinct and the counts add up to the number of
    usages of the report. *)
Theorem tallies_count_the_usages (result : AnalysisResult.t) :
  let features := allFeatures result in
  let counts (key : FeatureUsage.t -> string) (m : JSMap.t nat) :=
    (forall k,
        JSMap.get m k
        = match occurrences key k features with 0 => None | n => Some n end)
    /\ NoDup (JSMap.keys m)
    /\ list_sum (map snd m) = List.length features in
  counts ext (fileTypes result)
  /\ counts status (baselineDistribution result)
  /\ counts FeatureUsage.feature (featureFrequency result).
Proof.
  cbv zeta. repeat split; try apply tally_counts.
Qed.

End TopFeatures.

(* ================================================================== *)
(** * The console report: usages by file, and relative paths *)

Section Grouping.
Import ConsoleReporter.

Lemma group_same (m : JSMap.t (list FeatureUsage.t)) (u : FeatureUsage.t) :
  JSMap.get (group m u) (FeatureUsage.file u)
  = Some (match JSMap.get m (FeatureUsage.file u) with
          | Some usages => usages
          | None => []
          end ++ [u])%list.
Proof.
  unfold group, JSMap.has. fold (JSMap.get m (FeatureUsage.file u)).
  destruct (JSMap.get m (FeatureUsage.file u)) as [usages|] eqn:E; simpl.
  - rewrite E. apply get_set_same.
  - rewrite get_set_same. apply get_set_same.
Qed.

Lemma group_other (m : JSMap.t (list FeatureUsage.t)) (u : FeatureUsage.t)
      (file : string) :
  file <> FeatureUsage.file u ->
  JSMap.get (group m u) file = JSMap.get m file.
Proof.
  intros Hne. unfold group, JSMap.has.
  fold (JSMap.get m (FeatureUsage.file u)).
  destruct (JSMap.get m (FeatureUsage.file u)) as [usages|] eqn:E; simpl.
  - rewrite E. now apply get_set_other.
  - rewrite get_set_same. rewrite !get_set_other by exact Hne. reflexivity.
Qed.

Lemma group_keys (m : JSMap.t (list FeatureUsage.t)) (u : FeatureUsage.t) :
  NoDup (JSMap.keys m) -> NoDup (JSMap.keys (group m u)).
Proof.
  intros Hnd. unfold group, JSMap.has.
  fold (JSMap.get m (FeatureUsage.file u)).
  destruct (JSMap.get m (FeatureUsage.file u)) as [usages|] eqn:E; simpl.
  - rewrite E. now apply keys_set_NoDup.
  - rewrite get_set_same. now apply keys_set_NoDup, keys_set_NoDup.
Qed.

Lemma groupByFile_from (us : list FeatureUsage.t)
      (m : JSMap.t (list FeatureUsage.t)) (file : string) :
  JSMap.get (fold_left group us m) file
  = match JSMap.get m file,
          filter (fun u => String.eqb (FeatureUsage.file u) file) us with
    | Some usages, more => Some (usages ++ more)%list
    | None, [] => None
    | None, more => Some more
    end.
Proof.
  revert m. induction us as [|u us IH]; intros m; simpl.
  - destruct (JSMap.get m file); [now rewrite app_nil_r | reflexivity].
  - rewrite IH. destruct (String.eqb (FeatureUsage.file u) file) eqn:E.
    + apply String.eqb_eq in E. subst file. rewrite group_same.
      destruct (JSMap.get m (FeatureUsage.file u)); simpl;
        [now rewrite <- app_assoc | reflexivity].
    + apply String.eqb_neq in E.
      rewrite group_other by congruence. reflexivity.
Qed.

(** X24. [groupByFile] loses nothing and mixes nothing: under each file
    it holds exactly the usages of that file, in their order in the
    report; a file without usage has no entry, and no file has two. *)
Theorem groupByFile_groups_by_file (features : list FeatureUsage.t) :
  (forall file,
      JSMap.get (groupByFile features) file
      = match filter (fun u => String.eqb (FeatureUsage.file u) file)
                     features with
        | [] => None
        | usages => Some usages
        end)
  /\ NoDup (JSMap.keys (groupByFile features)).
Proof.
  unfold groupByFile. split.
  - intros file. now rewrite groupByFile_from.
  - assert (H : forall us m, NoDup (JSMap.keys m) ->
                             NoDup (JSMap.keys (fold_left group us m))).
    { induction us as [|u us IH]; intros m Hnd; simpl; [exact Hnd|].
      now apply IH, group_keys. }
    apply H. constructor.
Qed.

Lemma prefix_append (p s : string) : String.prefix p (p ++ s) = true.
Proof.
  induction p as [|c p IH]; simpl; [now destruct s|].
  destruct (ascii_dec c c); [exact IH | congruence].
Qed.

(** X25. A path below the working directory is shown relative to it:
    the directory and the one character after it, whatever it is, are
    removed. *)
Theorem getRelativePath_below_cwd (cwd : string) (separator : ascii)
        (relative : string) :
  getRelativePath cwd (cwd ++ String separator relative) = relative.
Proof.
  unfold getRelativePath, JS.startsWith. rewrite prefix_append.
  replace (String.length cwd + 1) with (S (String.length cwd)) by lia.
  induction cwd as [|c cwd IH]; simpl; [reflexivity | exact IH].
Qed.

End Grouping.

(* ================================================================== *)
(** * Suggestions: legacy features, progressive enhancements and the
      opportunities of a report *)

Section ObjectLookups.
Context {A : Type}.

Lemma assoc_includes (own : list (string * A)) (key : string) :
  JS.arrayIncludes (map fst own) key
  = match assoc key own with Some _ => true | None => false end.
Proof.
  unfold JS.arrayIncludes. induction own as [|[k a] own IH]; simpl;
    [reflexivity|].
  rewrite (String.eqb_sym key k). now destruct (String.eqb k key).
Qed.

Lemma assoc_in (own : list (string * A)) (key : string) (a : A) :
  assoc key own = Some a -> In (key, a) own.
Proof.
  induction own as [|[k a'] own IH]; simpl; [discriminate|].
  destruct (String.eqb k key) eqn:E; [|auto].
  apply String.eqb_eq in E. intros H. inversion H. subst. now left.
Qed.

End ObjectLookups.

Section LegacySuggestions.
Import JSObject LegacyFeatures.

Lemma suggest_from (legacyFeatures : list string)
      (suggestions : list LegacySuggestion.t) :
  fold_left suggest legacyFeatures suggestions
  = (suggestions ++ fold_left suggest legacyFeatures [])%list.
Proof.
  revert suggestions.
  induction legacyFeatures as [|feature rest IH]; intros suggestions; simpl.
  - now rewrite app_nil_r.
  - rewrite IH. rewrite (IH (suggest [] feature)).
    rewrite app_assoc. f_equal.
    unfold suggest. destruct (lookup modernizationMap feature); simpl;
      now rewrite ?app_nil_r.
Qed.

Lemma getModernizationSuggestions_cons (feature : string)
      (rest : list string) :
  getModernizationSuggestions (feature :: rest)
  = (suggest [] feature ++ getModernizationSuggestions rest)%list.
Proof. unfold getModernizationSuggestions. simpl. apply suggest_from. Qed.

Lemma modernizationMap_lookup (feature : string) :
  let known :=
    JS.arrayIncludes ["float"; "clearfix"; "position: absolute"] feature in
  match lookup modernizationMap feature with
  | Own entry =>
      known = true /\ inherits feature = false
      /\ (newFeature entry = "flexbox" \/ newFeature entry = "css-grid")
  | Inherited => known = false /\ inherits feature = true
  | Undefined => known = false /\ inherits feature = false
  end.
Proof.
  cbv zeta.
  change ["float"; "clearfix"; "position: absolute"]
    with (map fst modernizationMap).
  rewrite assoc_includes. unfold lookup.
  destruct (assoc feature modernizationMap) as [entry|] eqn:E.
  - apply assoc_in in E. unfold modernizationMap in E.
    destruct E as [E | [E | [E | []]]]; inversion E; subst;
      repeat split; auto.
  - destruct (inherits feature); auto.
Qed.

(** X26. [getModernizationSuggestions] answers the legacy features in
    their order, repetitions included: one suggestion for each of
    [float], [clearfix] and [position: absolute], towards [flexbox] or
    [css-grid]; and one for each name of a member that objects inherit
    (such as [constructor]), which carries no [newFeature].  Any other
    name is passed over. *)
Theorem legacy_suggestions_follow_the_input (legacyFeatures : list string) :
  let suggestions := getModernizationSuggestions legacyFeatures in
  map LegacySuggestion.oldFeature suggestions
  = filter (fun feature =>
              JS.arrayIncludes ["float"; "clearfix"; "position: absolute"]
                               feature
              || inherits feature) legacyFeatures
  /\ Forall (fun s =>
               match LegacySuggestion.newFeature s with
               | Some new =>
                   inherits (LegacySuggestion.oldFeature s) = false
                   /\ (new = "flexbox" \/ new = "css-grid")
               | None => inherits (LegacySuggestion.oldFeature s) = true
               end) suggestions.
Proof.
  cbv zeta.
  induction legacyFeatures as [|feature rest [IH1 IH2]].
  - split; [reflexivity | constructor].
  - rewrite getModernizationSuggestions_cons. unfold suggest.
    pose proof (modernizationMap_lookup feature) as Hc. cbv zeta in Hc.
    cbn [filter].
    destruct (lookup modernizationMap feature) as [entry| |].
    + destruct Hc as (-> & Hi & Hn). simpl.
      split; [now rewrite IH1|]. constructor; [simpl; auto | exact IH2].
    + destruct Hc as (-> & Hi). rewrite Hi. simpl.
      split; [now rewrite IH1|]. constructor; [exact Hi | exact IH2].
    + destruct Hc as (-> & ->). simpl.
      split; [exact IH1 | exact IH2].
Qed.

End LegacySuggestions.

Section Enhancements.
Import JSObject ProgressiveEnhancements.

Lemma enhance_from (features : list FeatureUsage.t)
      (found : list Enhancement.t) :
  fold_left enhance features found
  = (found ++ fold_left enhance features [])%list.
Proof.
  revert found. induction features as [|feature rest IH]; intros found; simpl.
  - now rewrite app_nil_r.
  - rewrite IH. rewrite (IH (enhance [] feature)).
    rewrite app_assoc. f_equal. unfold enhance.
    destruct (FeatureUsage.baseline feature) as [[| |]|];
      try destruct (getProgressiveEnhancement _); simpl;
      now rewrite ?app_nil_r.
Qed.

Lemma generateProgressiveEnhancements_cons (feature : FeatureUsage.t)
      (rest : list FeatureUsage.t) :
  generateProgressiveEnhancements (feature :: rest)
  = (enhance [] feature ++ generateProgressiveEnhancements rest)%list.
Proof. unfold generateProgressiveEnhancements. simpl. apply enhance_from. Qed.

Lemma getProgressiveEnhancement_cases (featureId : string) :
  let known :=
    JS.arrayIncludes ["css-grid"; "container-queries"; "aspect-ratio"]
                     featureId in
  match getProgressiveEnhancement featureId with
  | Own _ => known = true /\ inherits featureId = false
  | Inherited => known = false /\ inherits featureId = true
  | Undefined => known = false /\ inherits featureId = false
  end.
Proof.
  cbv zeta.
  change ["css-grid"; "container-queries"; "aspect-ratio"]
    with (map fst enhancements).
  rewrite assoc_includes. unfold getProgressiveEnhancement, lookup.
  destruct (assoc featureId enhancements) as [entry|] eqn:E.
  - apply assoc_in in E. unfold enhancements in E.
    destruct E as [E | [E | [E | []]]]; inversion E; subst;
      repeat split; auto.
  - destruct (inherits featureId); auto.
Qed.

(** X27. [generateProgressiveEnhancements] answers the usages in their
    order: one enhancement for each usage of tier newly-available or
    limited whose feature is [css-grid], [container-queries] or
    [aspect-ratio], with its three texts; and one, without texts, for
    each such usage whose feature names a member that objects inherit.
    A usage of tier widely-available, or without tier, gets none. *)
Theorem enhancements_follow_the_usages (features : list FeatureUsage.t) :
  let found := generateProgressiveEnhancements features in
  map Enhancement.feature found
  = map FeatureUsage.feature
        (filter (fun u =>
                   match FeatureUsage.baseline u with
                   | Some NewlyAvailable | Some Limited =>
                       JS.arrayIncludes
                         ["css-grid"; "container-queries"; "aspect-ratio"]
                         (FeatureUsage.feature u)
                       || inherits (FeatureUsage.feature u)
                   | _ => false
                   end) features)
  /\ Forall (fun e =>
               match Enhancement.fallback e, Enhancement.enhancement e,
                     Enhancement.example e with
               | Some _, Some _, Some _ =>
                   inherits (Enhancement.feature e) = false
               | None, None, None => inherits (Enhancement.feature e) = true
               | _, _, _ => False
               end) found.
Proof.
  cbv zeta.
  induction features as [|u rest [IH1 IH2]].
  - split; [reflexivity | constructor].
  - rewrite generateProgressiveEnhancements_cons. unfold enhance.
    cbn [filter].
    pose proof (getProgressiveEnhancement_cases (FeatureUsage.feature u))
      as Hc.
    cbv zeta in Hc.
    destruct (FeatureUsage.baseline u) as [[| |]|];
      try (split; [exact IH1 | exact IH2]);
      destruct (getProgressiveEnhancement (FeatureUsage.feature u));
      destruct Hc as [-> Hi]; rewrite Hi; simpl;
      (split; [now rewrite ?IH1 | try constructor; auto]).
Qed.

End Enhancements.

Section Opportunities.
Import Analyzer.

Lemma existsb_same {A : Type} (f : A -> bool) (us vs : list A) :
  (forall u, In u us <-> In u vs) -> existsb f us = existsb f vs.
Proof.
  intros H.
  destruct (existsb f us) eqn:E1, (existsb f vs) eqn:E2; try reflexivity.
  - apply existsb_exists in E1. destruct E1 as (x & Hx & Hf).
    rewrite <- E2. symmetry. apply existsb_exists. exists x.
    split; [now apply H | exact Hf].
  - apply existsb_exists in E2. destruct E2 as (x & Hx & Hf).
    rewrite <- E1. apply existsb_exists. exists x.
    split; [now apply H | exact Hf].
Qed.

Lemma filter_same {A : Type} (f : A -> bool) (us vs : list A) :
  (forall u, In u us <-> In u vs) ->
  forall u, In u (filter f us) <-> In u (filter f vs).
Proof. intros H u. rewrite !filter_In, H. tauto. Qed.

Lemma nonempty_same {A : Type} (us vs : list A) :
  (forall u, In u us <-> In u vs) ->
  (0 <? List.length us)%nat = (0 <? List.length vs)%nat.
Proof.
  intros H. destruct us as [|u us], vs as [|v vs]; try reflexivity.
  - exfalso. apply (H v). now left.
  - exfalso. apply (H u). now left.
Qed.

(** X28. The modernization opportunities of a report depend only on
    which usages occur, not on their order or their number; there are at
    most three of them. *)
Theorem opportunities_depend_on_the_usages_only
        (us vs : list FeatureUsage.t) :
  (forall u, In u us <-> In u vs) ->
  generateModernizationSuggestions us = generateModernizationSuggestions vs
  /\ List.length (generateModernizationSuggestions us) <= 3.
Proof.
  intros H. unfold generateModernizationSuggestions, groupFeaturesByType.
  split.
  - f_equal; [|f_equal].
    + rewrite (existsb_same _ _ _ (filter_same _ us vs H)). reflexivity.
    + rewrite (existsb_same _ _ _ (filter_same _ us vs H)). reflexivity.
    + cbv zeta.
      rewrite (nonempty_same _ _ (filter_same _ us vs H)). reflexivity.
  - rewrite !length_app.
    repeat match goal with
           | |- context [if ?c then _ else _] => destruct c
           end; simpl; lia.
Qed.

Lemma opportunities_depend_on_the_usages_only_witness :
  generateModernizationSuggestions [Sample.newlyUsage; Sample.limitedUsage]
  = generateModernizationSuggestions
      [Sample.limitedUsage; Sample.newlyUsage; Sample.limitedUsage].
Proof.
  apply (opportunities_depend_on_the_usages_only
           [Sample.newlyUsage; Sample.limitedUsage]
           [Sample.limitedUsage; Sample.newlyUsage; Sample.limitedUsage]).
  intros u. simpl. tauto.
Defined.

End Opportunities.

(* ================================================================== *)
(** * Candidates found by substring: keywords and media features *)

Section StylesheetSubstrings.
Import Eff Run Postcss CSSAnalyzer.

Variable parse : string -> string -> Outcome Root.
Variable parseSelector : string -> Outcome (list SelNode).
Variable toString : Node -> string.
Variable checker : BaselineChecker.t.

Lemma analyzeRoot_leaves_decl (root : Root) (filePath : string)
      (decl : Node) (usage : FeatureUsage.t) :
  In decl (walkDecls root) ->
  leaves usage (analyzeDeclaration toString checker decl filePath) ->
  leaves usage (analyzeRoot parseSelector toString checker root filePath).
Proof.
  intros Hin Hl. unfold analyzeRoot.
  apply (leaves_bind_l (fun _ => True)).
  - apply (leaves_forEach (fun _ => True)) with (a := decl); auto.
    + intros; apply analyzeDeclaration_returns.
    + intros; apply analyzeDeclaration_appends.
  - intros _.
    repeat first [ apply analyzeSelector_appends
                 | apply analyzeAtRule_appends
                 | emits_step ].
Qed.

(** A candidate tried for each name of a list that the text includes. *)
Lemma included_name_leaves (names : list string) (text name : string)
      (node : Node) (filePath type : string) (tier : BaselineTier) :
  In name names ->
  JS.includes text name = true ->
  BaselineChecker.baseline (BaselineChecker.checkFeature checker name)
  = Some tier ->
  leaves (StylesheetUsages.usageOf toString checker name node filePath
                                   type tier)
         (forEach names
                  (fun name =>
                     when (JS.includes text name)
                          (checkFeature toString checker name node
                                        filePath type))).
Proof.
  intros Hin Hinc Hb.
  apply (leaves_forEach (fun _ => True)) with (a := name); auto.
  - intros y. repeat returns_step. apply checkFeature_returns.
  - intros y. repeat first [apply checkFeature_appends | emits_step].
  - rewrite Hinc. now apply checkFeature_leaves.
Qed.

(** X29. Keywords and media features are found by substring.  For every
    declaration of a stylesheet that parses, each of the sixteen keywords
    that its value includes is reported when the matcher gives it a tier;
    and so is, for every [@media] at-rule, each of the ten media features
    that its parameters include.  The usage is placed at the declaration
    or at the at-rule. *)
Theorem included_names_are_reported
        (content filePath : string) (root : Root) (node : Node)
        (name : string) (tier : BaselineTier) :
  parse content filePath = Ok root ->
  In node (walk root) ->
  (exists property value start,
      node = Declaration property value start
      /\ In name keywords /\ JS.includes value name = true)
  \/ (exists params nodes start,
         node = AtRule "media" params nodes start
         /\ In name mediaFeatures /\ JS.includes params name = true) ->
  BaselineChecker.baseline (BaselineChecker.checkFeature checker name)
  = Some tier ->
  exists analysis usage,
    analyze parse parseSelector toString checker content filePath
    = Ok analysis
    /\ In usage (FileAnalysis.features analysis)
    /\ FeatureUsage.feature usage = name
    /\ FeatureUsage.file usage = filePath
    /\ FeatureUsage.line usage = line node
    /\ FeatureUsage.column usage = column node
    /\ FeatureUsage.baseline usage = Some tier.
Proof.
  intros Hp Hin Hcase Hb.
  destruct Hcase as [(property & value & start & -> & Hn & Hinc)
                    | (params & nodes & start & -> & Hn & Hinc)].
  - eexists. exists (StylesheetUsages.usageOf
                       toString checker name
                       (Declaration property value start)
                       filePath "keyword" tier).
    split; [now apply analyze_parsed with (root := root)|].
    split; [|repeat split]. simpl.
    apply (analyzeRoot_leaves_decl root filePath
                                   (Declaration property value start)).
    { apply filter_In. now split. }
    unfold analyzeDeclaration.
    apply leaves_bind_r; [apply checkFeature_returns|]. intros _.
    apply (leaves_bind_l (fun _ => True)).
    + unfold analyzeValue.
      apply leaves_bind_r.
      { repeat returns_step. apply checkFeature_returns. }
      intros _. apply (leaves_bind_l (fun _ => True)).
      * now apply included_name_leaves.
      * intros _. repeat first [apply checkFeature_appends | emits_step].
    + intros _. repeat first [apply checkFeature_appends | emits_step].
  - eexists. exists (StylesheetUsages.usageOf
                       toString checker name
                       (AtRule "media" params nodes start)
                       filePath "media-feature" tier).
    split; [now apply analyze_parsed with (root := root)|].
    split; [|repeat split]. simpl.
    apply (analyzeRoot_leaves_at_rule parseSelector toString checker
                                      root filePath
                                      (AtRule "media" params nodes start)).
    { apply filter_In. now split. }
    unfold analyzeAtRule.
    apply leaves_bind_r; [apply checkFeature_returns|]. intros _.
    cbn [Postcss.name Postcss.params]. simpl String.eqb. cbv iota.
    unfold analyzeMediaQuery. now apply included_name_leaves.
Qed.

End StylesheetSubstrings.

Section StylesheetSubstringsWitnesses.
Import Eff Postcss CSSAnalyzer.

Let hover : Dataset.Feature :=
  Dataset.mkFeature (Some "Hover media feature")
                    (Some ["css.at-rules.media.hover"])
                    (Some (Dataset.mkStatus (Some "high")
                                            (Sample.support "38" "64" "9"))).

Let media : Node := AtRule "media" "(any-hover: hover)" [] (Some (2, 1)).

Lemma included_names_are_reported_witness :
  exists analysis usage,
    analyze (fun _ _ => Ok [media]) (fun _ => Throw "unused")
            Sample.stringify
            (BaselineChecker.new [("hover", hover)]
                                 (Sample.config "widely-available" []))
            "@media (any-hover: hover){}" "hover.css"
    = Ok analysis
    /\ In usage (FileAnalysis.features analysis)
    /\ FeatureUsage.feature usage = "hover"
    /\ FeatureUsage.line usage = 2.
Proof.
  destruct (included_names_are_reported
              (fun _ _ => Ok [media]) (fun _ => Throw "unused")
              Sample.stringify
              (BaselineChecker.new [("hover", hover)]
                                   (Sample.config "widely-available" []))
              "@media (any-hover: hover){}" "hover.css" [media] media
              "hover" WidelyAvailable eq_refl)
    as (analysis & usage & Ha & Hu & Hf & _ & Hl & _).
  { simpl. tauto. }
  { right. exists "(any-hover: hover)", [], (Some (2, 1)).
    split; [reflexivity|]. split; [simpl; tauto | reflexivity]. }
  { vm_compute. reflexivity. }
  exists analysis, usage. repeat split; assumption.
Defined.

End StylesheetSubstringsWitnesses.

(* ================================================================== *)
(** * The risk score against the formula *)

Section RiskAtTies.
Import JSNumber.
Open Scope Q_scope.

Lemma nearestEven_comp (a b : Q) : a == b -> nearestEven a = nearestEven b.
Proof.
  intros H. unfold nearestEven.
  rewrite (Qfloor_comp _ _ H).
  assert (E : a - inject_Z (Qfloor b) == b - inject_Z (Qfloor b))
    by (rewrite H; reflexivity).
  now rewrite (Qcompare_comp _ _ E _ _ (Qeq_refl (1 # 2))).
Qed.

Lemma ilog2_comp (x y : Q) : 0 < x -> x == y -> ilog2 x = ilog2 y.
Proof.
  intros Hx H.
  assert (Hy : 0 < y) by (rewrite <- H; exact Hx).
  destruct (ilog2_spec x Hx) as [X1 X2].
  destruct (ilog2_spec y Hy) as [Y1 Y2].
  apply (ilog2_unique x); try assumption; rewrite H; assumption.
Qed.

Lemma ulp_comp (x y : Q) : 0 < x -> x == y -> ulp x = ulp y.
Proof. intros Hx H. unfold ulp. now rewrite (ilog2_comp x y Hx H). Qed.

Lemma round_positive_comp (x y : Q) : 0 < x -> x == y -> round x = round y.
Proof.
  intros Hx H.
  assert (Hy : 0 < y) by (rewrite <- H; exact Hx).
  rewrite (round_positive x Hx), (round_positive y Hy).
  rewrite (ulp_comp x y Hx H).
  assert (E : x / ulp y == y / ulp y) by (rewrite H; reflexivity).
  now rewrite (nearestEven_comp _ _ E).
Qed.

(** Binary64 rounding does not depend on how a rational is written. *)
Lemma round_comp (x y : Q) : x == y -> round x = round y.
Proof.
  intros H.
  destruct (Qlt_le_dec 0 x) as [Hx | Hx];
    [now apply round_positive_comp|].
  apply Qle_lteq in Hx. destruct Hx as [Hx | H0].
  - assert (Hn : 0 < - x) by lra.
    assert (Hm : 0 < - y) by (rewrite <- H; exact Hn).
    assert (E : - x == - y) by (rewrite H; reflexivity).
    unfold round.
    assert (Cx : Qcompare x 0 = Lt) by (apply Qlt_alt; exact Hx).
    assert (Cy : Qcompare y 0 = Lt)
      by (apply Qlt_alt; rewrite <- H; exact Hx).
    rewrite Cx, Cy.
    rewrite (ulp_comp (- x) (- y) Hn E).
    assert (E' : - x / ulp (- y) == - y / ulp (- y))
      by (rewrite H; reflexivity).
    now rewrite (nearestEven_comp _ _ E').
  - rewrite (round_zero x H0). symmetry. apply round_zero.
    now rewrite <- H.
Qed.

(** The hundred ties between 0 and 100, computed. *)
Lemma atTie_table (k : Z) :
  (0 <= k <= 99)%Z ->
  RiskTies.atTie k
  = (if existsb (Z.eqb k) RiskTies.low then k else k + 1)%Z.
Proof.
  intros Hk.
  assert (T : forallb
                (fun n =>
                   let k := Z.of_nat n in
                   Z.eqb (RiskTies.atTie k)
                         (if existsb (Z.eqb k) RiskTies.low
                          then k else k + 1)%Z)
                (seq 0 100) = true)
    by (vm_compute; reflexivity).
  rewrite forallb_forall in T.
  specialize (T (Z.to_nat k)). cbv zeta in T.
  rewrite Z2Nat.id in T by lia.
  apply Z.eqb_eq, T, in_seq. lia.
Qed.

Lemma lowTie_at (v : Q) (k : Z) :
  v == inject_Z k + (1 # 2) ->
  RiskTies.lowTie v = existsb (Z.eqb k) RiskTies.low.
Proof.
  intros Hv. unfold RiskTies.lowTie.
  induction RiskTies.low as [|j l IH]; simpl; [reflexivity|].
  rewrite IH. f_equal.
  destruct (Z.eqb_spec k j) as [-> | Hne].
  - apply Qeq_bool_iff. exact Hv.
  - destruct (Qeq_bool v (inject_Z j + (1 # 2))) eqn:E; [|reflexivity].
    exfalso. apply Qeq_bool_iff in E. rewrite Hv in E.
    apply Hne. unfold Qeq in E. simpl in E. lia.
Qed.

Lemma lowTie_halfway (v : Q) : RiskTies.lowTie v = true -> Spec.halfway v.
Proof.
  unfold RiskTies.lowTie. intros H. apply existsb_exists in H.
  destruct H as (k & _ & H). exists k. now apply Qeq_bool_iff.
Qed.

Lemma halfway_or_not (v : Q) :
  (exists k, v == inject_Z k + (1 # 2)) \/ ~ Spec.halfway v.
Proof.
  destruct (Qeq_bool v (inject_Z (Qfloor v) + (1 # 2))) eqn:E.
  - left. exists (Qfloor v). now apply Qeq_bool_iff.
  - right. intros [k Hk].
    assert (F : Qfloor v = k).
    { apply Qfloor_unique; rewrite ?inject_Z_plus;
        change (inject_Z 1) with 1; lra. }
    rewrite F in E. apply Qeq_bool_iff in Hk. congruence.
Qed.

(** At a tie the risk score depends on the tie only. *)
Lemma calculateRiskScore_at_tie (result : AnalysisResult.t) (k : Z) :
  let errors := Summary.errors (AnalysisResult.summary result) in
  let warnings := Summary.warnings (AnalysisResult.summary result) in
  let totalUsages := AnalysisResult.totalFeatures result in
  (Z.of_nat errors < 2 ^ 32)%Z ->
  (Z.of_nat warnings < 2 ^ 32)%Z ->
  (Z.of_nat totalUsages < 2 ^ 32)%Z ->
  totalUsages <> 0%nat ->
  Spec.riskValue errors warnings totalUsages == inject_Z k + (1 # 2) ->
  JSONReporter.calculateRiskScore result = RiskTies.atTie k.
Proof.
  intros errors warnings totalUsages He Hw Ht Hnz Hk.
  unfold JSONReporter.calculateRiskScore.
  fold errors warnings totalUsages.
  set (E := Z.of_nat errors) in *. set (W := Z.of_nat warnings) in *.
  set (T := Z.of_nat totalUsages) in *.
  assert (HE : (0 <= E)%Z) by (unfold E; lia).
  assert (HW : (0 <= W)%Z) by (unfold W; lia).
  assert (HT : (0 < T)%Z) by (unfold T; lia).
  pose proof (mul_counter errors 3 ltac:(lia) ltac:(fold E; lia)) as A1.
  pose proof (mul_counter warnings 1 ltac:(lia) ltac:(fold W; lia)) as A2.
  pose proof (mul_counter totalUsages 3 ltac:(lia) ltac:(fold T; lia)) as A3.
  fold E in A1. fold W in A2. fold T in A3.
  change (inject_Z 3) with 3 in A1, A3. change (inject_Z 1) with 1 in A2.
  pose proof (add_integers _ _ _ _ A1 A2 ltac:(lia) ltac:(lia) ltac:(lia))
    as A4.
  set (totalRisk := add (mul (ofNat errors) 3) (mul (ofNat warnings) 1)) in *.
  set (maxPossibleRisk := mul (ofNat totalUsages) 3) in *.
  assert (Hmax : Qeq_bool maxPossibleRisk 0 = false).
  { destruct (Qeq_bool maxPossibleRisk 0) eqn:B; [|reflexivity].
    apply Qeq_bool_iff in B. rewrite A3 in B.
    unfold Qeq in B. simpl in B. lia. }
  rewrite Hmax. unfold RiskTies.atTie, div. do 2 f_equal.
  apply round_comp. rewrite A4, A3.
  assert (HTq : 0 < inject_Z T) by (rewrite <- (Zlt_Qlt 0); exact HT).
  assert (HT3 : 0 < inject_Z (T * 3)) by (rewrite <- (Zlt_Qlt 0); lia).
  assert (Ev : Spec.riskValue errors warnings totalUsages
               == 100 * (inject_Z (E * 3 + W * 1) / inject_Z (T * 3))).
  { unfold Spec.riskValue. fold E W T.
    rewrite inject_Z_plus, !inject_Z_mult.
    change (inject_Z 3) with 3. change (inject_Z 1) with 1.
    field. lra. }
  rewrite Ev in Hk.
  assert (Ek : inject_Z (2 * k + 1) == 2 * inject_Z k + 1)
    by (rewrite inject_Z_plus, inject_Z_mult; reflexivity).
  rewrite Ek.
  set (x := inject_Z (E * 3 + W * 1) / inject_Z (T * 3)) in *.
  apply Qmult_inj_l with (z := 100); [lra|].
  rewrite Hk. field.
Qed.

(** X30. For a report whose errors and warnings are among its usages
    (fewer than 2^32), as every report of [generateReport] is, the risk
    score is round(100 x (3 errors + warnings) / (3 totalUsages)), except
    when that exact value is 14.5, 28.5, 56.5 or 57.5: there the score is
    one less, 14, 28, 56 or 57. *)
Theorem riskScore_departs_at_four_ties (result : AnalysisResult.t) :
  let errors := Summary.errors (AnalysisResult.summary result) in
  let warnings := Summary.warnings (AnalysisResult.summary result) in
  let totalUsages := AnalysisResult.totalFeatures result in
  (Z.of_nat totalUsages < 2 ^ 32)%Z ->
  (errors + warnings <= totalUsages)%nat ->
  JSONReporter.calculateRiskScore result
  = (Spec.riskScore errors warnings totalUsages
     - (if RiskTies.lowTie (Spec.riskValue errors warnings totalUsages)
        then 1 else 0))%Z.
Proof.
  intros errors warnings totalUsages Ht Hsum.
  set (v := Spec.riskValue errors warnings totalUsages).
  destruct (Nat.eq_dec totalUsages 0) as [Hz | Hnz].
  { rewrite (calculateRiskScore_empty result Hz).
    assert (He : errors = 0%nat) by lia.
    assert (Hw : warnings = 0%nat) by lia.
    unfold v. rewrite Hz, He, Hw. reflexivity. }
  assert (Hscore : Spec.riskScore errors warnings totalUsages
                   = Qfloor (v + (1 # 2))).
  { unfold Spec.riskScore, Spec.roundHalfUp.
    destruct totalUsages; [congruence | reflexivity]. }
  rewrite Hscore.
  destruct (halfway_or_not v) as [[k Hk] | Hnot].
  - pose proof (riskValue_range errors warnings totalUsages Hsum Hnz)
      as [V0 V1].
    fold v in V0, V1.
    assert (K0 : (-1 < k)%Z).
    { rewrite Zlt_Qlt. change (inject_Z (-1)) with (-1 # 1). lra. }
    assert (K1 : (k < 100)%Z).
    { rewrite Zlt_Qlt. change (inject_Z 100) with 100. lra. }
    assert (F : Qfloor (v + (1 # 2)) = (k + 1)%Z).
    { apply Qfloor_unique; rewrite !inject_Z_plus;
        change (inject_Z 1) with 1; lra. }
    rewrite F, (lowTie_at v k Hk).
    rewrite (calculateRiskScore_at_tie result k); fold errors warnings totalUsages;
      try assumption; try lia.
    rewrite (atTie_table k) by lia.
    destruct (existsb (Z.eqb k) RiskTies.low); lia.
  - assert (Hlow : RiskTies.lowTie v = false).
    { destruct (RiskTies.lowTie v) eqn:E; [|reflexivity].
      exfalso. now apply Hnot, lowTie_halfway. }
    rewrite Hlow, Z.sub_0_r.
    apply calculateRiskScore_rounds; fold errors warnings totalUsages;
      try assumption; lia.
Qed.

Lemma riskScore_departs_at_four_ties_witness :
  JSONReporter.calculateRiskScore Sample.riskyResult = (58 - 1)%Z.
Proof.
  rewrite (riskScore_departs_at_four_ties Sample.riskyResult);
    [vm_compute; reflexivity | vm_compute; reflexivity | vm_compute; lia].
Defined.

End RiskAtTies.
